(** * The chat pipeline of the emotions backend

    A shallow embedding of [backend/services/chat]: the intent analysis
    ([intentAnalyze.js]), the chat service ([chatService.js]) and the chart
    generator ([chartGenerator.js]), with the properties of the pipeline
    proved over it.

    JavaScript strings are held as [string]s carrying their UTF-8 encoding;
    substring search on well-formed text agrees between the two encodings.
    Numbers that the program only uses as integers are held in [Z]. *)

From Stdlib Require Import ZArith List String Ascii Bool Lia.
From Stdlib Require Import Permutation Sorted DecimalString.
Import ListNotations.

#[local] Open Scope string_scope.
#[local] Open Scope Z_scope.

(** ** JavaScript strings *)

Module JsStr.

(** [s.includes(sub)] *)
Fixpoint includes (s sub : string) : bool :=
  String.prefix sub s ||
  match s with
  | EmptyString => false
  | String _ rest => includes rest sub
  end.

(** [a || b || ...] over [q.includes(k)] for a group of keywords *)
Definition includes_any (q : string) (keys : list string) : bool :=
  existsb (includes q) keys.

Definition byte (n : nat) : ascii := ascii_of_nat n.

Definition is_byte (c : ascii) (n : nat) : bool := Ascii.eqb c (byte n).

(** The white space and line terminators that [String.prototype.trim]
    removes, by the length of their UTF-8 encoding. One byte: TAB, LF, VT,
    FF, CR, SP. *)
Definition ws1 (a : ascii) : bool :=
  is_byte a 9 || is_byte a 10 || is_byte a 11 || is_byte a 12 ||
  is_byte a 13 || is_byte a 32.

(** Two bytes: U+00A0. *)
Definition ws2 (a b : ascii) : bool := is_byte a 194 && is_byte b 160.

(** Three bytes: U+1680, U+2000..U+200A, U+2028, U+2029, U+202F, U+205F,
    U+3000, U+FEFF. *)
Definition ws3 (a b c : ascii) : bool :=
  (is_byte a 225 && is_byte b 154 && is_byte c 128) ||
  (is_byte a 226 && is_byte b 128 &&
     ((Nat.leb 128 (nat_of_ascii c) && Nat.leb (nat_of_ascii c) 138) ||
      is_byte c 168 || is_byte c 169 || is_byte c 175)) ||
  (is_byte a 226 && is_byte b 129 && is_byte c 159) ||
  (is_byte a 227 && is_byte b 128 && is_byte c 128) ||
  (is_byte a 239 && is_byte b 187 && is_byte c 191).

(** [s.trimStart()] on the byte sequence *)
Fixpoint trimStart_bytes (s : list ascii) : list ascii :=
  match s with
  | [] => []
  | a :: s1 =>
      if ws1 a then trimStart_bytes s1 else
      match s1 with
      | [] => s
      | b :: s2 =>
          if ws2 a b then trimStart_bytes s2 else
          match s2 with
          | [] => s
          | c :: s3 => if ws3 a b c then trimStart_bytes s3 else s
          end
      end
  end.

(** the same scan from the other end, on the reversed byte sequence *)
Fixpoint trimEnd_rev (s : list ascii) : list ascii :=
  match s with
  | [] => []
  | a :: s1 =>
      if ws1 a then trimEnd_rev s1 else
      match s1 with
      | [] => s
      | b :: s2 =>
          if ws2 b a then trimEnd_rev s2 else
          match s2 with
          | [] => s
          | c :: s3 => if ws3 c b a then trimEnd_rev s3 else s
          end
      end
  end.

(** [s.trim()] *)
Definition trim (s : string) : string :=
  string_of_list_ascii
    (rev (trimEnd_rev (rev (trimStart_bytes (list_ascii_of_string s))))).

(** A string is truthy when it is not empty. *)
Definition truthy (s : string) : bool :=
  match s with EmptyString => false | _ => true end.

(** [String(n)] for an integer *)
Definition of_Z (n : Z) : string := NilZero.string_of_int (Z.to_int n).

Fixpoint repeat_char (c : ascii) (n : nat) : string :=
  match n with O => EmptyString | S k => String c (repeat_char c k) end.

(** [s.padStart(width, '0')] *)
Definition padStart0 (width : nat) (s : string) : string :=
  repeat_char "0"%char (width - String.length s) ++ s.

(** One white-space character, as the string of its encoding. *)
Inductive ws_char : string -> Prop :=
| ws_char1 a : ws1 a = true -> ws_char (String a EmptyString)
| ws_char2 a b : ws2 a b = true -> ws_char (String a (String b EmptyString))
| ws_char3 a b c :
    ws3 a b c = true -> ws_char (String a (String b (String c EmptyString))).

(** Empty, or made of white space only. *)
Inductive whitespace_only : string -> Prop :=
| ws_empty : whitespace_only EmptyString
| ws_more w s : ws_char w -> whitespace_only s -> whitespace_only (w ++ s).

End JsStr.

(** ** Calendar dates and the dayjs operations the program uses *)

Module Dayjs.

Definition ms_per_day : Z := 86400000.

(** Day number (days since 1970-01-01) of a proleptic Gregorian date;
    [m] is 1..12. *)
Definition days_from_civil (y m d : Z) : Z :=
  let y' := if m <=? 2 then y - 1 else y in
  let era := y' / 400 in
  let yoe := y' - era * 400 in
  let mp := if m <=? 2 then m + 9 else m - 3 in
  let doy := (153 * mp + 2) / 5 + d - 1 in
  let doe := yoe * 365 + yoe / 4 - yoe / 100 + doy in
  era * 146097 + doe - 719468.

(** Year, month (1..12) and day of the month of a day number. *)
Definition civil_from_days (z : Z) : Z * Z * Z :=
  let z' := z + 719468 in
  let era := z' / 146097 in
  let doe := z' - era * 146097 in
  let yoe := (doe - doe / 1460 + doe / 36524 - doe / 146096) / 365 in
  let doy := doe - (365 * yoe + yoe / 4 - yoe / 100) in
  let mp := (5 * doy + 2) / 153 in
  let d := doy - (153 * mp + 2) / 5 + 1 in
  let m := if mp <? 10 then mp + 3 else mp - 9 in
  let y := yoe + era * 400 in
  ((if m <=? 2 then y + 1 else y), m, d).

Definition is_leap (y : Z) : bool :=
  ((y mod 4 =? 0) && negb (y mod 100 =? 0)) || (y mod 400 =? 0).

Definition days_in_month (y m : Z) : Z :=
  if m =? 2 then (if is_leap y then 29 else 28)
  else if (m =? 4) || (m =? 6) || (m =? 9) || (m =? 11) then 30
  else 31.

(** A dayjs object: the wall-clock reading of its zone, in milliseconds
    counted from 1970-01-01T00:00 of that zone. The fields [$y], [$M], [$D]
    are derived from it. *)
Record t : Type := mk { wall_ms : Z }.

Definition day_number (d : t) : Z := wall_ms d / ms_per_day.
Definition ms_of_day (d : t) : Z := wall_ms d mod ms_per_day.
Definition year (d : t) : Z := fst (fst (civil_from_days (day_number d))).
Definition month (d : t) : Z := snd (fst (civil_from_days (day_number d))).
Definition date (d : t) : Z := snd (civil_from_days (day_number d)).

Definition of_fields (y m dd ms : Z) : t :=
  mk (days_from_civil y m dd * ms_per_day + ms).

(** An instant (milliseconds since the epoch, UTC) read in a zone that is
    [offset_min] minutes east of UTC. *)
Definition at_offset (epoch_ms offset_min : Z) : t :=
  mk (epoch_ms + offset_min * 60000).

(** Asia/Seoul is UTC+9 all year. *)
Definition seoul_offset_min : Z := 540.

(** [dayjs().tz('Asia/Seoul')] *)
Definition tz_seoul (epoch_ms : Z) : t := at_offset epoch_ms seoul_offset_min.

Inductive unit_t : Type := Day | Week | Month | Year.

(** [d.date(d.date() + n)]: the day of the month is moved by [n] and the
    date normalised. *)
Definition add_days (n : Z) (d : t) : t :=
  mk ((days_from_civil (year d) (month d) 1 + (date d + n - 1)) * ms_per_day
      + ms_of_day d).

(** [d.set('month', $M + n)] and [d.set('year', $y + n)]: the month (or
    year) is set on the first of the month, then the day of the month is
    restored, capped by the length of the month reached. *)
Definition set_year_month (y m0 : Z) (d : t) : t :=
  let y' := y + m0 / 12 in
  let m' := m0 mod 12 + 1 in
  of_fields y' m' (Z.min (date d) (days_in_month y' m')) (ms_of_day d).

Definition add (n : Z) (u : unit_t) (d : t) : t :=
  match u with
  | Day => add_days n d
  | Week => add_days (7 * n) d
  | Month => set_year_month (year d) (month d - 1 + n) d
  | Year => set_year_month (year d + n) (month d - 1) d
  end.

(** [d.subtract(n, unit)] is [d.add(n * -1, unit)]. *)
Definition subtract (n : Z) (u : unit_t) (d : t) : t := add (n * -1) u d.

(** [d.format('YYYY-MM-DD')] *)
Definition format_YYYY_MM_DD (d : t) : string :=
  JsStr.padStart0 4 (JsStr.of_Z (year d)) ++ "-" ++
  JsStr.padStart0 2 (JsStr.of_Z (month d)) ++ "-" ++
  JsStr.padStart0 2 (JsStr.of_Z (date d)).

End Dayjs.

(** ** Shared data model *)

(** A row of the [records] table. The columns are nullable: [None] is the
    JSON [null] the client returns. *)
Record MoodRecord : Type := mkMoodRecord {
  user_id : string;
  date : option string;
  title : option string;
  notes : option string;
  fatigue : option Z;
  emotion : option string
}.

(** The intent object, as decoded from the classifier's JSON or built by the
    fallback. [None] is [null] or an absent key. *)
Record Intent : Type := mkIntent {
  isAnalysisRequest : bool;
  needsRecords : bool;
  needsChatHistory : bool;
  needsChart : bool;
  isSimpleGreeting : bool;
  timeRange : option string;
  topic : option string;
  analysisType : option string;
  periodType : option string;
  periodValue : option Z;
  fromDate : option string;
  toDate : option string
}.

(** [o === 'lit'] *)
Definition is_str (o : option string) (lit : string) : bool :=
  match o with Some s => String.eqb s lit | None => false end.

(** [o || dflt] on a nullable string: [null] and the empty string are falsy. *)
Definition str_or (o : option string) (dflt : string) : string :=
  match o with
  | Some s => if JsStr.truthy s then s else dflt
  | None => dflt
  end.

(** [o || dflt] on a nullable number: [null] and [0] are falsy. *)
Definition num_or (o : option Z) (dflt : Z) : Z :=
  match o with
  | Some n => if n =? 0 then dflt else n
  | None => dflt
  end.

(** Truthiness of a nullable number: [null] and [0] are falsy. *)
Definition truthy_num (o : option Z) : bool :=
  match o with Some n => negb (n =? 0) | None => false end.

(** The truthy content of a nullable string, if any. *)
Definition truthy_str (o : option string) : option string :=
  match o with
  | Some s => if JsStr.truthy s then Some s else None
  | None => None
  end.

(** Stable insertion sort for a comparison [le]; it stands for
    [Array.prototype.sort] and for the database [ORDER BY]. *)
Fixpoint insert_by {A : Type} (le : A -> A -> bool) (x : A) (l : list A) : list A :=
  match l with
  | [] => [x]
  | y :: rest => if le x y then x :: l else y :: insert_by le x rest
  end.

Definition sort_by {A : Type} (le : A -> A -> bool) (l : list A) : list A :=
  fold_right (insert_by le) [] l.

(** The object [{ fromDate, toDate }] of two formatted dates. *)
Module Range.
Record t : Type := mk { fromDate : string; toDate : string }.
End Range.

(** ** intentAnalyze.js *)

Module IntentAnalyze.

(** [calculateDateRange(periodType, periodValue)]; [now] is the reading of
    [dayjs()], the server's wall clock. [None] is the [null] of the
    [default] case. *)
Definition calculateDateRange (now : Dayjs.t) (periodType : string)
    (periodValue : Z) : option Range.t :=
  if String.eqb periodType "day" then
    Some {| Range.fromDate := Dayjs.format_YYYY_MM_DD (Dayjs.subtract periodValue Dayjs.Day now);
            Range.toDate := Dayjs.format_YYYY_MM_DD now |}
  else if String.eqb periodType "week" then
    Some {| Range.fromDate := Dayjs.format_YYYY_MM_DD (Dayjs.subtract periodValue Dayjs.Week now);
            Range.toDate := Dayjs.format_YYYY_MM_DD now |}
  else if String.eqb periodType "month" then
    Some {| Range.fromDate := Dayjs.format_YYYY_MM_DD (Dayjs.subtract periodValue Dayjs.Month now);
            Range.toDate := Dayjs.format_YYYY_MM_DD now |}
  else if String.eqb periodType "year" then
    Some {| Range.fromDate := Dayjs.format_YYYY_MM_DD (Dayjs.subtract periodValue Dayjs.Year now);
            Range.toDate := Dayjs.format_YYYY_MM_DD now |}
  else None.

Section Fallback.

(** [String.prototype.toLowerCase] *)
Variable toLowerCase : string -> string.

Definition simpleFallbackAnalysis (message : string) : Intent :=
  let lowerMessage := toLowerCase message in
  let has := JsStr.includes lowerMessage in
  let hasAnalysis := has "분석" || has "차트" || has "그래프" in
  let hasRecords := has "기록" || has "데이터" in
  let hasToday := has "오늘" || has "today" in
  let hasYesterday := has "어제" || has "yesterday" in
  let hasWeek := has "주" || has "week" in
  let hasMonth := has "달" || has "월" || has "month" in
  let range :=
    if hasToday then "today"
    else if hasYesterday then "yesterday"
    else if hasWeek then "last_week"
    else if hasMonth then "last_month"
    else "recent" in
  {| isAnalysisRequest := hasAnalysis;
     needsRecords := hasRecords || hasAnalysis;
     needsChatHistory := negb hasAnalysis && negb hasRecords;
     needsChart := hasAnalysis;
     isSimpleGreeting := negb hasRecords && negb hasAnalysis && negb (has "기분");
     timeRange := Some range;
     topic := if hasAnalysis then Some "분석"
              else if hasRecords then Some "기록" else None;
     analysisType := if hasAnalysis then Some "specific" else None;
     periodType := None;
     periodValue := None;
     fromDate := None;
     toDate := None |}.

End Fallback.

End IntentAnalyze.

(** ** chartGenerator.js *)

Module ChartGenerator.

Record ChartOptions : Type := mkOptions {
  responsive : bool;
  maintainAspectRatio : bool;
  title_display : bool;
  title_text : string
}.

Record Dataset : Type := mkDataset {
  ds_label : option string;
  ds_data : list Z;
  ds_borderColor : option string;
  ds_backgroundColor : list string;
  ds_tension : option string
}.

Record ChartData : Type := mkChartData {
  labels : list (option string);
  datasets : list Dataset
}.

(** A chart descriptor: either [{ type: 'message', message, noData: true }]
    or [{ type, data, options }]. *)
Inductive ChartDescriptor : Type :=
| MessageChart (message : string)
| DataChart (type : string) (data : ChartData) (options : ChartOptions).

Definition descriptor_type (c : ChartDescriptor) : string :=
  match c with MessageChart _ => "message" | DataChart t _ _ => t end.

Definition noData (c : ChartDescriptor) : bool :=
  match c with MessageChart _ => true | DataChart _ _ _ => false end.

(** [chartTemplates] *)
Definition template (text : string) : ChartOptions :=
  {| responsive := true; maintainAspectRatio := false;
     title_display := true; title_text := text |}.

Definition weekly_emotion_trend : ChartOptions := template "주간 감정 변화 추이".
Definition monthly_emotion_distribution : ChartOptions := template "월간 감정 분포".
Definition daily_emotion_ratio : ChartOptions := template "일일 감정 비율".
Definition emotion_comparison : ChartOptions := template "감정 비교 분석".

Definition no_data_message : string :=
  "해당 기간에 차트를 생성할 수 있는 데이터가 없습니다.".

Definition no_valid_data_message : string :=
  "해당 기간에 유효한 데이터가 없어서 차트를 생성할 수 없습니다.".

Definition palette : list string :=
  [ "rgba(255, 99, 132, 0.8)"; "rgba(54, 162, 235, 0.8)";
    "rgba(255, 205, 86, 0.8)"; "rgba(75, 192, 192, 0.8)";
    "rgba(153, 102, 255, 0.8)" ].

(** *** Plain objects used as counters

    The own properties of the accumulator [{}], in insertion order. A key is
    read among the own properties only: labels that name a member inherited
    from [Object.prototype] are outside this model. *)
Definition JsObject : Type := list (string * Z).

(** [acc[k]]; [None] is [undefined]. *)
Fixpoint prop_get (acc : JsObject) (k : string) : option Z :=
  match acc with
  | [] => None
  | (k', v) :: rest => if String.eqb k' k then Some v else prop_get rest k
  end.

(** [acc[k] = v] *)
Fixpoint prop_set (acc : JsObject) (k : string) (v : Z) : JsObject :=
  match acc with
  | [] => [(k, v)]
  | (k', v') :: rest =>
      if String.eqb k' k then (k', v) :: rest else (k', v') :: prop_set rest k v
  end.

Definition digit_val (c : ascii) : option Z :=
  let n := Z.of_nat (nat_of_ascii c) in
  if (48 <=? n) && (n <=? 57) then Some (n - 48) else None.

Fixpoint digits_val (s : string) (acc : Z) : option Z :=
  match s with
  | EmptyString => Some acc
  | String c rest =>
      match digit_val c with
      | Some d => digits_val rest (acc * 10 + d)
      | None => None
      end
  end.

(** The array index a property key denotes, if it is the canonical decimal
    form of an integer below 2^32 - 1. *)
Definition array_index (k : string) : option Z :=
  match k with
  | EmptyString => None
  | String c rest =>
      if Ascii.eqb c "0"%char && JsStr.truthy rest then None
      else match digits_val k 0 with
           | Some n => if n <=? 4294967294 then Some n else None
           | None => None
           end
  end.

Definition is_index (e : string * Z) : bool :=
  match array_index (fst e) with Some _ => true | None => false end.

Definition index_le (a b : string * Z) : bool :=
  match array_index (fst a), array_index (fst b) with
  | Some x, Some y => x <=? y
  | _, _ => true
  end.

(** Own property order: array indices ascending, then the other keys in
    insertion order. *)
Definition own_entries (acc : JsObject) : JsObject :=
  (sort_by index_le (filter is_index acc)
     ++ filter (fun e => negb (is_index e)) acc)%list.

(** [Object.keys(acc)] and [Object.values(acc)] *)
Definition Object_keys (acc : JsObject) : list string := map fst (own_entries acc).
Definition Object_values (acc : JsObject) : list Z := map snd (own_entries acc).

Definition unknown_label : string := "정보없음".

(** [item.emotion || '정보없음'] *)
Definition bucket (item : MoodRecord) : string := str_or (emotion item) unknown_label.

(** The callback of the [reduce] shared by the bar, pie and radar charts. *)
Definition count_step (acc : JsObject) (item : MoodRecord) : JsObject :=
  let e := bucket item in
  prop_set acc e (num_or (prop_get acc e) 0 + 1).

Definition emotionCounts (emotionData : list MoodRecord) : JsObject :=
  fold_left count_step emotionData [].

Definition generateBarChart (emotionData : list MoodRecord) : ChartDescriptor :=
  let counts_obj := emotionCounts emotionData in
  let emotions := Object_keys counts_obj in
  let counts := Object_values counts_obj in
  DataChart "bar"
    {| labels := map Some emotions;
       datasets := [ {| ds_label := Some "빈도"; ds_data := counts;
                        ds_borderColor := None; ds_backgroundColor := palette;
                        ds_tension := None |} ] |}
    monthly_emotion_distribution.

Definition generatePieChart (emotionData : list MoodRecord) : ChartDescriptor :=
  let counts_obj := emotionCounts emotionData in
  let emotions := Object_keys counts_obj in
  let counts := Object_values counts_obj in
  DataChart "pie"
    {| labels := map Some emotions;
       datasets := [ {| ds_label := None; ds_data := counts;
                        ds_borderColor := None; ds_backgroundColor := palette;
                        ds_tension := None |} ] |}
    daily_emotion_ratio.

Definition generateRadarChart (emotionData : list MoodRecord) : ChartDescriptor :=
  let counts_obj := emotionCounts emotionData in
  let emotions := Object_keys counts_obj in
  let counts := Object_values counts_obj in
  DataChart "radar"
    {| labels := map Some emotions;
       datasets := [ {| ds_label := Some "감정 빈도"; ds_data := counts;
                        ds_borderColor := Some "rgb(255, 99, 132)";
                        ds_backgroundColor := [ "rgba(255, 99, 132, 0.2)" ];
                        ds_tension := None |} ] |}
    emotion_comparison.

Section Builtins.

(** [String.prototype.toLowerCase] *)
Variable toLowerCase : string -> string.

(** [new Date(s).getTime()]; [None] is [NaN], an invalid date. *)
Variable Date_parse : string -> option Z.

Definition selectChartTypeByRule (question : string) : string :=
  let q := toLowerCase question in
  if JsStr.includes q "변화" || JsStr.includes q "추이" ||
     JsStr.includes q "흐름" || JsStr.includes q "패턴" then "line"
  else if JsStr.includes q "분포" || JsStr.includes q "빈도" ||
          JsStr.includes q "얼마나" || JsStr.includes q "몇번" then "bar"
  else if JsStr.includes q "비율" || JsStr.includes q "구성" ||
          JsStr.includes q "퍼센트" || JsStr.includes q "비중" then "pie"
  else if JsStr.includes q "비교" || JsStr.includes q "대조" ||
          JsStr.includes q "vs" || JsStr.includes q "대비" then "radar"
  else "line".

(** [new Date(item.date).getTime()]; [new Date(null)] is the epoch. *)
Definition date_time (d : option string) : option Z :=
  match d with None => Some 0 | Some s => Date_parse s end.

(** The comparator [new Date(a.date) - new Date(b.date)], read as "a may
    stay before b"; a [NaN] difference counts as zero. *)
Definition date_le (a b : MoodRecord) : bool :=
  match date_time (date a), date_time (date b) with
  | Some x, Some y => x <=? y
  | _, _ => true
  end.

Definition generateLineChart (emotionData : list MoodRecord) : ChartDescriptor :=
  let sortedData := sort_by date_le emotionData in
  DataChart "line"
    {| labels := map date sortedData;
       datasets := [ {| ds_label := Some "피로도";
                        ds_data := map (fun item => num_or (fatigue item) 0) sortedData;
                        ds_borderColor := Some "rgb(255, 99, 132)";
                        ds_backgroundColor := [ "rgba(255, 99, 132, 0.2)" ];
                        ds_tension := Some "0.1" |} ] |}
    weekly_emotion_trend.

Definition generateChartData (emotionData : list MoodRecord) (chartType : string)
    : ChartDescriptor :=
  match emotionData with
  | [] => MessageChart no_data_message
  | _ =>
      if String.eqb chartType "line" then generateLineChart emotionData
      else if String.eqb chartType "bar" then generateBarChart emotionData
      else if String.eqb chartType "pie" then generatePieChart emotionData
      else if String.eqb chartType "radar" then generateRadarChart emotionData
      else generateLineChart emotionData
  end.

(** The callback of the validity [filter]: [!item.date || !item.fatigue]
    rejects, then an invalid [new Date(item.date)] rejects. *)
Definition valid_item (item : MoodRecord) : bool :=
  match truthy_str (date item) with
  | None => false
  | Some d =>
      if negb (truthy_num (fatigue item)) then false
      else match Date_parse d with
           | None => false
           | Some _ => true
           end
  end.

Definition generateEmotionChart (emotionData : list MoodRecord) (question : string)
    : ChartDescriptor :=
  match emotionData with
  | [] => MessageChart no_data_message
  | _ =>
      let validData := filter valid_item emotionData in
      match validData with
      | [] => MessageChart no_valid_data_message
      | _ =>
          let chartType := selectChartTypeByRule question in
          generateChartData validData chartType
      end
  end.

End Builtins.

End ChartGenerator.

(** ** chatService.js *)

Module ChatService.

Import ChartGenerator.

(** *** Tables *)

Record ChatMessage : Type := mkChatMessage {
  msg_id : string;
  msg_user_id : string;
  user_chat : string;
  ai_answer : option string;
  msg_created_at : Z
}.

(** [chart_config] is [chartData.config || {}]; descriptors carry no
    [config] key, so the empty object is what is stored, and the column is
    left out. *)
Record SavedChart : Type := mkSavedChart {
  chart_id : string;
  chart_user_id : string;
  chart_name : string;
  chart_type : string;
  chart_data : ChartData;
  period_start : string;
  period_end : string;
  created_at : Z
}.

Record Db : Type := mkDb {
  records : list MoodRecord;
  chat_messages : list ChatMessage;
  saved_charts : list SavedChart
}.

(** *** The world outside the process *)

Record ChatTurn : Type := mkTurn { user : bool; text : string }.

(** What a model call is asked; the fixed preambles are left out. *)
Inductive Prompt : Type :=
| IntentPrompt (currentDate message : string)
| NeedsDataPrompt (message : string)
| SimplePrompt (koreaTime : Dayjs.t) (contextPrompt : string)
| AnalysisPrompt (rows : list MoodRecord) (contextPrompt : string).

Inductive DbOp : Type :=
| InsertMessage | UpdateAnswer | SelectRecords | InsertChart
| CountCharts | SelectOldCharts | DeleteCharts | SelectHistory.

Definition DbOp_eqb (a b : DbOp) : bool :=
  match a, b with
  | InsertMessage, InsertMessage | UpdateAnswer, UpdateAnswer
  | SelectRecords, SelectRecords | InsertChart, InsertChart
  | CountCharts, CountCharts | SelectOldCharts, SelectOldCharts
  | DeleteCharts, DeleteCharts | SelectHistory, SelectHistory => true
  | _, _ => false
  end.

(** The clock, the model and the failures of the database client.
    - [completion p] is [None] when [openai.chat.completions.create]
      rejects, and otherwise the [content] of the first choice ([None] when
      it is missing);
    - [decode_intent] is the fence stripping, brace extraction and
      [JSON.parse] of [analyzeUserIntent], [None] when it throws;
    - [decode_needsData] is [JSON.parse(response).needsData || false];
    - [db_fails op] tells whether the client answers [op] with an error.
    A request is handled at one instant: every [dayjs()] reads [epoch_ms], in
    the server's zone, taken as a fixed offset from UTC. *)
Record Env : Type := mkEnv {
  epoch_ms : Z;
  local_offset_min : Z;
  completion : Prompt -> option (option string);
  decode_intent : string -> option Intent;
  decode_needsData : string -> option bool;
  db_fails : DbOp -> bool;
  uuidv4 : string;
  db_uuid : string;
  db_now : Z
}.

(** [dayjs()] *)
Definition dayjs (env : Env) : Dayjs.t :=
  Dayjs.at_offset (epoch_ms env) (local_offset_min env).

(** [dayjs().tz('Asia/Seoul')] *)
Definition koreaTime (env : Env) : Dayjs.t := Dayjs.tz_seoul (epoch_ms env).

(** *** Requests, responses and the trace of a run *)

Inductive JsVal : Type :=
| JsUndefined | JsNull | JsBool (b : bool) | JsNumber (n : Z)
| JsString (s : string) | JsObject.

(** The body of [POST /chat]. *)
Record ChatRequest : Type := mkChatRequest {
  body_message : JsVal;
  body_user_id : option string;
  body_recent_messages : list ChatTurn
}.

(** The columns [user_chat, ai_answer, created_at] of a history row. *)
Record HistoryRow : Type := mkHistoryRow {
  h_user_chat : string;
  h_ai_answer : option string;
  h_created_at : Z
}.

Inductive Body : Type :=
| ErrorBody (error : string) (details : option string)
| ChatBody (aiResponse : option string) (analysisType : string)
    (dateRange : option string) (isAnalysis : bool)
    (chartData : option ChartDescriptor)
| HistoryBody (chatHistory : list HistoryRow) (count : Z).

Inductive Event : Type :=
| ModelCall (p : Prompt)
| DbCall (op : DbOp) (args : list string)
| Respond (status : Z) (body : Body).

Definition is_model_call (e : Event) : bool :=
  match e with ModelCall _ => true | _ => false end.

Definition is_db_call (e : Event) : bool :=
  match e with DbCall _ _ => true | _ => false end.

Definition responses (tr : list Event) : list (Z * Body) :=
  flat_map (fun e => match e with Respond st b => [(st, b)] | _ => [] end) tr.

(** *** The monad of a handler: database state, trace, exceptions *)

Record St : Type := mkSt { db : Db; trace : list Event }.

Inductive Exn : Type := TypeError | ApiError | DbError.

Inductive Outcome (A : Type) : Type :=
| Done (a : A)
| Thrown (e : Exn).
Arguments Done {A} a.
Arguments Thrown {A} e.

Definition M (A : Type) : Type := St -> Outcome A * St.

Definition ret {A : Type} (a : A) : M A := fun s => (Done a, s).

Definition bind {A B : Type} (m : M A) (k : A -> M B) : M B :=
  fun s => match m s with
           | (Done a, s') => k a s'
           | (Thrown e, s') => (Thrown e, s')
           end.

Definition throw {A : Type} (e : Exn) : M A := fun s => (Thrown e, s).

(** [try { m } catch (e) { h e }] *)
Definition try_catch {A : Type} (m : M A) (h : Exn -> M A) : M A :=
  fun s => match m s with
           | (Done a, s') => (Done a, s')
           | (Thrown e, s') => h e s'
           end.

Definition lift {A : Type} (o : Outcome A) : M A := fun s => (o, s).

Definition emit (e : Event) : M unit :=
  fun s => (Done tt, {| db := db s; trace := (trace s ++ [e])%list |}).

Definition get_db : M Db := fun s => (Done (db s), s).

Definition set_db (d : Db) : M unit :=
  fun s => (Done tt, {| db := d; trace := trace s |}).

(** [res.status(st).json(body)] *)
Definition respond (st : Z) (body : Body) : M unit := emit (Respond st body).

Declare Scope handler_scope.
Delimit Scope handler_scope with handler.
Notation "x <- m ;; k" := (bind m (fun x => k))
  (at level 61, m at next level, right associativity) : handler_scope.
Notation "m ;; k" := (bind m (fun _ => k))
  (at level 61, right associativity) : handler_scope.
#[local] Open Scope handler_scope.

(** The events a handler adds to the trace and the state it ends in. *)
Definition run {A : Type} (m : M A) (d : Db) : Outcome A * St :=
  m {| db := d; trace := [] |}.

Definition events {A : Type} (m : M A) (d : Db) : list Event :=
  trace (snd (run m d)).

Definition final_db {A : Type} (m : M A) (d : Db) : Db := db (snd (run m d)).

(** *** Queries *)

Definition user_charts (d : Db) (userId : string) : list SavedChart :=
  filter (fun c => String.eqb (chart_user_id c) userId) (saved_charts d).

(** [.order('created_at', { ascending: true })] *)
Definition created_le (a b : SavedChart) : bool := created_at a <=? created_at b.

(** [.delete().in('id', ids)] *)
Definition delete_charts (d : Db) (ids : list string) : Db :=
  {| records := records d;
     chat_messages := chat_messages d;
     saved_charts :=
       filter (fun c => negb (existsb (String.eqb (chart_id c)) ids)) (saved_charts d) |}.

Definition insert_chart (d : Db) (c : SavedChart) : Db :=
  {| records := records d;
     chat_messages := chat_messages d;
     saved_charts := (saved_charts d ++ [c])%list |}.

Definition insert_message (d : Db) (m : ChatMessage) : Db :=
  {| records := records d;
     chat_messages := (chat_messages d ++ [m])%list;
     saved_charts := saved_charts d |}.

(** [.update({ ai_answer }).eq('id', messageId)] *)
Definition update_message (d : Db) (messageId answer : string) : Db :=
  {| records := records d;
     chat_messages :=
       map (fun m => if String.eqb (msg_id m) messageId
                     then {| msg_id := msg_id m; msg_user_id := msg_user_id m;
                             user_chat := user_chat m; ai_answer := Some answer;
                             msg_created_at := msg_created_at m |}
                     else m) (chat_messages d);
     saved_charts := saved_charts d |}.

(** [.gte('date', fromDate).lte('date', toDate)] on ISO dates, compared as
    text; a row without a date matches nothing. *)
Definition in_window (fromDate toDate : string) (r : MoodRecord) : bool :=
  match date r with
  | Some d => String.leb fromDate d && String.leb d toDate
  | None => false
  end.

Definition date_column_le (a b : MoodRecord) : bool :=
  match date a, date b with
  | Some x, Some y => String.leb x y
  | _, _ => true
  end.

Definition select_records (d : Db) (userId fromDate toDate : string) : list MoodRecord :=
  sort_by date_column_le
    (filter (fun r => String.eqb (user_id r) userId && in_window fromDate toDate r)
       (records d)).

Definition history_row (m : ChatMessage) : HistoryRow :=
  {| h_user_chat := user_chat m; h_ai_answer := ai_answer m;
     h_created_at := msg_created_at m |}.

Definition message_created_le (a b : ChatMessage) : bool :=
  msg_created_at a <=? msg_created_at b.

(** [.eq('user_id', u).order('created_at', { ascending: true }).limit(20)] *)
Definition select_history (d : Db) (userId : string) : list HistoryRow :=
  map history_row
    (firstn 20 (sort_by message_created_le
                 (filter (fun m => String.eqb (msg_user_id m) userId) (chat_messages d)))).

(** *** Chart persistence *)

Definition cleanupOldCharts (env : Env) (userId : string) (maxCharts : Z) : M unit :=
  try_catch
    (emit (DbCall CountCharts [userId]) ;;
     if db_fails env CountCharts then ret tt else
     d <- get_db ;;
     let count := Z.of_nat (List.length (user_charts d userId)) in
     if count >? maxCharts then
       let deleteCount := count - maxCharts in
       emit (DbCall SelectOldCharts [userId; JsStr.of_Z deleteCount]) ;;
       if db_fails env SelectOldCharts then ret tt else
       let oldCharts :=
         firstn (Z.to_nat deleteCount) (sort_by created_le (user_charts d userId)) in
       let idsToDelete := map chart_id oldCharts in
       emit (DbCall DeleteCharts idsToDelete) ;;
       if db_fails env DeleteCharts then ret tt else
       set_db (delete_charts d idsToDelete)
     else ret tt)
    (fun _ => ret tt).

(** The default of the [maxCharts] parameter. *)
Definition default_maxCharts : Z := 20.

Definition saveChart (env : Env) (userId : string) (chartData : ChartData)
    (chartType periodStart periodEnd : string) : M unit :=
  let chartName := periodStart ++ " 감정 차트" in
  emit (DbCall InsertChart [userId; chartName; chartType; periodStart; periodEnd]) ;;
  if db_fails env InsertChart then throw DbError else
  d <- get_db ;;
  set_db (insert_chart d
            {| chart_id := db_uuid env; chart_user_id := userId;
               chart_name := chartName; chart_type := chartType;
               chart_data := chartData; period_start := periodStart;
               period_end := periodEnd; created_at := db_now env |}) ;;
  cleanupOldCharts env userId default_maxCharts.

(** *** Prompts *)

Definition nl : string := String (ascii_of_nat 10) EmptyString.
Definition tab : string := String (ascii_of_nat 9) EmptyString.
Definition dq : string := String (ascii_of_nat 34) EmptyString.

Definition createContextPrompt (userMessage : string) (recentMessages : list ChatTurn)
    : string :=
  match recentMessages with
  | [] => userMessage
  | _ =>
      let context :=
        String.concat nl
          (map (fun msg => (if user msg then "사용자" else "AI") ++ ": " ++ text msg)
             recentMessages) in
      JsStr.trim
        (nl ++ "이전 대화 맥락:" ++ nl ++ context ++ nl ++ nl ++
         "현재 질문: " ++ userMessage ++ nl ++ nl ++
         "위 대화 맥락을 참고하여 답변해주세요. " ++
         dq ++ "그거" ++ dq ++ ", " ++ dq ++ "저번에" ++ dq ++ ", " ++
         dq ++ "아까" ++ dq ++
         " 같은 표현이 있으면 이전 대화 내용을 참고해서 답변해주세요." ++ nl ++ tab)
  end.

(** [req.body.message] where the handlers read it as text; they run only
    after [handleChatRequest] has found it to be a string. *)
Definition message_text (req : ChatRequest) : string :=
  match body_message req with JsString s => s | _ => "" end.

(** *** The date window *)

(** [intent.fromDate || calculateDateRange(intent.periodType || 'month',
    intent.periodValue || 1).fromDate]; reading [.fromDate] of [null]
    throws. *)
Definition from_or_period (env : Env) (intent : Intent) : Outcome string :=
  match truthy_str (fromDate intent) with
  | Some f => Done f
  | None =>
      match IntentAnalyze.calculateDateRange (dayjs env)
              (str_or (periodType intent) "month") (num_or (periodValue intent) 1) with
      | Some r => Done (Range.fromDate r)
      | None => Thrown TypeError
      end
  end.

Definition to_or_period (env : Env) (intent : Intent) : Outcome string :=
  match truthy_str (toDate intent) with
  | Some t => Done t
  | None =>
      match IntentAnalyze.calculateDateRange (dayjs env)
              (str_or (periodType intent) "month") (num_or (periodValue intent) 1) with
      | Some r => Done (Range.toDate r)
      | None => Thrown TypeError
      end
  end.

(** The first part of [getData]: the pair [fromDate, toDate] it queries. *)
Definition getData_window (env : Env) (intent : Intent) : Outcome (string * string) :=
  if is_str (timeRange intent) "today" then
    let d := Dayjs.format_YYYY_MM_DD (koreaTime env) in Done (d, d)
  else if is_str (timeRange intent) "yesterday" then
    let d := Dayjs.format_YYYY_MM_DD (Dayjs.subtract 1 Dayjs.Day (koreaTime env)) in
    Done (d, d)
  else
    match is_str (analysisType intent) "custom",
          truthy_str (fromDate intent), truthy_str (toDate intent) with
    | true, Some f, Some t => Done (f, t)
    | _, _, _ =>
        match from_or_period env intent with
        | Thrown e => Thrown e
        | Done f =>
            match to_or_period env intent with
            | Thrown e => Thrown e
            | Done t => Done (f, t)
            end
        end
    end.

Definition getData (env : Env) (intent : Intent) (userId : string)
    : M (list MoodRecord) :=
  w <- lift (getData_window env intent) ;;
  emit (DbCall SelectRecords [userId; fst w; snd w]) ;;
  if db_fails env SelectRecords then ret [] else
  d <- get_db ;;
  ret (select_records d userId (fst w) (snd w)).

Definition getDateRangeDisplay (env : Env) (intent : Intent) : string :=
  if is_str (analysisType intent) "specific" &&
     match truthy_str (timeRange intent) with Some _ => true | None => false end
  then
    if is_str (timeRange intent) "today" then Dayjs.format_YYYY_MM_DD (koreaTime env)
    else if is_str (timeRange intent) "yesterday" then
      Dayjs.format_YYYY_MM_DD (Dayjs.subtract 1 Dayjs.Day (koreaTime env))
    else Dayjs.format_YYYY_MM_DD (koreaTime env)
  else
    match truthy_str (fromDate intent), truthy_str (toDate intent) with
    | Some f, Some t => f ++ " ~ " ++ t
    | _, _ =>
        "최근 " ++ JsStr.of_Z (num_or (periodValue intent) 1)
        ++ str_or (periodType intent) "month"
    end.

(** The fire-and-forget [update({ ai_answer })]; an [undefined] answer sets
    no column, a failure is only logged. *)
Definition update_answer (env : Env) (messageId : string) (answer : option string)
    : M unit :=
  emit (DbCall UpdateAnswer [messageId]) ;;
  if db_fails env UpdateAnswer then ret tt else
  match answer with
  | None => ret tt
  | Some a => d <- get_db ;; set_db (update_message d messageId a)
  end.

(** *** The handlers *)

Definition exn_message (e : Exn) : string :=
  match e with
  | TypeError => "TypeError"
  | ApiError => "ApiError"
  | DbError => "DbError"
  end.

Definition no_records_reply : string :=
  "해당 기간에 기록이 없습니다. 먼저 기록을 추가해주세요.".

Definition request_error : string := "요청 처리 중 오류가 발생했습니다.".

(** The intent [handleChatRequest] falls back to when the analysis throws. *)
Definition default_intent : Intent :=
  {| isAnalysisRequest := false; needsRecords := true; needsChatHistory := true;
     needsChart := false; isSimpleGreeting := false; timeRange := Some "recent";
     topic := None; analysisType := None; periodType := None; periodValue := None;
     fromDate := None; toDate := None |}.

Section Handlers.

Variable toLowerCase : string -> string.
Variable Date_parse : string -> option Z.

(** [analyzeUserIntent] of intentAnalyze.js: one model call, then the
    decoding of its answer; every failure goes to the keyword fallback. *)
Definition analyzeUserIntent (env : Env) (message : string) : M Intent :=
  let currentDate := Dayjs.format_YYYY_MM_DD (koreaTime env) in
  let p := IntentPrompt currentDate message in
  emit (ModelCall p) ;;
  match completion env p with
  | Some (Some content) =>
      match decode_intent env content with
      | Some result => ret result
      | None => ret (IntentAnalyze.simpleFallbackAnalysis toLowerCase message)
      end
  | _ => ret (IntentAnalyze.simpleFallbackAnalysis toLowerCase message)
  end.

Definition checkIfNeedsData (env : Env) (message : string) (intent : Intent) : M bool :=
  let p := NeedsDataPrompt message in
  emit (ModelCall p) ;;
  match completion env p with
  | Some (Some response) =>
      match decode_needsData env response with
      | Some needsData => ret needsData
      | None => ret (needsRecords intent || isAnalysisRequest intent)
      end
  | _ => ret (needsRecords intent || isAnalysisRequest intent)
  end.

Definition handleSimpleRequest (env : Env) (req : ChatRequest) (intent : Intent)
    (userId messageId : string) : M unit :=
  try_catch
    (let contextPrompt :=
       createContextPrompt (message_text req) (body_recent_messages req) in
     let p := SimplePrompt (koreaTime env) contextPrompt in
     emit (ModelCall p) ;;
     match completion env p with
     | None => throw ApiError
     | Some content =>
         let aiResponse :=
           str_or content "죄송하지만 다시 시도해 주시면 감사하겠습니다." in
         respond 200 (ChatBody (Some aiResponse) "conversation" None false None) ;;
         update_answer env messageId (Some aiResponse)
     end)
    (fun _ => respond 500 (ErrorBody request_error None)).

(** [analyzeData]: sorts [data] in place, then one model call whose
    failure is caught; the result is [analysisResult.result] together
    with the rows as the sort left them. *)
Definition analyzeData (env : Env) (data : list MoodRecord) (intent : Intent)
    (userMessage : string) (recentMessages : list ChatTurn)
    : M (option string * list MoodRecord) :=
  let sorted := sort_by (date_le Date_parse) data in
  let contextPrompt := createContextPrompt userMessage recentMessages in
  let p := AnalysisPrompt sorted contextPrompt in
  emit (ModelCall p) ;;
  match completion env p with
  | Some content => ret (Some (str_or content "분석을 생성할 수 없습니다."), sorted)
  | None => ret (None, sorted)
  end.

Definition handleRequest (env : Env) (req : ChatRequest) (intent : Intent)
    (userId messageId : string) : M unit :=
  try_catch
    (data <- getData env intent userId ;;
     match data with
     | [] =>
         respond 200
           (ChatBody (Some no_records_reply)
              (str_or (analysisType intent) "period")
              (Some (getDateRangeDisplay env intent))
              (isAnalysisRequest intent)
              (Some (MessageChart no_data_message)))
     | _ =>
         analysisResult <-
           analyzeData env data intent (message_text req) (body_recent_messages req) ;;
         let result := fst analysisResult in
         let data' := snd analysisResult in
         chartData <-
           (if needsChart intent then
              let chart :=
                generateEmotionChart toLowerCase Date_parse data' (message_text req) in
              match chart with
              | DataChart type cdata _ =>
                  try_catch
                    (periodStart <- lift (from_or_period env intent) ;;
                     periodEnd <- lift (to_or_period env intent) ;;
                     saveChart env userId cdata type periodStart periodEnd)
                    (fun _ => ret tt) ;;
                  ret (Some chart)
              | MessageChart _ => ret (Some chart)
              end
            else ret None) ;;
         respond 200
           (ChatBody result
              (str_or (analysisType intent) "period")
              (Some (getDateRangeDisplay env intent))
              (isAnalysisRequest intent)
              chartData) ;;
         update_answer env messageId result
     end)
    (fun _ => respond 500 (ErrorBody request_error None)).

Definition handleSmartRequest (env : Env) (req : ChatRequest) (intent : Intent)
    (userId messageId : string) : M unit :=
  try_catch
    (needsData <- checkIfNeedsData env (message_text req) intent ;;
     if negb needsData then handleSimpleRequest env req intent userId messageId
     else handleRequest env req intent userId messageId)
    (fun _ => respond 500 (ErrorBody request_error None)).

Definition handleChatRequest (env : Env) (req : ChatRequest) : M unit :=
  try_catch
    (let userId := match body_user_id req with Some u => u | None => "test_user" end in
     let trimmed :=
       match body_message req with JsString s => JsStr.trim s | _ => "" end in
     if negb (JsStr.truthy trimmed) then
       respond 400 (ErrorBody "Message is required" None)
     else
       let contextPrompt := createContextPrompt trimmed (body_recent_messages req) in
       intent <- try_catch (analyzeUserIntent env trimmed)
                   (fun _ => ret default_intent) ;;
       let messageId := uuidv4 env in
       emit (DbCall InsertMessage [messageId; userId; trimmed]) ;;
       if db_fails env InsertMessage then
         respond 500 (ErrorBody "메시지 저장 실패" None)
       else
         d <- get_db ;;
         set_db (insert_message d
                   {| msg_id := messageId; msg_user_id := userId;
                      user_chat := trimmed; ai_answer := None;
                      msg_created_at := db_now env |}) ;;
         handleSmartRequest env req intent userId messageId)
    (fun e => respond 500
                (ErrorBody "분석 처리 중 오류가 발생했습니다." (Some (exn_message e)))).

End Handlers.

(** [getChatHistory]; [query_user_id] is [req.query.user_id]. *)
Definition getChatHistory (env : Env) (query_user_id : option string) : M unit :=
  try_catch
    (match truthy_str query_user_id with
     | None => respond 400 (ErrorBody "user_id가 필요합니다." None)
     | Some userId =>
         emit (DbCall SelectHistory [userId]) ;;
         if db_fails env SelectHistory then
           respond 500 (ErrorBody "채팅 기록 조회 중 오류가 발생했습니다." None)
         else
           d <- get_db ;;
           let chatHistory := select_history d userId in
           respond 200 (HistoryBody chatHistory (Z.of_nat (List.length chatHistory)))
     end)
    (fun e => respond 500
                (ErrorBody "채팅 기록 조회 중 오류가 발생했습니다." (Some (exn_message e)))).

End ChatService.

(** ** Specification-level definitions *)

(** The keyword table of the chart type selection, as the specification words
    it: groups of keywords, each with its chart type, tried in order. *)
Definition chart_keyword_table : list (list string * string) :=
  [ (["변화"; "추이"; "흐름"; "패턴"], "line");
    (["분포"; "빈도"; "얼마나"; "몇번"], "bar");
    (["비율"; "구성"; "퍼센트"; "비중"], "pie");
    (["비교"; "대조"; "vs"; "대비"], "radar") ].

(** The type of the first group one of whose keywords occurs in [q]. *)
Fixpoint table_lookup (q : string) (table : list (list string * string))
    (default : string) : string :=
  match table with
  | [] => default
  | (keys, type) :: rest =>
      if JsStr.includes_any q keys then type else table_lookup q rest default
  end.


Definition chart_labels (c : ChartGenerator.ChartDescriptor) : list (option string) :=
  match c with
  | ChartGenerator.MessageChart _ => []
  | ChartGenerator.DataChart _ d _ => ChartGenerator.labels d
  end.

Definition chart_series (c : ChartGenerator.ChartDescriptor) : list (list Z) :=
  match c with
  | ChartGenerator.MessageChart _ => []
  | ChartGenerator.DataChart _ d _ =>
      map ChartGenerator.ds_data (ChartGenerator.datasets d)
  end.

(** A [message] that is absent, not a string, empty or made of white space
    only. *)
Definition blank_message (m : ChatService.JsVal) : Prop :=
  match m with
  | ChatService.JsString s => JsStr.whitespace_only s
  | _ => True
  end.

(** A decidable check that a list of strings has no repetition. *)
Fixpoint nodupb (l : list string) : bool :=
  match l with
  | [] => true
  | x :: rest => negb (existsb (String.eqb x) rest) && nodupb rest
  end.

(** A calendar date: year, month (1..12), day of the month. *)
Definition civil_date : Type := (Z * Z * Z)%type.

(** The calendar date a dayjs object shows. *)
Definition civil_of (d : Dayjs.t) : civil_date :=
  Dayjs.civil_from_days (Dayjs.day_number d).

(** [YYYY-MM-DD] of a calendar date. *)
Definition format_civil (c : civil_date) : string :=
  let '(y, m, d) := c in
  JsStr.padStart0 4 (JsStr.of_Z y) ++ "-" ++
  JsStr.padStart0 2 (JsStr.of_Z m) ++ "-" ++
  JsStr.padStart0 2 (JsStr.of_Z d).

(** A calendar date minus [n] units, as the specification words it: days
    and weeks count back on the calendar; months and years step the month
    (or year) back and keep the day of the month, capped by the length of the
    month reached. *)
Definition date_minus (c : civil_date) (n : Z) (u : Dayjs.unit_t) : civil_date :=
  let '(y, m, d) := c in
  match u with
  | Dayjs.Day => Dayjs.civil_from_days (Dayjs.days_from_civil y m d - n)
  | Dayjs.Week => Dayjs.civil_from_days (Dayjs.days_from_civil y m d - 7 * n)
  | Dayjs.Month =>
      let k := 12 * y + (m - 1) - n in
      let y' := k / 12 in
      let m' := k mod 12 + 1 in
      (y', m', Z.min d (Dayjs.days_in_month y' m'))
  | Dayjs.Year => (y - n, m, Z.min d (Dayjs.days_in_month (y - n) m))
  end.

(** The period types the resolver recognises. *)
Definition period_unit (periodType : string) : option Dayjs.unit_t :=
  if String.eqb periodType "day" then Some Dayjs.Day
  else if String.eqb periodType "week" then Some Dayjs.Week
  else if String.eqb periodType "month" then Some Dayjs.Month
  else if String.eqb periodType "year" then Some Dayjs.Year
  else None.

(** ** Concrete built-ins and sample inputs *)

(** Lower-casing of the Basic Latin letters, every other byte unchanged. *)
Definition lower_byte (c : ascii) : ascii :=
  let n := nat_of_ascii c in
  if Nat.leb 65 n && Nat.leb n 90 then ascii_of_nat (n + 32) else c.

Fixpoint lower_ascii (s : string) : string :=
  match s with
  | EmptyString => EmptyString
  | String c rest => String (lower_byte c) (lower_ascii rest)
  end.

(** [Date.parse] on the date-only ISO form [YYYY-MM-DD]. *)
Definition iso_date_time (s : string) : option Z :=
  match ChartGenerator.digits_val (String.substring 0 4 s) 0,
        ChartGenerator.digits_val (String.substring 5 2 s) 0,
        ChartGenerator.digits_val (String.substring 8 2 s) 0 with
  | Some y, Some m, Some d =>
      if Nat.eqb (String.length s) 10
         && String.eqb (String.substring 4 1 s) "-"
         && String.eqb (String.substring 7 1 s) "-"
         && (1 <=? m) && (m <=? 12) && (1 <=? d)
         && (d <=? Dayjs.days_in_month y m)
      then Some (Dayjs.days_from_civil y m d * Dayjs.ms_per_day)
      else None
  | _, _, _ => None
  end.

Definition sample_row (d : string) (f : Z) (e : option string) : MoodRecord :=
  {| user_id := "u1"; date := Some d; title := None; notes := None;
     fatigue := Some f; emotion := e |}.

(** A world in which every call succeeds: 2024-04-01 00:00 in Seoul, a server
    on UTC (2024-03-31 there), a model that answers, a classifier answer that
    does not decode (so the keyword fallback decides). *)
Definition env_ok : ChatService.Env :=
  {| ChatService.epoch_ms := 1711897200000;
     ChatService.local_offset_min := 0;
     ChatService.completion := fun _ => Some (Some "네, 알겠습니다.");
     ChatService.decode_intent := fun _ => None;
     ChatService.decode_needsData := fun _ => Some true;
     ChatService.db_fails := fun _ => false;
     ChatService.uuidv4 := "m-1";
     ChatService.db_uuid := "c-new";
     ChatService.db_now := 1711897200000 |}.

(** The same world with one database operation failing. *)
Definition env_failing (op : ChatService.DbOp) : ChatService.Env :=
  {| ChatService.epoch_ms := ChatService.epoch_ms env_ok;
     ChatService.local_offset_min := ChatService.local_offset_min env_ok;
     ChatService.completion := ChatService.completion env_ok;
     ChatService.decode_intent := ChatService.decode_intent env_ok;
     ChatService.decode_needsData := ChatService.decode_needsData env_ok;
     ChatService.db_fails := ChatService.DbOp_eqb op;
     ChatService.uuidv4 := ChatService.uuidv4 env_ok;
     ChatService.db_uuid := ChatService.db_uuid env_ok;
     ChatService.db_now := ChatService.db_now env_ok |}.

Definition sample_intent (range kind : string) (p : option string) (n : option Z)
    (f t : option string) : Intent :=
  {| isAnalysisRequest := true; needsRecords := true; needsChatHistory := false;
     needsChart := true; isSimpleGreeting := false; timeRange := Some range;
     topic := None; analysisType := Some kind; periodType := p; periodValue := n;
     fromDate := f; toDate := t |}.

Definition db_empty : ChatService.Db :=
  {| ChatService.records := []; ChatService.chat_messages := [];
     ChatService.saved_charts := [] |}.

Definition sample_chart (owner : string) (i : nat) : ChatService.SavedChart :=
  {| ChatService.chart_id := owner ++ "-" ++ JsStr.of_Z (Z.of_nat i);
     ChatService.chart_user_id := owner;
     ChatService.chart_name := "2024-01-01 감정 차트";
     ChatService.chart_type := "line";
     ChatService.chart_data :=
       {| ChartGenerator.labels := []; ChartGenerator.datasets := [] |};
     ChatService.period_start := "2024-01-01";
     ChatService.period_end := "2024-01-31";
     ChatService.created_at := 1000 - Z.of_nat i |}.

(** Twenty-three charts of user u1, listed newest first, and two of u2. *)
Definition db_charts : ChatService.Db :=
  {| ChatService.records := []; ChatService.chat_messages := [];
     ChatService.saved_charts :=
       (map (sample_chart "u1") (seq 0 23) ++ map (sample_chart "u2") (seq 0 2))%list |}.

Definition sample_request (m : ChatService.JsVal) : ChatService.ChatRequest :=
  {| ChatService.body_message := m;
     ChatService.body_user_id := Some "u1";
     ChatService.body_recent_messages := [] |}.

(** ** chatService.js: the saved-chart functions *)

Module ChartStore.

Import ChartGenerator.
Import ChatService.

(** The queries of these functions, for the failures of the client. *)
Inductive StoreOp : Type := SelectCharts | SelectChart | DeleteChart | SelectStats.

(** [.order('created_at', { ascending: false })] *)
Definition created_ge (a b : SavedChart) : bool := created_at b <=? created_at a.

(** [getSavedCharts(userId, limit)]; [limit] is a row count. *)
Definition getSavedCharts (fails : StoreOp -> bool) (d : Db) (userId : string)
    (limit : nat) : Outcome (list SavedChart) :=
  if fails SelectCharts then Thrown DbError
  else Done (firstn limit (sort_by created_ge (user_charts d userId))).

(** [.eq('id', chartId).eq('user_id', userId)] *)
Definition owned_by (chartId userId : string) (c : SavedChart) : bool :=
  String.eqb (chart_id c) chartId && String.eqb (chart_user_id c) userId.

(** [getChartById]; [.single()] answers with an error unless exactly one row
    matches. *)
Definition getChartById (fails : StoreOp -> bool) (d : Db) (chartId userId : string)
    : Outcome SavedChart :=
  if fails SelectChart then Thrown DbError
  else match filter (owned_by chartId userId) (saved_charts d) with
       | [c] => Done c
       | _ => Thrown DbError
       end.

(** [deleteChart]: [.delete()...select().single()]; unless exactly one row
    matches the request is an error and nothing is deleted. *)
Definition deleteChart (fails : StoreOp -> bool) (d : Db) (chartId userId : string)
    : Outcome unit * Db :=
  if fails DeleteChart then (Thrown DbError, d)
  else match filter (owned_by chartId userId) (saved_charts d) with
       | [c] =>
           (Done tt,
            {| records := records d;
               chat_messages := chat_messages d;
               saved_charts :=
                 filter (fun x => negb (owned_by chartId userId x)) (saved_charts d) |})
       | _ => (Thrown DbError, d)
       end.

Record ChartStats : Type := mkChartStats {
  totalCharts : Z;
  typeStats : ChartGenerator.JsObject;
  latestChart : option (string * Z)
}.

(** The callback of the [reduce] of [getChartStats]. *)
Definition type_step (acc : ChartGenerator.JsObject) (chart : SavedChart) : ChartGenerator.JsObject :=
  prop_set acc (chart_type chart) (num_or (prop_get acc (chart_type chart)) 0 + 1).

Definition getChartStats (fails : StoreOp -> bool) (d : Db) (userId : string)
    : Outcome ChartStats :=
  if fails SelectStats then Thrown DbError
  else
    let data := user_charts d userId in
    let stats := fold_left type_step data [] in
    let latest :=
      match sort_by created_ge data with
      | [] => None
      | c :: _ => Some (chart_type c, created_at c)
      end in
    Done {| totalCharts := Z.of_nat (List.length data);
            typeStats := stats;
            latestChart := latest |}.

Inductive ApiBody : Type :=
| ApiError (error : string) (details : option string)
| ChartBody (chart : SavedChart)
| DeletedBody (message : string)
| StatsBody (stats : ChartStats).

(** [getChartByIdAPI]; [chartId] is [req.params.chartId], [user_id] is
    [req.query.user_id]. *)
Definition getChartByIdAPI (fails : StoreOp -> bool) (d : Db)
    (chartId user_id : option string) : Z * ApiBody :=
  match truthy_str user_id, truthy_str chartId with
  | Some u, Some c =>
      match getChartById fails d c u with
      | Done chart => (200, ChartBody chart)
      | Thrown e =>
          (500, ApiError "차트 조회 중 오류가 발생했습니다." (Some (exn_message e)))
      end
  | _, _ => (400, ApiError "user_id와 chartId가 필요합니다." None)
  end.

(** [deleteChartAPI]; [user_id] is [req.body.user_id]. *)
Definition deleteChartAPI (fails : StoreOp -> bool) (d : Db)
    (chartId user_id : option string) : (Z * ApiBody) * Db :=
  match truthy_str user_id, truthy_str chartId with
  | Some u, Some c =>
      match deleteChart fails d c u with
      | (Done _, d') => ((200, DeletedBody "차트가 성공적으로 삭제되었습니다."), d')
      | (Thrown e, d') =>
          ((500, ApiError "차트 삭제 중 오류가 발생했습니다." (Some (exn_message e))), d')
      end
  | _, _ => ((400, ApiError "user_id와 chartId가 필요합니다." None), d)
  end.

(** [getChartStatsAPI] *)
Definition getChartStatsAPI (fails : StoreOp -> bool) (d : Db)
    (user_id : option string) : Z * ApiBody :=
  match truthy_str user_id with
  | Some u =>
      match getChartStats fails d u with
      | Done stats => (200, StatsBody stats)
      | Thrown e =>
          (500, ApiError "차트 통계 조회 중 오류가 발생했습니다." (Some (exn_message e)))
      end
  | None => (400, ApiError "user_id가 필요합니다." None)
  end.

End ChartStore.

(** ** fe/app/main/chart_detail/index.tsx *)

Module ChartDetail.

Import ChartGenerator.

Inductive View : Type :=
| LoadErrorView | LineChartView | BarChartView | PieChartView | UnsupportedView.

(** [renderChart]: the [switch] on [parsedChartData.type]. *)
Definition renderChart (type : string) : View :=
  if String.eqb type "line" then LineChartView
  else if String.eqb type "bar" then BarChartView
  else if String.eqb type "pie" then PieChartView
  else UnsupportedView.

(** What the screen shows in its chart container; [None] is a missing
    [chartData] parameter. *)
Definition chart_view (parsedChartData : option ChartDescriptor) : View :=
  match parsedChartData with
  | None => LoadErrorView
  | Some c => renderChart (descriptor_type c)
  end.

(** [parsedChartData.data?.datasets?.[0]?.data?.length || 0] *)
Definition data_points (c : ChartDescriptor) : nat :=
  match c with
  | MessageChart _ => 0
  | DataChart _ d _ =>
      match datasets d with
      | [] => 0
      | ds :: _ => List.length (ds_data ds)
      end
  end.

End ChartDetail.

(** ** Further specification-level definitions *)

(** The sum of a list of numbers. *)
Definition sum_list (l : list Z) : Z := fold_right Z.add 0 l.

(** The columns of a chat message that are written once, at the insert. *)
Definition message_key (m : ChatService.ChatMessage) : string * string * string * Z :=
  (ChatService.msg_id m, ChatService.msg_user_id m, ChatService.user_chat m,
   ChatService.msg_created_at m).

(** [l1] is a prefix of [l2]. *)
Definition is_prefix {A : Type} (l1 l2 : list A) : Prop := exists rest, l2 = (l1 ++ rest)%list.

(** A world in which every model call is rejected. *)
Definition env_model_down : ChatService.Env :=
  {| ChatService.epoch_ms := ChatService.epoch_ms env_ok;
     ChatService.local_offset_min := ChatService.local_offset_min env_ok;
     ChatService.completion := fun _ => None;
     ChatService.decode_intent := ChatService.decode_intent env_ok;
     ChatService.decode_needsData := ChatService.decode_needsData env_ok;
     ChatService.db_fails := ChatService.db_fails env_ok;
     ChatService.uuidv4 := ChatService.uuidv4 env_ok;
     ChatService.db_uuid := ChatService.db_uuid env_ok;
     ChatService.db_now := ChatService.db_now env_ok |}.

(** Three rows of user u1 in the records table. *)
Definition db_records : ChatService.Db :=
  {| ChatService.records :=
       [ sample_row "2024-03-30" 3 (Some "기쁨");
         sample_row "2024-03-29" 0 (Some "평온");
         sample_row "2024-03-31" 4 None ];
     ChatService.chat_messages := [];
     ChatService.saved_charts := [] |}.

(** The parsed time of a row's date, 0 when it does not parse. *)
Definition row_time (Date_parse : string -> option Z) (r : MoodRecord) : Z :=
  match ChartGenerator.date_time Date_parse (date r) with
  | Some t => t
  | None => 0
  end.

(** How many elements of [l] have the key [k]. *)
Definition count_with {A : Type} (key : A -> string) (k : string) (l : list A) : Z :=
  Z.of_nat (List.length (filter (fun x => String.eqb (key x) k) l)).

(** Twenty-two messages of user u1, listed newest first. *)
Definition db_messages : ChatService.Db :=
  {| ChatService.records := [];
     ChatService.chat_messages :=
       map (fun i =>
              {| ChatService.msg_id := ("m-" ++ JsStr.of_Z (Z.of_nat i))%string;
                 ChatService.msg_user_id := "u1";
                 ChatService.user_chat := "안녕";
                 ChatService.ai_answer := None;
                 ChatService.msg_created_at := 500 - Z.of_nat i |})
           (seq 0 22);
     ChatService.saved_charts := [] |}.

(** One write of the pipeline to the database. *)
Inductive db_step : ChatService.Db -> ChatService.Db -> Prop :=
| step_insert_chart d c : db_step d (ChatService.insert_chart d c)
| step_delete_charts d ids : db_step d (ChatService.delete_charts d ids)
| step_insert_message d m : db_step d (ChatService.insert_message d m)
| step_update_message d messageId answer :
    db_step d (ChatService.update_message d messageId answer).

(** Any number of such writes, one after the other. *)
Inductive db_steps : ChatService.Db -> ChatService.Db -> Prop :=
| db_steps_none d : db_steps d d
| db_steps_more d1 d2 d3 : db_step d1 d2 -> db_steps d2 d3 -> db_steps d1 d3.

(** Running [m] from [s] adds the events [evs] to the trace and changes the
    database by writes of the pipeline only. *)
Definition effect_of {A : Type} (m : ChatService.M A) (s : ChatService.St)
    (evs : list ChatService.Event) : Prop :=
  ChatService.trace (snd (m s)) = (ChatService.trace s ++ evs)%list /\
  db_steps (ChatService.db s) (ChatService.db (snd (m s))).

(** The statuses the handlers answer with. *)
Definition handled_status (r : Z * ChatService.Body) : Prop :=
  In (fst r) [200; 400; 500].

(** [m] sends no response. *)
Definition quiet {A : Type} (m : ChatService.M A) : Prop :=
  forall s, exists evs, effect_of m s evs /\ ChatService.responses evs = [].

(** [m] does not throw. *)
Definition never_throws {A : Type} (m : ChatService.M A) : Prop :=
  forall s, exists a, fst (m s) = ChatService.Done a.

(** [m] sends one response when it returns and none when it throws. *)
Definition answers {A : Type} (m : ChatService.M A) : Prop :=
  forall s, exists evs,
    effect_of m s evs /\
    match fst (m s) with
    | ChatService.Done _ =>
        exists r, ChatService.responses evs = [r] /\ handled_status r
    | ChatService.Thrown _ => ChatService.responses evs = []
    end.

(** Twenty charts of user u1 and two of u2: u1 is at the limit. *)
Definition db_full : ChatService.Db :=
  {| ChatService.records := []; ChatService.chat_messages := [];
     ChatService.saved_charts :=
       (map (sample_chart "u1") (seq 0 20) ++ map (sample_chart "u2") (seq 0 2))%list |}.

(** * Properties *)

(** ** Sorting *)

Section SortFacts.

Context {A : Type}.
Variable le : A -> A -> bool.

Lemma insert_by_perm (x : A) (l : list A) :
  Permutation (insert_by le x l) (x :: l).
Proof.
  induction l as [|y rest IH]; simpl.
  - apply Permutation_refl.
  - destruct (le x y).
    + apply Permutation_refl.
    + eapply perm_trans; [apply perm_skip, IH | apply perm_swap].
Qed.

Lemma sort_by_perm (l : list A) : Permutation (sort_by le l) l.
Proof.
  induction l as [|x rest IH]; simpl.
  - constructor.
  - eapply perm_trans; [apply insert_by_perm | apply perm_skip, IH].
Qed.

Lemma sort_by_length (l : list A) : List.length (sort_by le l) = List.length l.
Proof. apply Permutation_length, sort_by_perm. Qed.

Lemma sort_by_In (x : A) (l : list A) : In x (sort_by le l) <-> In x l.
Proof.
  split; apply Permutation_in; [|apply Permutation_sym]; apply sort_by_perm.
Qed.

End SortFacts.

Section SortByKey.

Context {A : Type}.
Variable key : A -> Z.

Let le (a b : A) : bool := key a <=? key b.
Let R (a b : A) : Prop := key a <= key b.

Lemma insert_by_key_sorted (x : A) (l : list A) :
  StronglySorted R l -> StronglySorted R (insert_by le x l).
Proof.
  induction 1 as [|y rest Hs IH Hall]; simpl.
  - constructor; [constructor | constructor].
  - unfold le at 1. destruct (Z.leb_spec (key x) (key y)) as [Hxy|Hxy].
    + constructor.
      * constructor; assumption.
      * constructor; [exact Hxy|].
        eapply Forall_impl; [|exact Hall].
        intros z Hz. unfold R in *. lia.
    + constructor; [exact IH|].
      rewrite Forall_forall in *. intros z Hz.
      apply (Permutation_in _ (insert_by_perm le x rest)) in Hz.
      destruct Hz as [<-|Hz]; [unfold R; lia | now apply Hall].
Qed.

Lemma sort_by_key_sorted (l : list A) :
  StronglySorted R (sort_by le l).
Proof.
  induction l as [|x rest IH]; simpl.
  - constructor.
  - apply insert_by_key_sorted, IH.
Qed.

Lemma strongly_sorted_app (l1 l2 : list A) :
  StronglySorted R (l1 ++ l2) ->
  forall a b, In a l1 -> In b l2 -> key a <= key b.
Proof.
  induction l1 as [|x rest IH]; simpl; intros Hs a b Ha Hb.
  - contradiction.
  - inversion Hs as [|? ? Hs' Hall]; subst.
    destruct Ha as [->|Ha].
    + rewrite Forall_forall in Hall. apply Hall, in_or_app. now right.
    + now apply IH.
Qed.

Lemma strongly_sorted_firstn (n : nat) (l : list A) :
  StronglySorted R l -> StronglySorted R (firstn n l).
Proof.
  intros Hs. revert n.
  induction Hs as [|x rest Hs IH Hall]; intros [|n]; simpl; try constructor.
  - apply IH.
  - rewrite Forall_forall in *. intros z Hz. apply Hall.
    rewrite <- (firstn_skipn n rest). apply in_or_app. now left.
Qed.

End SortByKey.

(** ** Chart type selection *)

(** C4. The chart type is a function of the question text alone: it is the
    type of the first group of the keyword table (change/trend/flow/pattern,
    then distribution/frequency, then ratio/composition, then compare) one of
    whose keywords occurs in the lower-cased question, and 'line' when no
    keyword occurs. *)
Theorem selectChartTypeByRule_follows_table :
  forall (toLowerCase : string -> string) (question : string),
    ChartGenerator.selectChartTypeByRule toLowerCase question
    = table_lookup (toLowerCase question) chart_keyword_table "line".
Proof.
  intros toLowerCase question.
  unfold ChartGenerator.selectChartTypeByRule, chart_keyword_table, table_lookup,
    JsStr.includes_any, existsb.
  generalize (toLowerCase question) as q. intro q.
  repeat match goal with
         | |- context [JsStr.includes q ?k] =>
             destruct (JsStr.includes q k); cbn [orb]; try reflexivity
         end.
Qed.

Lemma selectChartTypeByRule_range (toLowerCase : string -> string) (question : string) :
  In (ChartGenerator.selectChartTypeByRule toLowerCase question)
     ["line"; "bar"; "pie"; "radar"].
Proof.
  unfold ChartGenerator.selectChartTypeByRule.
  repeat match goal with
         | |- context [if ?c then _ else _] => destruct c
         end; simpl; auto.
Qed.

Example selectChartTypeByRule_examples :
  ChartGenerator.selectChartTypeByRule lower_ascii "감정 변화 보여줘" = "line" /\
  ChartGenerator.selectChartTypeByRule lower_ascii "감정 분포는?" = "bar" /\
  ChartGenerator.selectChartTypeByRule lower_ascii "비율이 어때" = "pie" /\
  ChartGenerator.selectChartTypeByRule lower_ascii "이전과 비교해줘" = "radar" /\
  ChartGenerator.selectChartTypeByRule lower_ascii "Mon VS Tue" = "radar" /\
  ChartGenerator.selectChartTypeByRule lower_ascii "비율 변화" = "line" /\
  ChartGenerator.selectChartTypeByRule lower_ascii "오늘 어땠어" = "line".
Proof. repeat split; vm_compute; reflexivity. Qed.

(** ** Counting emotions *)

Section Counting.

Import ChartGenerator.

Lemma prop_get_set (acc : JsObject) (e k : string) (v : Z) :
  prop_get (prop_set acc e v) k
  = if String.eqb e k then Some v else prop_get acc k.
Proof.
  induction acc as [|[k' v'] rest IH]; simpl.
  - reflexivity.
  - destruct (String.eqb_spec k' e) as [->|Hne]; simpl.
    + destruct (String.eqb e k); reflexivity.
    + rewrite IH. destruct (String.eqb_spec e k) as [->|Hek].
      * destruct (String.eqb_spec k' k); [congruence | reflexivity].
      * reflexivity.
Qed.

Lemma prop_set_keys (acc : JsObject) (e : string) (v : Z) :
  map fst (prop_set acc e v)
  = if existsb (String.eqb e) (map fst acc) then map fst acc
    else (map fst acc ++ [e])%list.
Proof.
  induction acc as [|[k' v'] rest IH]; simpl.
  - reflexivity.
  - rewrite (String.eqb_sym e k').
    destruct (String.eqb k' e); simpl.
    + reflexivity.
    + rewrite IH. destruct (existsb (String.eqb e) (map fst rest)); reflexivity.
Qed.

Lemma existsb_eqb_In (e : string) (l : list string) :
  existsb (String.eqb e) l = true <-> In e l.
Proof.
  rewrite existsb_exists. split.
  - intros [x [Hin Heq]]. apply String.eqb_eq in Heq. now subst.
  - intros Hin. exists e. split; [assumption | apply String.eqb_refl].
Qed.

Lemma prop_set_NoDup (acc : JsObject) (e : string) (v : Z) :
  NoDup (map fst acc) -> NoDup (map fst (prop_set acc e v)).
Proof.
  intros Hnd. rewrite prop_set_keys.
  destruct (existsb (String.eqb e) (map fst acc)) eqn:Hex; [assumption|].
  apply (Permutation_NoDup (Permutation_cons_append (map fst acc) e)).
  constructor; [|assumption].
  intros Hin. apply existsb_eqb_In in Hin. congruence.
Qed.


Lemma num_or_Some_0 (v : Z) : num_or (Some v) 0 = v.
Proof. unfold num_or. destruct (Z.eqb_spec v 0); congruence. Qed.




Lemma fold_keys_NoDup (rows : list MoodRecord) (acc : JsObject) :
  NoDup (map fst acc) -> NoDup (map fst (fold_left count_step rows acc)).
Proof.
  revert acc. induction rows as [|r rest IH]; intros acc Hnd; simpl.
  - assumption.
  - apply IH, prop_set_NoDup, Hnd.
Qed.

Lemma fold_keys_In (rows : list MoodRecord) (acc : JsObject) (k : string) :
  In k (map fst (fold_left count_step rows acc))
  <-> In k (map fst acc) \/ exists r, In r rows /\ bucket r = k.
Proof.
  revert acc. induction rows as [|r rest IH]; intros acc; simpl.
  - split; [auto | intros [H|[r [[] _]]]; exact H].
  - rewrite IH. unfold count_step at 1. rewrite prop_set_keys.
    destruct (existsb (String.eqb (bucket r)) (map fst acc)) eqn:Hex.
    + apply existsb_eqb_In in Hex. split.
      * intros [H|[r' [Hin Hb]]]; [now left | right; exists r'; auto].
      * intros [H|[r' [[->|Hin] Hb]]];
          [now left | left; now subst | right; exists r'; auto].
    + rewrite in_app_iff. simpl. split.
      * intros [[H|[H|[]]]|[r' [Hin Hb]]];
          [now left | right; exists r; auto | right; exists r'; auto].
      * intros [H|[r' [[->|Hin] Hb]]];
          [now left; left | left; right; now left | right; exists r'; auto].
Qed.

Lemma prop_get_In (acc : JsObject) (k : string) (v : Z) :
  NoDup (map fst acc) -> In (k, v) acc -> prop_get acc k = Some v.
Proof.
  induction acc as [|[k' v'] rest IH]; simpl; intros Hnd Hin.
  - contradiction.
  - inversion Hnd as [|? ? Hnotin Hnd']; subst.
    destruct Hin as [Heq|Hin].
    + inversion Heq; subst. now rewrite String.eqb_refl.
    + destruct (String.eqb_spec k' k) as [->|Hne].
      * exfalso. apply Hnotin. apply in_map_iff. now exists (k, v).
      * now apply IH.
Qed.

Lemma own_entries_perm (acc : JsObject) : Permutation (own_entries acc) acc.
Proof.
  unfold own_entries.
  eapply perm_trans.
  - apply Permutation_app_tail, sort_by_perm.
  - induction acc as [|e rest IH]; simpl.
    + constructor.
    + destruct (is_index e); simpl.
      * now apply perm_skip.
      * eapply perm_trans; [apply Permutation_sym, Permutation_middle|].
        now apply perm_skip.
Qed.

Lemma Object_keys_perm (acc : JsObject) :
  Permutation (Object_keys acc) (map fst acc).
Proof. apply Permutation_map, own_entries_perm. Qed.



Lemma emotionCounts_keys_NoDup (rows : list MoodRecord) :
  NoDup (Object_keys (emotionCounts rows)).
Proof.
  apply (Permutation_NoDup (Permutation_sym (Object_keys_perm _))).
  apply fold_keys_NoDup. constructor.
Qed.

Lemma emotionCounts_keys_In (rows : list MoodRecord) (k : string) :
  In k (Object_keys (emotionCounts rows))
  <-> exists r, In r rows /\ bucket r = k.
Proof.
  split.
  - intros Hin. apply (Permutation_in _ (Object_keys_perm _)) in Hin.
    apply fold_keys_In in Hin. destruct Hin as [[]|H]. exact H.
  - intros H. apply (Permutation_in _ (Permutation_sym (Object_keys_perm _))).
    apply fold_keys_In. now right.
Qed.

End Counting.


Example bar_chart_example :
  let rows := [ sample_row "2024-01-03" 3 (Some "기쁨");
                sample_row "2024-01-01" 2 None;
                sample_row "2024-01-02" 4 (Some "7");
                sample_row "2024-01-04" 1 (Some "기쁨");
                sample_row "2024-01-05" 1 (Some "") ] in
  chart_labels (ChartGenerator.generateBarChart rows)
    = [Some "7"; Some "기쁨"; Some "정보없음"] /\
  chart_series (ChartGenerator.generatePieChart rows) = [[1; 2; 2]].
Proof. split; vm_compute; reflexivity. Qed.

(** ** The validity filter of the chart generator *)

(** What the filter keeps: rows with a non-empty date that parses and a
    fatigue that is present and not zero. *)
Lemma valid_item_iff (Date_parse : string -> option Z) (item : MoodRecord) :
  ChartGenerator.valid_item Date_parse item = true
  <-> exists d f t,
        date item = Some d /\ d <> "" /\
        fatigue item = Some f /\ f <> 0 /\
        Date_parse d = Some t.
Proof.
  unfold ChartGenerator.valid_item, truthy_str, truthy_num. split.
  - destruct (date item) as [d|]; [|discriminate].
    destruct d as [|c d']; simpl; [discriminate|].
    destruct (fatigue item) as [f|]; simpl; [|discriminate].
    destruct (Z.eqb_spec f 0); simpl; [discriminate|].
    destruct (Date_parse (String c d')) as [t|] eqn:Hp; [|discriminate].
    intros _. exists (String c d'), f, t. repeat split; auto. discriminate.
  - intros (d & f & t & -> & Hd & -> & Hf & Hp).
    destruct d as [|c d']; [congruence|]. simpl.
    destruct (Z.eqb_spec f 0); [congruence|]. simpl. now rewrite Hp.
Qed.

(** When no row survives the filter the result is a no-data descriptor. *)
Lemma generateEmotionChart_no_valid_rows
    (toLowerCase : string -> string) (Date_parse : string -> option Z)
    (rows : list MoodRecord) (question : string) :
  filter (ChartGenerator.valid_item Date_parse) rows = [] ->
  ChartGenerator.noData
    (ChartGenerator.generateEmotionChart toLowerCase Date_parse rows question) = true.
Proof.
  intros Hf. unfold ChartGenerator.generateEmotionChart.
  destruct rows as [|r rest]; [reflexivity|]. now rewrite Hf.
Qed.

(** A row whose fatigue is the number 0 is rejected, whatever its date. *)
Lemma valid_item_zero_fatigue (Date_parse : string -> option Z) (item : MoodRecord) :
  fatigue item = Some 0 -> ChartGenerator.valid_item Date_parse item = false.
Proof.
  intros Hf. unfold ChartGenerator.valid_item, truthy_num. rewrite Hf. simpl.
  destruct (truthy_str (date item)); reflexivity.
Qed.

(** C5. At a row with a date that parses and fatigue 0, both fields present,
    the filter drops the row: alone it yields the no-data descriptor, and
    next to a row with fatigue 3 only the other row is charted. *)
Theorem generateEmotionChart_drops_zero_fatigue :
  let rested := sample_row "2024-01-01" 0 (Some "기쁨") in
  let tired := sample_row "2024-01-02" 3 (Some "피곤") in
  iso_date_time "2024-01-01" = Some 1704067200000 /\
  date rested = Some "2024-01-01" /\
  fatigue rested = Some 0 /\
  ChartGenerator.valid_item iso_date_time rested = false /\
  ChartGenerator.generateEmotionChart lower_ascii iso_date_time
    [rested] "감정 변화 보여줘"
  = ChartGenerator.MessageChart ChartGenerator.no_valid_data_message /\
  chart_labels
    (ChartGenerator.generateEmotionChart lower_ascii iso_date_time
       [rested; tired] "감정 변화 보여줘")
  = [Some "2024-01-02"].
Proof. repeat split; vm_compute; reflexivity. Qed.

(** ** The calendar *)

Section Calendar.

Import Dayjs.

Lemma days_from_civil_linear (y m d : Z) :
  days_from_civil y m d = days_from_civil y m 1 + d - 1.
Proof. unfold days_from_civil. destruct (m <=? 2); lia. Qed.

(** The day number of the date of a day number is that day number, and the
    date has a month in 1..12 and a day of the month from 1 on. *)
Lemma civil_from_days_sound (z : Z) :
  let '(y, m, d) := civil_from_days z in
  days_from_civil y m d = z /\ 1 <= m <= 12 /\ 1 <= d.
Proof.
  unfold civil_from_days, days_from_civil.
  set (z' := z + 719468).
  set (era := z' / 146097).
  set (doe := z' - era * 146097).
  assert (Hdoe : 0 <= doe <= 146096)
    by (unfold doe, era; Z.div_mod_to_equations; lia).
  set (yoe := (doe - doe / 1460 + doe / 36524 - doe / 146096) / 365).
  assert (Hyoe : 0 <= yoe <= 399) by (unfold yoe; Z.div_mod_to_equations; lia).
  set (doy := doe - (365 * yoe + yoe / 4 - yoe / 100)).
  assert (Hdoy : 0 <= doy <= 365)
    by (unfold doy, yoe; Z.div_mod_to_equations; lia).
  set (mp := (5 * doy + 2) / 153).
  assert (Hmp : 0 <= mp <= 11) by (unfold mp; Z.div_mod_to_equations; lia).
  assert (Hd : 1 <= doy - (153 * mp + 2) / 5 + 1)
    by (unfold mp; Z.div_mod_to_equations; lia).
  destruct (Z.ltb_spec mp 10) as [Hlt|Hge].
  - replace (mp + 3 <=? 2) with false by (symmetry; apply Z.leb_gt; lia).
    replace ((yoe + era * 400) / 400) with era by (Z.div_mod_to_equations; lia).
    replace (yoe + era * 400 - era * 400) with yoe by lia.
    replace (mp + 3 - 3) with mp by lia.
    repeat split; try lia; unfold doy, doe, z'; lia.
  - replace (mp - 9 <=? 2) with true by (symmetry; apply Z.leb_le; lia).
    replace ((yoe + era * 400 + 1 - 1) / 400) with era
      by (Z.div_mod_to_equations; lia).
    replace (yoe + era * 400 + 1 - 1 - era * 400) with yoe by lia.
    replace (mp - 9 + 9) with mp by lia.
    repeat split; try lia; unfold doy, doe, z'; lia.
Qed.

Lemma year_of_era_recovered (yoe doy : Z) :
  0 <= yoe <= 399 -> 0 <= doy ->
  (doy <= 364 \/
   (doy = 365 /\ (yoe + 1) mod 4 = 0 /\ ((yoe + 1) mod 100 <> 0 \/ yoe = 399))) ->
  let doe := yoe * 365 + yoe / 4 - yoe / 100 + doy in
  0 <= doe <= 146096 /\
  (doe - doe / 1460 + doe / 36524 - doe / 146096) / 365 = yoe.
Proof.
  intros Hy Hd Hl doe. unfold doe.
  split; Z.div_mod_to_equations; lia.
Qed.

(** The date of the day number of a valid date is that date. *)
Lemma civil_of_days_from_civil (y m d : Z) :
  1 <= m <= 12 -> 1 <= d <= days_in_month y m ->
  civil_from_days (days_from_civil y m d) = (y, m, d).
Proof.
  intros Hm Hd.
  unfold days_in_month, is_leap in Hd.
  unfold civil_from_days, days_from_civil.
  set (y' := if m <=? 2 then y - 1 else y).
  set (era := y' / 400).
  set (yoe := y' - era * 400).
  set (mp := if m <=? 2 then m + 9 else m - 3).
  set (doy := (153 * mp + 2) / 5 + d - 1).
  set (doe := yoe * 365 + yoe / 4 - yoe / 100 + doy).
  assert (Hyoe : 0 <= yoe <= 399)
    by (unfold yoe, era; Z.div_mod_to_equations; lia).
  assert (Hmp : 0 <= mp <= 11 /\
                (mp < 10 -> m = mp + 3 /\ y' = y) /\
                (10 <= mp -> m = mp - 9 /\ y' = y - 1))
    by (unfold mp, y'; destruct (Z.leb_spec m 2); lia).
  assert (Hdoy : 0 <= doy /\
    (doy <= 364 \/
     (doy = 365 /\ (yoe + 1) mod 4 = 0 /\ ((yoe + 1) mod 100 <> 0 \/ yoe = 399))) /\
    (5 * doy + 2) / 153 = mp /\ doy - (153 * mp + 2) / 5 + 1 = d).
  { unfold doy.
    assert (Hy : y' = era * 400 + yoe) by (unfold yoe; lia).
    clear doe doy. clearbody yoe era mp y'.
    assert (m = 1 \/ m = 2 \/ m = 3 \/ m = 4 \/ m = 5 \/ m = 6 \/ m = 7 \/
            m = 8 \/ m = 9 \/ m = 10 \/ m = 11 \/ m = 12) as Hcases by lia.
    destruct Hcases
      as [->|[->|[->|[->|[->|[->|[->|[->|[->|[->|[->| ->]]]]]]]]]]];
      cbn in Hd.
    2: { destruct ((y mod 4 =? 0) && negb (y mod 100 =? 0) || (y mod 400 =? 0))
           eqn:E.
         - assert (y mod 4 = 0 /\ (y mod 100 <> 0 \/ y mod 400 = 0)).
           { apply orb_true_iff in E. destruct E as [E|E].
             - apply andb_true_iff in E. destruct E as [E1 E2].
               apply Z.eqb_eq in E1. apply negb_true_iff, Z.eqb_neq in E2. lia.
             - apply Z.eqb_eq in E. split; [|lia]. Z.div_mod_to_equations. lia. }
           clear E. Z.div_mod_to_equations. lia.
         - clear E. Z.div_mod_to_equations. lia. }
    all: Z.div_mod_to_equations; lia. }
  destruct Hdoy as (Hdoy0 & Hdoy1 & Hmp2 & Hd2).
  destruct (year_of_era_recovered yoe doy Hyoe Hdoy0 Hdoy1) as [Hdoe Hyoe2].
  fold doe in Hdoe, Hyoe2.
  replace (era * 146097 + doe - 719468 + 719468) with (era * 146097 + doe) by lia.
  replace ((era * 146097 + doe) / 146097) with era by (Z.div_mod_to_equations; lia).
  replace (era * 146097 + doe - era * 146097) with doe by lia.
  rewrite Hyoe2.
  replace (doe - (365 * yoe + yoe / 4 - yoe / 100)) with doy by (unfold doe; lia).
  rewrite Hmp2, Hd2.
  destruct Hmp as (Hmp0 & Hlt & Hge).
  destruct (Z.ltb_spec mp 10) as [Hlt10|Hge10].
  - destruct (Hlt Hlt10) as [Hm2 Hy].
    replace (mp + 3 <=? 2) with false by (symmetry; apply Z.leb_gt; lia).
    rewrite Hm2. f_equal. f_equal. unfold yoe. lia.
  - destruct (Hge Hge10) as [Hm2 Hy].
    replace (mp - 9 <=? 2) with true by (symmetry; apply Z.leb_le; lia).
    rewrite Hm2. f_equal. f_equal. unfold yoe. lia.
Qed.

Lemma days_in_month_pos (y m : Z) : 28 <= days_in_month y m.
Proof.
  unfold days_in_month.
  repeat match goal with |- context [if ?c then _ else _] => destruct c end; lia.
Qed.

Lemma civil_of_fields (d : t) :
  civil_of d = (year d, month d, date d).
Proof.
  unfold civil_of, year, month, date.
  destruct (civil_from_days (day_number d)) as [[y m] dd]. reflexivity.
Qed.

Lemma fields_sound (d : t) :
  days_from_civil (year d) (month d) (date d) = day_number d /\
  1 <= month d <= 12 /\ 1 <= date d.
Proof.
  pose proof (civil_from_days_sound (day_number d)) as H.
  unfold year, month, date.
  destruct (civil_from_days (day_number d)) as [[y m] dd]. exact H.
Qed.

Lemma format_is_format_civil (d : t) :
  format_YYYY_MM_DD d = format_civil (civil_of d).
Proof. rewrite civil_of_fields. reflexivity. Qed.

Lemma ms_of_day_range (d : t) : 0 <= ms_of_day d < ms_per_day.
Proof. unfold ms_of_day, ms_per_day. apply Z.mod_pos_bound. lia. Qed.

Lemma day_number_add_days (n : Z) (d : t) :
  day_number (add_days n d) = day_number d + n.
Proof.
  destruct (fields_sound d) as (Hz & _ & _).
  rewrite days_from_civil_linear in Hz.
  pose proof (ms_of_day_range d) as Hms.
  unfold add_days, day_number at 1. cbn [wall_ms].
  replace (days_from_civil (year d) (month d) 1 + (date d + n - 1))
    with (day_number d + n) by lia.
  set (z := day_number d + n). set (r := ms_of_day d) in *. clearbody z r.
  unfold ms_per_day in *. Z.div_mod_to_equations. lia.
Qed.

Lemma civil_of_of_fields (y m dd ms : Z) :
  1 <= m <= 12 -> 1 <= dd <= days_in_month y m -> 0 <= ms < ms_per_day ->
  civil_of (of_fields y m dd ms) = (y, m, dd).
Proof.
  intros Hm Hd Hms. unfold civil_of, of_fields, day_number. cbn [wall_ms].
  replace ((days_from_civil y m dd * ms_per_day + ms) / ms_per_day)
    with (days_from_civil y m dd).
  - now apply civil_of_days_from_civil.
  - set (z := days_from_civil y m dd). clearbody z.
    unfold ms_per_day in *. Z.div_mod_to_equations. lia.
Qed.

(** What [subtract] shows on the calendar is the date minus the units. *)
Lemma civil_of_subtract (n : Z) (u : unit_t) (d : t) :
  civil_of (subtract n u d) = date_minus (civil_of d) n u.
Proof.
  destruct (fields_sound d) as (Hz & Hm & Hd).
  pose proof (ms_of_day_range d) as Hms.
  rewrite (civil_of_fields d). unfold subtract, add, date_minus.
  destruct u.
  - unfold civil_of. rewrite day_number_add_days, Hz. f_equal. lia.
  - unfold civil_of. rewrite day_number_add_days, Hz. f_equal. lia.
  - unfold set_year_month.
    set (m0 := month d - 1 + n * -1).
    set (k := 12 * year d + (month d - 1) - n).
    assert (Hy : year d + m0 / 12 = k / 12)
      by (unfold m0, k; Z.div_mod_to_equations; lia).
    assert (Hmm : m0 mod 12 + 1 = k mod 12 + 1)
      by (unfold m0, k; Z.div_mod_to_equations; lia).
    rewrite Hy, Hmm.
    pose proof (days_in_month_pos (k / 12) (k mod 12 + 1)).
    apply civil_of_of_fields; try assumption.
    + pose proof (Z.mod_pos_bound k 12). lia.
    + lia.
  - unfold set_year_month.
    replace ((month d - 1) / 12) with 0 by (Z.div_mod_to_equations; lia).
    replace ((month d - 1) mod 12 + 1) with (month d)
      by (Z.div_mod_to_equations; lia).
    replace (year d + n * -1 + 0) with (year d - n) by lia.
    pose proof (days_in_month_pos (year d - n) (month d)).
    apply civil_of_of_fields; try assumption. lia.
Qed.

End Calendar.

(** ** The date-range resolver *)


Lemma calculateDateRange_by_unit (now : Dayjs.t) (periodType : string) (periodValue : Z) :
  IntentAnalyze.calculateDateRange now periodType periodValue
  = match period_unit periodType with
    | Some u =>
        Some {| Range.fromDate := format_civil (date_minus (civil_of now) periodValue u);
                Range.toDate := format_civil (civil_of now) |}
    | None => None
    end.
Proof.
  unfold IntentAnalyze.calculateDateRange, period_unit.
  repeat match goal with
         | |- context [String.eqb periodType ?k] =>
             destruct (String.eqb periodType k);
             [rewrite !format_is_format_civil, civil_of_subtract; reflexivity|]
         end.
  reflexivity.
Qed.



(** The resolver reads only the calendar date of the clock. *)
Lemma calculateDateRange_same_day (now now' : Dayjs.t) (periodType : string)
    (periodValue : Z) :
  Dayjs.day_number now = Dayjs.day_number now' ->
  IntentAnalyze.calculateDateRange now periodType periodValue
  = IntentAnalyze.calculateDateRange now' periodType periodValue.
Proof.
  intros Hday. rewrite !calculateDateRange_by_unit. unfold civil_of.
  now rewrite Hday.
Qed.

Example calculateDateRange_examples :
  let now := ChatService.dayjs env_ok in
  IntentAnalyze.calculateDateRange now "day" 30
    = Some {| Range.fromDate := "2024-03-01"; Range.toDate := "2024-03-31" |} /\
  IntentAnalyze.calculateDateRange now "week" 2
    = Some {| Range.fromDate := "2024-03-17"; Range.toDate := "2024-03-31" |} /\
  IntentAnalyze.calculateDateRange now "month" 1
    = Some {| Range.fromDate := "2024-02-29"; Range.toDate := "2024-03-31" |} /\
  IntentAnalyze.calculateDateRange now "month" 13
    = Some {| Range.fromDate := "2023-02-28"; Range.toDate := "2024-03-31" |} /\
  IntentAnalyze.calculateDateRange now "year" 1
    = Some {| Range.fromDate := "2023-03-31"; Range.toDate := "2024-03-31" |} /\
  IntentAnalyze.calculateDateRange now "Month" 1 = None.
Proof. repeat split; vm_compute; reflexivity. Qed.

(** ** The query window of the data fetcher *)

Lemma is_str_exclusive (o : option string) (a b : string) :
  a <> b -> is_str o a = true -> is_str o b = false.
Proof.
  intros Hab. destruct o as [s|]; simpl; [|discriminate].
  intros Ha. apply String.eqb_eq in Ha. subst s. now apply String.eqb_neq.
Qed.

Lemma str_or_truthy (o : option string) (dflt : string) :
  str_or o dflt = match truthy_str o with Some s => s | None => dflt end.
Proof.
  unfold str_or, truthy_str. destruct o as [s|]; [|reflexivity].
  destruct (JsStr.truthy s); reflexivity.
Qed.

(** The window when the time range is neither today nor yesterday: each
    bound is the intent's own when it is truthy, the resolver's otherwise;
    [analysisType] makes no difference. *)
Lemma getData_window_other (env : ChatService.Env) (intent : Intent) :
  is_str (timeRange intent) "today" = false ->
  is_str (timeRange intent) "yesterday" = false ->
  ChatService.getData_window env intent
  = match ChatService.from_or_period env intent with
    | ChatService.Thrown e => ChatService.Thrown e
    | ChatService.Done f =>
        match ChatService.to_or_period env intent with
        | ChatService.Thrown e => ChatService.Thrown e
        | ChatService.Done t => ChatService.Done (f, t)
        end
    end.
Proof.
  intros Ht Hy. unfold ChatService.getData_window. rewrite Ht, Hy.
  destruct (is_str (analysisType intent) "custom"); [|reflexivity].
  unfold ChatService.from_or_period, ChatService.to_or_period.
  destruct (truthy_str (fromDate intent)) as [f|]; [|reflexivity].
  destruct (truthy_str (toDate intent)) as [t|]; reflexivity.
Qed.

(** What [getData] asks the database once the window is known. *)
Lemma getData_events (env : ChatService.Env) (intent : Intent) (userId : string)
    (d : ChatService.Db) (w : string * string) :
  ChatService.getData_window env intent = ChatService.Done w ->
  ChatService.events (ChatService.getData env intent userId) d
  = [ChatService.DbCall ChatService.SelectRecords [userId; fst w; snd w]].
Proof.
  intros Hw.
  unfold ChatService.events, ChatService.run, ChatService.getData,
    ChatService.bind, ChatService.lift, ChatService.emit.
  rewrite Hw. simpl.
  destruct (ChatService.db_fails env ChatService.SelectRecords); reflexivity.
Qed.

(** C1 (amended). A time range of today or yesterday makes the window that
    single day of the Korean calendar, whatever the analysis type and the
    dates of the intent. Otherwise each bound that the intent carries is used
    verbatim, whatever the analysis type; a bound it lacks comes from the
    date-range resolver, with the period type defaulting to month and the
    period value to 1. The window found is the one the query uses. *)
Theorem getData_window_resolution :
  forall (env : ChatService.Env) (intent : Intent),
    let today := format_civil (civil_of (ChatService.koreaTime env)) in
    let yesterday :=
      format_civil (date_minus (civil_of (ChatService.koreaTime env)) 1 Dayjs.Day) in
    (is_str (timeRange intent) "today" = true ->
       ChatService.getData_window env intent = ChatService.Done (today, today)) /\
    (is_str (timeRange intent) "yesterday" = true ->
       ChatService.getData_window env intent = ChatService.Done (yesterday, yesterday)) /\
    (is_str (timeRange intent) "today" = false ->
     is_str (timeRange intent) "yesterday" = false ->
     forall f t,
       truthy_str (fromDate intent) = Some f ->
       truthy_str (toDate intent) = Some t ->
       ChatService.getData_window env intent = ChatService.Done (f, t)) /\
    (is_str (timeRange intent) "today" = false ->
     is_str (timeRange intent) "yesterday" = false ->
     forall r,
       IntentAnalyze.calculateDateRange (ChatService.dayjs env)
         (str_or (periodType intent) "month") (num_or (periodValue intent) 1) = Some r ->
       ChatService.getData_window env intent
       = ChatService.Done (str_or (fromDate intent) (Range.fromDate r),
                           str_or (toDate intent) (Range.toDate r))) /\
    (forall userId d w,
       ChatService.getData_window env intent = ChatService.Done w ->
       ChatService.events (ChatService.getData env intent userId) d
       = [ChatService.DbCall ChatService.SelectRecords [userId; fst w; snd w]]).
Proof.
  intros env intent today yesterday.
  split; [|split; [|split; [|split]]].
  - intros Ht. unfold ChatService.getData_window. rewrite Ht.
    unfold today. now rewrite format_is_format_civil.
  - intros Hy. unfold ChatService.getData_window.
    rewrite (is_str_exclusive _ "yesterday" "today"); [|discriminate|exact Hy].
    rewrite Hy. unfold yesterday.
    now rewrite format_is_format_civil, civil_of_subtract.
  - intros Ht Hy f t Hf Hto. rewrite getData_window_other by assumption.
    unfold ChatService.from_or_period, ChatService.to_or_period.
    now rewrite Hf, Hto.
  - intros Ht Hy r Hr. rewrite getData_window_other by assumption.
    unfold ChatService.from_or_period, ChatService.to_or_period.
    rewrite Hr, !str_or_truthy.
    destruct (truthy_str (fromDate intent)), (truthy_str (toDate intent));
      reflexivity.
  - intros userId d w. apply getData_events.
Qed.

Lemma getData_window_resolution_witness :
  ChatService.getData_window env_ok
    (sample_intent "today" "custom" None None (Some "2020-01-01") (Some "2020-12-31"))
  = ChatService.Done ("2024-04-01", "2024-04-01") /\
  ChatService.getData_window env_ok
    (sample_intent "yesterday" "custom" None None (Some "2020-01-01") (Some "2020-12-31"))
  = ChatService.Done ("2024-03-31", "2024-03-31") /\
  ChatService.getData_window env_ok
    (sample_intent "custom" "custom" None None (Some "2024-01-01") (Some "2024-01-31"))
  = ChatService.Done ("2024-01-01", "2024-01-31") /\
  ChatService.getData_window env_ok
    (sample_intent "recent" "period" None None None (Some "2024-03-15"))
  = ChatService.Done ("2024-02-29", "2024-03-15") /\
  ChatService.events
    (ChatService.getData env_ok
       (sample_intent "today" "custom" None None (Some "2020-01-01") (Some "2020-12-31"))
       "u1") db_empty
  = [ChatService.DbCall ChatService.SelectRecords ["u1"; "2024-04-01"; "2024-04-01"]].
Proof.
  pose proof (getData_window_resolution env_ok
    (sample_intent "today" "custom" None None (Some "2020-01-01") (Some "2020-12-31")))
    as (Htoday & _ & _ & _ & Hquery).
  pose proof (getData_window_resolution env_ok
    (sample_intent "yesterday" "custom" None None (Some "2020-01-01") (Some "2020-12-31")))
    as (_ & Hyesterday & _).
  pose proof (getData_window_resolution env_ok
    (sample_intent "custom" "custom" None None (Some "2024-01-01") (Some "2024-01-31")))
    as (_ & _ & Hdates & _).
  pose proof (getData_window_resolution env_ok
    (sample_intent "recent" "period" None None None (Some "2024-03-15")))
    as (_ & _ & _ & Hperiod & _).
  split; [|split; [|split; [|split]]].
  - apply Htoday. reflexivity.
  - apply Hyesterday. reflexivity.
  - apply Hdates; reflexivity.
  - apply (Hperiod eq_refl eq_refl
             {| Range.fromDate := "2024-02-29"; Range.toDate := "2024-03-31" |}).
    vm_compute. reflexivity.
  - apply (Hquery "u1" db_empty ("2024-04-01", "2024-04-01")).
    vm_compute. reflexivity.
Defined.

(** C1, as stated, fails: with a time range of neither today nor yesterday
    and an analysis type other than custom, dates carried by the intent are
    used and the resolver's one-month window is not. *)
Lemma getData_window_keeps_intent_dates :
  let intent :=
    sample_intent "recent" "period" None None (Some "2024-01-01") (Some "2024-01-31") in
  is_str (timeRange intent) "today" = false /\
  is_str (timeRange intent) "yesterday" = false /\
  is_str (analysisType intent) "custom" = false /\
  IntentAnalyze.calculateDateRange (ChatService.dayjs env_ok)
    (str_or (periodType intent) "month") (num_or (periodValue intent) 1)
  = Some {| Range.fromDate := "2024-02-29"; Range.toDate := "2024-03-31" |} /\
  ChatService.getData_window env_ok intent
  = ChatService.Done ("2024-01-01", "2024-01-31") /\
  ChatService.getData_window env_ok intent
  <> ChatService.Done ("2024-02-29", "2024-03-31").
Proof.
  repeat split; try (vm_compute; reflexivity).
  vm_compute. discriminate.
Qed.

(** ** Trimming *)

Section Trim.

Import JsStr.

Lemma is_byte_eq (a : ascii) (n : nat) : is_byte a n = true -> a = byte n.
Proof. unfold is_byte. apply Ascii.eqb_eq. Qed.

Lemma ws2_not_ws1 (a b : ascii) : ws2 a b = true -> ws1 a = false.
Proof.
  unfold ws2. intros H. apply andb_true_iff in H. destruct H as [Ha _].
  apply is_byte_eq in Ha. subst a. reflexivity.
Qed.

Lemma ws3_lead (a b c : ascii) :
  ws3 a b c = true ->
  a = byte 225 \/ a = byte 226 \/ a = byte 227 \/ a = byte 239.
Proof.
  unfold ws3. intros H.
  repeat (apply orb_true_iff in H; destruct H as [H|H]);
    repeat (apply andb_true_iff in H; destruct H as [H ?]);
    apply is_byte_eq in H; auto.
Qed.

Lemma ws3_not_shorter (a b c : ascii) :
  ws3 a b c = true -> ws1 a = false /\ ws2 a b = false.
Proof.
  intros H. destruct (ws3_lead a b c H) as [->|[->|[->| ->]]];
    split; reflexivity.
Qed.

Lemma trimStart_bytes_ws_char (w rest : string) :
  ws_char w ->
  trimStart_bytes (list_ascii_of_string (w ++ rest))
  = trimStart_bytes (list_ascii_of_string rest).
Proof.
  intros Hw. destruct Hw as [a H1|a b H2|a b c H3]; cbn [String.append list_ascii_of_string].
  - cbn [trimStart_bytes]. now rewrite H1.
  - cbn [trimStart_bytes]. now rewrite (ws2_not_ws1 a b H2), H2.
  - destruct (ws3_not_shorter a b c H3) as [H1 H2].
    cbn [trimStart_bytes]. now rewrite H1, H2, H3.
Qed.

Lemma trimStart_bytes_whitespace_only (s : string) :
  whitespace_only s -> trimStart_bytes (list_ascii_of_string s) = [].
Proof.
  induction 1 as [|w s Hw Hs IH].
  - reflexivity.
  - now rewrite trimStart_bytes_ws_char.
Qed.

(** A string of white space only trims to the empty string. *)
Lemma trim_whitespace_only (s : string) : whitespace_only s -> trim s = "".
Proof.
  intros Hs. unfold trim. now rewrite trimStart_bytes_whitespace_only.
Qed.

End Trim.

Example whitespace_only_example :
  JsStr.whitespace_only
    (String (ascii_of_nat 32)
       (String (ascii_of_nat 9)
          (String (ascii_of_nat 227) (String (ascii_of_nat 128)
             (String (ascii_of_nat 128) (String (ascii_of_nat 10) "")))))).
Proof.
  apply (JsStr.ws_more (String (ascii_of_nat 32) "")); [now constructor|].
  apply (JsStr.ws_more (String (ascii_of_nat 9) "")); [now constructor|].
  apply (JsStr.ws_more
           (String (ascii_of_nat 227) (String (ascii_of_nat 128)
              (String (ascii_of_nat 128) ""))));
    [now constructor|].
  apply (JsStr.ws_more (String (ascii_of_nat 10) "")); [now constructor|].
  constructor.
Qed.

(** ** The chat endpoint *)

Section ChatEndpoint.

Import ChatService.

Variable toLowerCase : string -> string.
Variable Date_parse : string -> option Z.

Lemma truthy_nonempty (s : string) : s <> "" -> JsStr.truthy s = true.
Proof. destruct s; [congruence | reflexivity]. Qed.

(** The run of [getData] from a database [d]: it throws where the window
    does, and otherwise issues the one query and returns its rows. *)
Lemma getData_run (env : Env) (intent : Intent) (userId : string) (d : Db) :
  run (getData env intent userId) d
  = match getData_window env intent with
    | Thrown e => (Thrown e, {| db := d; trace := [] |})
    | Done w =>
        (Done (if db_fails env SelectRecords then []
               else select_records d userId (fst w) (snd w)),
         {| db := d;
            trace := [DbCall SelectRecords [userId; fst w; snd w]] |})
    end.
Proof.
  unfold run, getData, bind, lift, emit, get_db, ret.
  destruct (getData_window env intent) as [w|e]; [|reflexivity].
  simpl. destruct (db_fails env SelectRecords); reflexivity.
Qed.

(** The trace of [handleChatRequest] when the message passes the check and
    the insert of the message fails. *)
Lemma insert_failure_run
    (env : Env) (req : ChatRequest) (s : string) (d : Db) :
  body_message req = JsString s ->
  JsStr.trim s <> "" ->
  db_fails env InsertMessage = true ->
  run (handleChatRequest toLowerCase Date_parse env req) d
  = (Done tt,
     {| db := d;
        trace :=
          [ ModelCall (IntentPrompt (Dayjs.format_YYYY_MM_DD (koreaTime env))
                         (JsStr.trim s));
            DbCall InsertMessage
              [uuidv4 env;
               match body_user_id req with Some u => u | None => "test_user" end;
               JsStr.trim s];
            Respond 500 (ErrorBody "메시지 저장 실패" None) ] |}).
Proof.
  intros Hmsg Htrim Hfail.
  unfold run, handleChatRequest, try_catch. rewrite Hmsg.
  rewrite (truthy_nonempty _ Htrim). cbn [negb].
  unfold bind at 1. unfold try_catch, analyzeUserIntent, bind at 1, emit at 1.
  cbn [db trace app].
  set (p := IntentPrompt _ _).
  destruct (completion env p) as [[content|]|];
    [destruct (decode_intent env content)| |];
    unfold ret, bind, emit, respond; cbn; rewrite Hfail; reflexivity.
Qed.

(** C8. When the message is absent, not a string, empty or made of white
    space only, the handler answers 400 with an error body and does
    nothing else: no intent analysis, no insert, no model call. *)
Theorem handleChatRequest_blank_message :
  forall (env : Env) (req : ChatRequest) (d : Db),
    blank_message (body_message req) ->
    let tr := events (handleChatRequest toLowerCase Date_parse env req) d in
    tr = [Respond 400 (ErrorBody "Message is required" None)] /\
    filter is_model_call tr = [] /\
    filter is_db_call tr = [] /\
    final_db (handleChatRequest toLowerCase Date_parse env req) d = d.
Proof.
  intros env req d Hblank tr.
  assert (Htr : run (handleChatRequest toLowerCase Date_parse env req) d
                = (Done tt,
                   {| db := d;
                      trace := [Respond 400 (ErrorBody "Message is required" None)] |})).
  { unfold run, handleChatRequest, try_catch, blank_message in *.
    destruct (body_message req) as [| | | |s|]; try reflexivity.
    rewrite (trim_whitespace_only s Hblank). reflexivity. }
  unfold tr, events, final_db. rewrite Htr. repeat split; reflexivity.
Qed.

(** C7 (amended). When the insert of the inbound message fails, the handler
    answers 500 and stops: the intent classification call has been made by
    then, and no further model call (needs-data check, reply, analysis) and
    no further database call follows; the database is unchanged. *)
Theorem handleChatRequest_insert_failure :
  forall (env : Env) (req : ChatRequest) (s : string) (d : Db),
    body_message req = JsString s ->
    JsStr.trim s <> "" ->
    db_fails env InsertMessage = true ->
    let tr := events (handleChatRequest toLowerCase Date_parse env req) d in
    responses tr = [(500, ErrorBody "메시지 저장 실패" None)] /\
    filter is_model_call tr
    = [ModelCall (IntentPrompt (Dayjs.format_YYYY_MM_DD (koreaTime env))
                    (JsStr.trim s))] /\
    (exists args, filter is_db_call tr = [DbCall InsertMessage args]) /\
    (exists before, tr = (before ++ [Respond 500 (ErrorBody "메시지 저장 실패" None)])%list) /\
    final_db (handleChatRequest toLowerCase Date_parse env req) d = d.
Proof.
  intros env req s d Hmsg Htrim Hfail tr.
  unfold tr, events, final_db.
  rewrite (insert_failure_run env req s d Hmsg Htrim Hfail).
  cbn [snd trace db].
  split; [reflexivity|]. split; [reflexivity|].
  split; [eexists; reflexivity|]. split; [|reflexivity].
  eexists [_; _]. reflexivity.
Qed.

(** C3. On the data path, when the fetched rows are empty the handler
    answers with the fixed no-records reply and a chart descriptor of type
    message with [noData] set, and makes no model call. *)
Theorem handleRequest_no_rows :
  forall (env : Env) (req : ChatRequest) (intent : Intent)
         (userId messageId : string) (d : Db),
    fst (run (getData env intent userId) d) = Done [] ->
    let tr :=
      events (handleRequest toLowerCase Date_parse env req intent userId messageId) d in
    let chart := ChartGenerator.MessageChart ChartGenerator.no_data_message in
    responses tr
    = [(200, ChatBody (Some "해당 기간에 기록이 없습니다. 먼저 기록을 추가해주세요.")
               (str_or (analysisType intent) "period")
               (Some (getDateRangeDisplay env intent))
               (isAnalysisRequest intent)
               (Some chart))] /\
    ChartGenerator.noData chart = true /\
    ChartGenerator.descriptor_type chart = "message" /\
    filter is_model_call tr = [].
Proof.
  intros env req intent userId messageId d Hrows tr chart.
  assert (Hrun := getData_run env intent userId d).
  unfold run in Hrun, Hrows.
  assert (Htr : tr
                = [ DbCall SelectRecords
                      [userId;
                       match getData_window env intent with
                       | Done w => fst w | Thrown _ => "" end;
                       match getData_window env intent with
                       | Done w => snd w | Thrown _ => "" end];
                    Respond 200
                      (ChatBody (Some no_records_reply)
                         (str_or (analysisType intent) "period")
                         (Some (getDateRangeDisplay env intent))
                         (isAnalysisRequest intent)
                         (Some chart)) ]).
  { unfold tr, events, run, handleRequest, try_catch, bind.
    destruct (getData_window env intent) as [w|e].
    - rewrite Hrun in *. cbn [fst] in Hrows.
      injection Hrows as Hrows. rewrite Hrows. reflexivity.
    - rewrite Hrun in Hrows. discriminate Hrows. }
  rewrite Htr. repeat split; reflexivity.
Qed.

End ChatEndpoint.

Lemma handleChatRequest_blank_message_witness :
  ChatService.events
    (ChatService.handleChatRequest lower_ascii iso_date_time env_ok
       (sample_request (ChatService.JsString "   ")))
    db_empty
  = [ChatService.Respond 400 (ChatService.ErrorBody "Message is required" None)] /\
  ChatService.events
    (ChatService.handleChatRequest lower_ascii iso_date_time env_ok
       (sample_request ChatService.JsUndefined))
    db_empty
  = [ChatService.Respond 400 (ChatService.ErrorBody "Message is required" None)].
Proof.
  split.
  - apply (handleChatRequest_blank_message lower_ascii iso_date_time env_ok
             (sample_request (ChatService.JsString "   ")) db_empty).
    simpl.
    apply (JsStr.ws_more " " "  "); [now constructor|].
    apply (JsStr.ws_more " " " "); [now constructor|].
    apply (JsStr.ws_more " " ""); [now constructor|].
    constructor.
  - apply (handleChatRequest_blank_message lower_ascii iso_date_time env_ok
             (sample_request ChatService.JsUndefined) db_empty).
    simpl. exact I.
Defined.

Lemma handleChatRequest_insert_failure_witness :
  ChatService.responses
    (ChatService.events
       (ChatService.handleChatRequest lower_ascii iso_date_time
          (env_failing ChatService.InsertMessage)
          (sample_request (ChatService.JsString " 오늘 기록 분석해줘 ")))
       db_empty)
  = [(500, ChatService.ErrorBody "메시지 저장 실패" None)].
Proof.
  apply (handleChatRequest_insert_failure lower_ascii iso_date_time
           (env_failing ChatService.InsertMessage)
           (sample_request (ChatService.JsString " 오늘 기록 분석해줘 "))
           " 오늘 기록 분석해줘 " db_empty).
  - reflexivity.
  - vm_compute. discriminate.
  - reflexivity.
Defined.

(** C7, as stated, fails: when the insert fails the request is aborted with
    500, but a model call, the intent classification, has already been
    made. *)
Lemma handleChatRequest_insert_failure_after_model_call :
  let tr :=
    ChatService.events
      (ChatService.handleChatRequest lower_ascii iso_date_time
         (env_failing ChatService.InsertMessage)
         (sample_request (ChatService.JsString "오늘 기록 분석해줘")))
      db_empty in
  tr = [ ChatService.ModelCall
           (ChatService.IntentPrompt "2024-04-01" "오늘 기록 분석해줘");
         ChatService.DbCall ChatService.InsertMessage
           ["m-1"; "u1"; "오늘 기록 분석해줘"];
         ChatService.Respond 500 (ChatService.ErrorBody "메시지 저장 실패" None) ] /\
  filter ChatService.is_model_call tr <> [].
Proof.
  split.
  - vm_compute. reflexivity.
  - vm_compute. discriminate.
Qed.

Lemma handleRequest_no_rows_witness :
  filter ChatService.is_model_call
    (ChatService.events
       (ChatService.handleRequest lower_ascii iso_date_time env_ok
          (sample_request (ChatService.JsString "오늘 기록 분석해줘"))
          (sample_intent "today" "specific" None None None None) "u1" "m-1")
       db_empty)
  = [].
Proof.
  apply (handleRequest_no_rows lower_ascii iso_date_time env_ok
           (sample_request (ChatService.JsString "오늘 기록 분석해줘"))
           (sample_intent "today" "specific" None None None None) "u1" "m-1"
           db_empty).
  vm_compute. reflexivity.
Defined.

(** ** The chat history endpoint *)

Section History.

Import ChatService.

Lemma In_firstn {A : Type} (n : nat) (l : list A) (x : A) :
  In x (firstn n l) -> In x l.
Proof.
  intros Hin. rewrite <- (firstn_skipn n l). apply in_or_app. now left.
Qed.

Lemma select_history_length (d : Db) (userId : string) :
  (List.length (select_history d userId) <= 20)%nat.
Proof.
  unfold select_history. rewrite length_map. apply firstn_le_length.
Qed.

Lemma history_rows_sorted (l : list ChatMessage) :
  StronglySorted (fun a b => msg_created_at a <= msg_created_at b) l ->
  StronglySorted (fun a b => h_created_at a <= h_created_at b) (map history_row l).
Proof.
  induction 1 as [|m rest Hs IH Hall]; simpl; constructor.
  - exact IH.
  - rewrite Forall_forall in *. intros r Hr.
    apply in_map_iff in Hr. destruct Hr as [m' [<- Hin]]. simpl. now apply Hall.
Qed.

Lemma select_history_sorted (d : Db) (userId : string) :
  StronglySorted (fun a b => h_created_at a <= h_created_at b)
    (select_history d userId).
Proof.
  unfold select_history. apply history_rows_sorted.
  apply (strongly_sorted_firstn msg_created_at).
  apply (sort_by_key_sorted msg_created_at).
Qed.

Lemma select_history_In (d : Db) (userId : string) (r : HistoryRow) :
  In r (select_history d userId) ->
  exists m, In m (chat_messages d) /\ msg_user_id m = userId /\ r = history_row m.
Proof.
  unfold select_history. intros Hin.
  apply in_map_iff in Hin. destruct Hin as [m [<- Hin]].
  apply In_firstn, sort_by_In, filter_In in Hin. destruct Hin as [Hin Hu].
  apply String.eqb_eq in Hu. exists m. auto.
Qed.

(** C10. For a request that names a user and a query that succeeds, the
    history endpoint answers with at most 20 messages of that user, in
    ascending order of their creation time, and a count equal to the number
    of messages returned; a user without messages gets an empty list and
    count 0. A request without a user is answered 400, a failing query
    500. *)
Theorem getChatHistory_response :
  forall (env : Env) (query_user_id : option string) (d : Db),
    let tr := events (getChatHistory env query_user_id) d in
    match truthy_str query_user_id with
    | None => responses tr = [(400, ErrorBody "user_id가 필요합니다." None)]
    | Some userId =>
        if db_fails env SelectHistory then
          responses tr
          = [(500, ErrorBody "채팅 기록 조회 중 오류가 발생했습니다." None)]
        else
          exists chatHistory,
            responses tr
            = [(200, HistoryBody chatHistory (Z.of_nat (List.length chatHistory)))] /\
            (List.length chatHistory <= 20)%nat /\
            StronglySorted (fun a b => h_created_at a <= h_created_at b) chatHistory /\
            (forall r, In r chatHistory ->
               exists m, In m (chat_messages d) /\ msg_user_id m = userId /\
                         r = history_row m) /\
            ((forall m, In m (chat_messages d) -> msg_user_id m <> userId) ->
             chatHistory = [])
    end.
Proof.
  intros env query_user_id d tr.
  unfold tr, events, run, getChatHistory, try_catch.
  destruct (truthy_str query_user_id) as [userId|]; [|reflexivity].
  unfold bind, emit, respond, get_db. cbn [db trace app].
  destruct (db_fails env SelectHistory); [reflexivity|].
  exists (select_history d userId). cbn [snd trace app responses flat_map].
  split; [reflexivity|].
  split; [apply select_history_length|].
  split; [apply select_history_sorted|].
  split; [apply select_history_In|].
  intros Hnone. destruct (select_history d userId) as [|r rest] eqn:Hh; [reflexivity|].
  exfalso.
  destruct (select_history_In d userId r) as [m [Hin [Hu _]]].
  - rewrite Hh. now left.
  - exact (Hnone m Hin Hu).
Qed.

End History.

(** ** Chart cleanup *)

Section Cleanup.

Import ChatService.

Lemma nodupb_NoDup (l : list string) : nodupb l = true -> NoDup l.
Proof.
  induction l as [|x rest IH]; simpl; intros H.
  - constructor.
  - apply andb_true_iff in H. destruct H as [Hx Hrest].
    constructor; [|now apply IH].
    intros Hin. apply existsb_eqb_In in Hin. rewrite Hin in Hx. discriminate.
Qed.

Lemma filter_perm {A : Type} (f : A -> bool) (l l' : list A) :
  Permutation l l' -> Permutation (filter f l) (filter f l').
Proof.
  induction 1 as [|x l l' _ IH|x y l|l l' l'' _ IH1 _ IH2]; simpl.
  - constructor.
  - destruct (f x); [now constructor | assumption].
  - destruct (f x), (f y); try apply Permutation_refl. apply perm_swap.
  - eapply perm_trans; eassumption.
Qed.

Lemma filter_swap {A : Type} (f g : A -> bool) (l : list A) :
  filter f (filter g l) = filter g (filter f l).
Proof.
  induction l as [|x rest IH]; simpl; [reflexivity|].
  destruct (f x) eqn:Hf, (g x) eqn:Hg; simpl; rewrite ?Hf, ?Hg, IH; reflexivity.
Qed.

Lemma NoDup_map_injective {A B : Type} (f : A -> B) (l : list A) (x y : A) :
  NoDup (map f l) -> In x l -> In y l -> f x = f y -> x = y.
Proof.
  induction l as [|a rest IH]; simpl; intros Hnd Hx Hy Hxy; [contradiction|].
  inversion Hnd as [|? ? Hnotin Hnd']; subst.
  destruct Hx as [->|Hx], Hy as [->|Hy]; auto.
  - exfalso. apply Hnotin. rewrite Hxy. now apply in_map.
  - exfalso. apply Hnotin. rewrite <- Hxy. now apply in_map.
Qed.

Lemma NoDup_app_disjoint {A : Type} (l1 l2 : list A) (a : A) :
  NoDup (l1 ++ l2) -> In a l1 -> In a l2 -> False.
Proof.
  induction l1 as [|x rest IH]; simpl; intros Hnd H1 H2; [contradiction|].
  inversion Hnd as [|? ? Hnotin Hnd']; subst.
  destruct H1 as [->|H1].
  - apply Hnotin, in_or_app. now right.
  - now apply IH.
Qed.

Variable tbl : list SavedChart.
Variable userId : string.
Variable k : nat.
Hypothesis ids_unique : NoDup (map chart_id tbl).

Let mine : list SavedChart :=
  filter (fun c => String.eqb (chart_user_id c) userId) tbl.
Let sorted : list SavedChart := sort_by created_le mine.
Let oldest : list SavedChart := firstn k sorted.
Let newer : list SavedChart := skipn k sorted.
Let keep (c : SavedChart) : bool :=
  negb (existsb (String.eqb (chart_id c)) (map chart_id oldest)).

Lemma sorted_In (c : SavedChart) :
  In c sorted <-> In c tbl /\ chart_user_id c = userId.
Proof.
  unfold sorted, mine. rewrite sort_by_In, filter_In.
  now rewrite String.eqb_eq.
Qed.

Lemma oldest_in_sorted (c : SavedChart) : In c oldest -> In c sorted.
Proof. apply In_firstn. Qed.

Lemma sorted_split : sorted = (oldest ++ newer)%list.
Proof. symmetry. apply firstn_skipn. Qed.

Lemma sorted_NoDup : NoDup sorted.
Proof.
  apply (Permutation_NoDup (Permutation_sym (sort_by_perm created_le mine))).
  apply NoDup_filter. apply NoDup_map_inv with (f := chart_id). exact ids_unique.
Qed.

(** A row of the table is deleted exactly when it is one of the oldest
    [k] rows of the user. *)
Lemma keep_false_iff (c : SavedChart) :
  In c tbl -> (keep c = false <-> In c oldest).
Proof.
  intros Hc. unfold keep. rewrite negb_false_iff, existsb_eqb_In, in_map_iff.
  split.
  - intros [c' [Hid Hin]].
    assert (Hc' : In c' tbl) by (apply sorted_In, oldest_in_sorted, Hin).
    now rewrite <- (NoDup_map_injective chart_id tbl c' c ids_unique Hc' Hc Hid).
  - intros Hin. now exists c.
Qed.

Lemma keep_newer (c : SavedChart) : In c newer -> keep c = true.
Proof.
  intros Hin. destruct (keep c) eqn:Hk; [reflexivity|]. exfalso.
  assert (Hs : In c sorted) by (rewrite sorted_split; apply in_or_app; now right).
  apply keep_false_iff in Hk; [|now apply sorted_In in Hs].
  pose proof sorted_NoDup as Hnd. rewrite sorted_split in Hnd.
  exact (NoDup_app_disjoint oldest newer c Hnd Hk Hin).
Qed.

Lemma filter_keep_sorted : filter keep sorted = newer.
Proof.
  rewrite sorted_split, filter_app.
  assert (Hold : filter keep oldest = []).
  { destruct (filter keep oldest) as [|c rest] eqn:Hf; [reflexivity|].
    assert (Hin : In c (filter keep oldest)) by (rewrite Hf; now left).
    apply filter_In in Hin. destruct Hin as [Hin Hk].
    assert (Hfalse : keep c = false)
      by (apply keep_false_iff; [apply sorted_In, oldest_in_sorted, Hin | exact Hin]).
    congruence. }
  rewrite Hold. simpl. apply forallb_filter_id.
  apply forallb_forall. intros c Hin. now apply keep_newer.
Qed.

(** The rows the user keeps are the rows after the first [k] in creation
    order. *)
Lemma kept_perm_newer : Permutation (filter keep mine) newer.
Proof.
  rewrite <- filter_keep_sorted. apply filter_perm, Permutation_sym, sort_by_perm.
Qed.

Lemma kept_length : List.length (filter keep mine) = (List.length mine - k)%nat.
Proof.
  rewrite (Permutation_length kept_perm_newer). unfold newer.
  rewrite length_skipn. unfold sorted. now rewrite sort_by_length.
Qed.



End Cleanup.

Section CleanupRun.

Import ChatService.

Lemma delete_charts_nil (d : Db) : delete_charts d [] = d.
Proof.
  destruct d as [rs ms cs]. unfold delete_charts. cbn [records chat_messages saved_charts existsb negb].
  now rewrite filter_true.
Qed.

(** The database after a cleanup all of whose queries succeed. *)
Lemma cleanupOldCharts_final_db (env : Env) (userId : string) (d : Db) :
  db_fails env CountCharts = false ->
  db_fails env SelectOldCharts = false ->
  db_fails env DeleteCharts = false ->
  final_db (cleanupOldCharts env userId default_maxCharts) d
  = delete_charts d
      (map chart_id
         (firstn (List.length (user_charts d userId) - 20)
            (sort_by created_le (user_charts d userId)))).
Proof.
  intros Hc Hs Hd.
  unfold final_db, run, cleanupOldCharts, try_catch, bind, emit, get_db, set_db, ret.
  rewrite Hc. cbn [db trace snd fst].
  unfold default_maxCharts.
  destruct (Z.gtb_spec (Z.of_nat (List.length (user_charts d userId))) 20) as [Hgt|Hle].
  - rewrite Hs, Hd. cbn [db trace snd fst].
    replace (Z.to_nat (Z.of_nat (List.length (user_charts d userId)) - 20))
      with (List.length (user_charts d userId) - 20)%nat by lia.
    reflexivity.
  - cbn [db trace snd fst].
    replace (List.length (user_charts d userId) - 20)%nat with 0%nat by lia.
    cbn [firstn map]. now rewrite delete_charts_nil.
Qed.

(** When the count query fails, cleanup leaves the table as it is. *)
Lemma cleanupOldCharts_count_error (env : Env) (userId : string) (d : Db) :
  db_fails env CountCharts = true ->
  final_db (cleanupOldCharts env userId default_maxCharts) d = d.
Proof.
  intros Hc. unfold final_db, run, cleanupOldCharts, try_catch, bind, emit, ret.
  rewrite Hc. destruct d; reflexivity.
Qed.


End CleanupRun.


Example cleanupOldCharts_example :
  map ChatService.chart_id
    (ChatService.saved_charts
       (ChatService.final_db
          (ChatService.cleanupOldCharts env_ok "u1" ChatService.default_maxCharts)
          db_charts))
  = (map (fun i => ("u1-" ++ JsStr.of_Z (Z.of_nat i))%string) (seq 0 20)
       ++ ["u2-0"; "u2-1"])%list.
Proof. vm_compute. reflexivity. Qed.


(** * Further properties *)

(** ** The shape of the generated charts *)

Lemma sum_list_app (l1 l2 : list Z) :
  sum_list (l1 ++ l2) = sum_list l1 + sum_list l2.
Proof. unfold sum_list. induction l1 as [|x rest IH]; simpl; lia. Qed.

Lemma sum_list_map_add {A : Type} (f g : A -> Z) (l : list A) :
  sum_list (map (fun k => f k + g k) l) = sum_list (map f l) + sum_list (map g l).
Proof. unfold sum_list. induction l as [|x rest IH]; simpl; lia. Qed.

Lemma sum_list_indicator (b : string) (keys : list string) :
  NoDup keys ->
  sum_list (map (fun k => if String.eqb b k then 1 else 0) keys)
  = if existsb (String.eqb b) keys then 1 else 0.
Proof.
  unfold sum_list. induction 1 as [|k rest Hnotin Hnd IH]; simpl; [reflexivity|].
  rewrite IH. destruct (String.eqb_spec b k) as [->|Hne]; simpl; [|reflexivity].
  destruct (existsb (String.eqb k) rest) eqn:Hex; [|reflexivity].
  apply existsb_eqb_In in Hex. contradiction.
Qed.



Section ChartShape.

Import ChartGenerator.

Variable toLowerCase : string -> string.
Variable Date_parse : string -> option Z.

Lemma insert_by_ext_in {A : Type} (le le' : A -> A -> bool) (x : A) (l : list A) :
  (forall y, In y l -> le x y = le' x y) ->
  insert_by le x l = insert_by le' x l.
Proof.
  induction l as [|y rest IH]; simpl; intros Hext; [reflexivity|].
  rewrite (Hext y) by now left.
  destruct (le' x y); [reflexivity|].
  f_equal. apply IH. intros z Hz. apply Hext. now right.
Qed.

Lemma sort_by_ext_in {A : Type} (le le' : A -> A -> bool) (l : list A) :
  (forall x y, In x l -> In y l -> le x y = le' x y) ->
  sort_by le l = sort_by le' l.
Proof.
  induction l as [|x rest IH]; simpl; intros Hext; [reflexivity|].
  rewrite IH by (intros a b Ha Hb; apply Hext; now right).
  apply insert_by_ext_in. intros y Hy. apply sort_by_In in Hy.
  apply Hext; [now left | now right].
Qed.

Lemma valid_item_time (r : MoodRecord) :
  valid_item Date_parse r = true ->
  date_time Date_parse (date r) = Some (row_time Date_parse r).
Proof.
  intros Hv. apply valid_item_iff in Hv.
  destruct Hv as (d & f & t & Hd & _ & _ & _ & Hp).
  unfold row_time. rewrite Hd. simpl. now rewrite Hp.
Qed.

(** On rows that passed the filter the sort of the line chart is a sort by
    parsed time. *)
Lemma sort_valid_by_time (l : list MoodRecord) :
  Forall (fun r => valid_item Date_parse r = true) l ->
  sort_by (date_le Date_parse) l
  = sort_by (fun a b => row_time Date_parse a <=? row_time Date_parse b) l.
Proof.
  intros Hall. rewrite Forall_forall in Hall.
  apply sort_by_ext_in. intros a b Ha Hb. unfold date_le.
  now rewrite (valid_item_time a (Hall a Ha)), (valid_item_time b (Hall b Hb)).
Qed.

Lemma filter_valid_Forall (rows : list MoodRecord) :
  Forall (fun r => valid_item Date_parse r = true) (filter (valid_item Date_parse) rows).
Proof. apply Forall_forall. intros r Hr. now apply filter_In in Hr. Qed.

(** The chart of a row list, by whether a row passes the filter. *)
Lemma generateEmotionChart_cases (rows : list MoodRecord) (question : string) :
  generateEmotionChart toLowerCase Date_parse rows question
  = match filter (valid_item Date_parse) rows with
    | [] => match rows with
            | [] => MessageChart no_data_message
            | _ => MessageChart no_valid_data_message
            end
    | valid =>
        let t := selectChartTypeByRule toLowerCase question in
        if String.eqb t "bar" then generateBarChart valid
        else if String.eqb t "pie" then generatePieChart valid
        else if String.eqb t "radar" then generateRadarChart valid
        else generateLineChart Date_parse valid
    end.
Proof.
  unfold generateEmotionChart. destruct rows as [|r rest]; [reflexivity|].
  destruct (filter (valid_item Date_parse) (r :: rest)) as [|v vs]; [reflexivity|].
  unfold generateChartData. cbv zeta.
  destruct (selectChartTypeByRule_range toLowerCase question)
    as [<-|[<-|[<-|[<-|[]]]]]; reflexivity.
Qed.

Lemma Object_keys_length_le (rows : list MoodRecord) :
  (List.length (Object_keys (emotionCounts rows)) <= List.length rows)%nat.
Proof.
  rewrite <- (length_map bucket rows).
  apply NoDup_incl_length; [apply emotionCounts_keys_NoDup|].
  intros k Hk. apply emotionCounts_keys_In in Hk.
  destruct Hk as [r [Hr <-]]. now apply in_map.
Qed.

Lemma Object_values_length (acc : JsObject) :
  List.length (Object_values acc) = List.length (Object_keys acc).
Proof. unfold Object_values, Object_keys. now rewrite !length_map. Qed.

(** A chart is a no-data descriptor exactly when no row passes the filter;
    otherwise its type is the type selected for the question, it has one
    series, as long as its labels, and no longer than the rows that passed. *)
Theorem generateEmotionChart_shape :
  forall (rows : list MoodRecord) (question : string),
    let c := generateEmotionChart toLowerCase Date_parse rows question in
    let valid := filter (valid_item Date_parse) rows in
    (noData c = true <-> valid = []) /\
    descriptor_type c
    = match valid with
      | [] => "message"
      | _ => selectChartTypeByRule toLowerCase question
      end /\
    match valid with
    | [] => chart_labels c = [] /\ chart_series c = []
    | _ => exists data,
             chart_series c = [data] /\
             List.length data = List.length (chart_labels c) /\
             (List.length data <= List.length valid)%nat
    end.
Proof.
  intros rows question c valid. unfold c. rewrite generateEmotionChart_cases.
  fold valid. destruct valid as [|v vs] eqn:Hvalid.
  - destruct rows; repeat split; try reflexivity; discriminate.
  - cbv zeta.
    destruct (selectChartTypeByRule_range toLowerCase question)
      as [<-|[<-|[<-|[<-|[]]]]]; cbn [String.eqb Ascii.eqb Bool.eqb];
      (split; [split; discriminate|]); (split; [reflexivity|]).
    + eexists. split; [reflexivity|].
      cbn [chart_labels generateLineChart labels ds_data].
      rewrite !length_map, sort_by_length. split; reflexivity.
    + eexists. split; [reflexivity|].
      cbn [chart_labels generateBarChart labels ds_data].
      rewrite length_map, Object_values_length. split; [reflexivity|].
      apply Object_keys_length_le.
    + eexists. split; [reflexivity|].
      cbn [chart_labels generatePieChart labels ds_data].
      rewrite length_map, Object_values_length. split; [reflexivity|].
      apply Object_keys_length_le.
    + eexists. split; [reflexivity|].
      cbn [chart_labels generateRadarChart labels ds_data].
      rewrite length_map, Object_values_length. split; [reflexivity|].
      apply Object_keys_length_le.
Qed.

(** When the question selects the line chart and some row passes the filter,
    the chart plots exactly the rows that passed, in ascending order of their
    parsed dates, each label with the fatigue of its own row, none of them
    zero. *)
Theorem generateEmotionChart_line_chart :
  forall (rows : list MoodRecord) (question : string),
    selectChartTypeByRule toLowerCase question = "line" ->
    filter (valid_item Date_parse) rows <> [] ->
    exists sorted : list MoodRecord,
      Permutation sorted (filter (valid_item Date_parse) rows) /\
      StronglySorted (fun a b => row_time Date_parse a <= row_time Date_parse b) sorted /\
      chart_labels (generateEmotionChart toLowerCase Date_parse rows question)
      = map date sorted /\
      chart_series (generateEmotionChart toLowerCase Date_parse rows question)
      = [map (fun r => num_or (fatigue r) 0) sorted] /\
      Forall (fun r => exists d f, date r = Some d /\ fatigue r = Some f /\ f <> 0
                                   /\ num_or (fatigue r) 0 = f) sorted.
Proof.
  intros rows question Hline Hvalid.
  exists (sort_by (date_le Date_parse) (filter (valid_item Date_parse) rows)).
  split; [apply sort_by_perm|]. split.
  { rewrite sort_valid_by_time by apply filter_valid_Forall.
    apply (sort_by_key_sorted (row_time Date_parse)). }
  rewrite generateEmotionChart_cases.
  destruct (filter (valid_item Date_parse) rows) as [|v vs] eqn:Hf; [congruence|].
  cbv zeta. rewrite Hline. cbn [String.eqb Ascii.eqb Bool.eqb].
  split; [reflexivity|]. split; [reflexivity|].
  apply Forall_forall. intros r Hr. apply sort_by_In in Hr.
  assert (Hv : valid_item Date_parse r = true).
  { pose proof (filter_valid_Forall rows) as Hall. rewrite Hf in Hall.
    rewrite Forall_forall in Hall. now apply Hall. }
  apply valid_item_iff in Hv. destruct Hv as (d & f & t & Hd & _ & Hfa & Hf0 & _).
  exists d, f. repeat split; try assumption.
  rewrite Hfa. unfold num_or. destruct (Z.eqb_spec f 0); congruence.
Qed.

End ChartShape.

Lemma generateEmotionChart_line_chart_witness :
  exists sorted : list MoodRecord,
    Permutation sorted
      (filter (ChartGenerator.valid_item iso_date_time) (ChatService.records db_records)) /\
    chart_labels
      (ChartGenerator.generateEmotionChart lower_ascii iso_date_time
         (ChatService.records db_records) "피로 추이 보여줘")
    = map date sorted.
Proof.
  destruct (generateEmotionChart_line_chart lower_ascii iso_date_time
              (ChatService.records db_records) "피로 추이 보여줘")
    as (sorted & Hperm & _ & Hlabels & _).
  - vm_compute. reflexivity.
  - vm_compute. discriminate.
  - exists sorted. split; assumption.
Defined.

Example line_chart_example :
  let c := ChartGenerator.generateEmotionChart lower_ascii iso_date_time
             (ChatService.records db_records) "피로 추이 보여줘" in
  chart_labels c = [Some "2024-03-30"; Some "2024-03-31"] /\
  chart_series c = [[3; 4]].
Proof. split; vm_compute; reflexivity. Qed.

(** ** Which messages the history returns *)

Section HistoryOrder.

Import ChatService.

(** The history holds the oldest messages of the user: with more than 20
    messages, the ones left out are all at least as new as every one
    returned. *)
Theorem getChatHistory_returns_oldest :
  forall (env : Env) (query_user_id : option string) (userId : string) (d : Db),
    truthy_str query_user_id = Some userId ->
    db_fails env SelectHistory = false ->
    exists returned omitted : list ChatMessage,
      responses (events (getChatHistory env query_user_id) d)
      = [(200, HistoryBody (map history_row returned)
                 (Z.of_nat (List.length returned)))] /\
      Permutation (returned ++ omitted)
        (filter (fun m => String.eqb (msg_user_id m) userId) (chat_messages d)) /\
      List.length returned
      = Nat.min 20
          (List.length
             (filter (fun m => String.eqb (msg_user_id m) userId) (chat_messages d))) /\
      (forall a b, In a returned -> In b omitted ->
                   msg_created_at a <= msg_created_at b).
Proof.
  intros env query_user_id userId d Huser Hok.
  set (mine := filter (fun m => String.eqb (msg_user_id m) userId) (chat_messages d)).
  exists (firstn 20 (sort_by message_created_le mine)),
         (skipn 20 (sort_by message_created_le mine)).
  split.
  { unfold events, run, getChatHistory, try_catch. rewrite Huser.
    unfold bind, emit, respond, get_db. cbn [db trace app].
    rewrite Hok. cbn [snd trace app responses flat_map db].
    unfold select_history. fold mine. now rewrite length_map. }
  split; [rewrite firstn_skipn; apply sort_by_perm|].
  split; [now rewrite length_firstn, sort_by_length|].
  intros a b Ha Hb.
  apply (strongly_sorted_app msg_created_at
           (firstn 20 (sort_by message_created_le mine))
           (skipn 20 (sort_by message_created_le mine))); try assumption.
  rewrite firstn_skipn. apply (sort_by_key_sorted msg_created_at).
Qed.

End HistoryOrder.

Lemma getChatHistory_returns_oldest_witness :
  exists returned omitted : list ChatService.ChatMessage,
    ChatService.responses
      (ChatService.events (ChatService.getChatHistory env_ok (Some "u1")) db_messages)
    = [(200, ChatService.HistoryBody (map ChatService.history_row returned)
               (Z.of_nat (List.length returned)))] /\
    List.length returned = 20%nat /\
    (forall a b, In a returned -> In b omitted ->
                 ChatService.msg_created_at a <= ChatService.msg_created_at b).
Proof.
  destruct (getChatHistory_returns_oldest env_ok (Some "u1") "u1" db_messages
              eq_refl eq_refl)
    as (returned & omitted & Hresp & _ & Hlen & Hold).
  exists returned, omitted. split; [exact Hresp|]. split; [exact Hlen | exact Hold].
Defined.

Example getChatHistory_example :
  match ChatService.responses
          (ChatService.events (ChatService.getChatHistory env_ok (Some "u1")) db_messages)
  with
  | [(200, ChatService.HistoryBody h 20)] =>
      map ChatService.h_created_at h = map (fun i => 479 + Z.of_nat i) (seq 0 20)
  | _ => False
  end.
Proof. vm_compute. reflexivity. Qed.

(** ** The saved-chart functions *)

Section StoreFacts.

Import ChatService.
Import ChartStore.

Lemma created_ge_as_key (a b : SavedChart) :
  created_ge a b = (- created_at a <=? - created_at b).
Proof.
  unfold created_ge.
  destruct (Z.leb_spec (created_at b) (created_at a)),
           (Z.leb_spec (- created_at a) (- created_at b)); try reflexivity; lia.
Qed.

Lemma sort_created_ge_sorted (l : list SavedChart) :
  StronglySorted (fun a b => created_at b <= created_at a) (sort_by created_ge l).
Proof.
  rewrite (sort_by_ext_in created_ge
             (fun a b => - created_at a <=? - created_at b))
    by (intros; apply created_ge_as_key).
  pose proof (sort_by_key_sorted (fun c => - created_at c) l) as Hs.
  cbv beta in Hs.
  induction Hs as [|c rest Hs IH Hall]; constructor; [exact IH|].
  eapply Forall_impl; [|exact Hall]. intros x Hx. cbv beta in Hx. lia.
Qed.

Lemma strongly_sorted_app_desc (l1 l2 : list SavedChart) :
  StronglySorted (fun a b => created_at b <= created_at a) (l1 ++ l2) ->
  forall a b, In a l1 -> In b l2 -> created_at b <= created_at a.
Proof.
  induction l1 as [|x rest IH]; simpl; intros Hs a b Ha Hb; [contradiction|].
  inversion Hs as [|? ? Hs' Hall]; subst.
  destruct Ha as [->|Ha].
  - rewrite Forall_forall in Hall. apply Hall, in_or_app. now right.
  - now apply IH.
Qed.

Lemma strongly_sorted_firstn_desc (n : nat) (l : list SavedChart) :
  StronglySorted (fun a b => created_at b <= created_at a) l ->
  StronglySorted (fun a b => created_at b <= created_at a) (firstn n l).
Proof.
  intros Hs. revert n.
  induction Hs as [|x rest Hs IH Hall]; intros [|n]; simpl; try constructor.
  - apply IH.
  - rewrite Forall_forall in *. intros z Hz. apply Hall. eapply In_firstn, Hz.
Qed.

(** The chart list holds at most [limit] charts, all of the user, newest
    first, and no chart left out is newer than one listed. *)
Theorem getSavedCharts_newest_first :
  forall (fails : StoreOp -> bool) (d : Db) (userId : string) (limit : nat),
    fails SelectCharts = false ->
    exists listed omitted : list SavedChart,
      getSavedCharts fails d userId limit = Done listed /\
      Permutation (listed ++ omitted) (user_charts d userId) /\
      List.length listed = Nat.min limit (List.length (user_charts d userId)) /\
      StronglySorted (fun a b => created_at b <= created_at a) listed /\
      (forall c, In c listed -> In c (saved_charts d) /\ chart_user_id c = userId) /\
      (forall a b, In a listed -> In b omitted -> created_at b <= created_at a).
Proof.
  intros fails d userId limit Hok.
  set (sorted := sort_by created_ge (user_charts d userId)).
  exists (firstn limit sorted), (skipn limit sorted).
  split; [unfold getSavedCharts; now rewrite Hok|].
  split; [rewrite firstn_skipn; apply sort_by_perm|].
  split; [unfold sorted; now rewrite length_firstn, sort_by_length|].
  split; [apply strongly_sorted_firstn_desc, sort_created_ge_sorted|].
  split.
  - intros c Hc. apply In_firstn, sort_by_In in Hc. unfold user_charts in Hc.
    apply filter_In in Hc. destruct Hc as [Hin Hu]. now apply String.eqb_eq in Hu.
  - apply strongly_sorted_app_desc. rewrite firstn_skipn.
    apply sort_created_ge_sorted.
Qed.

Lemma deleteChart_run (fails : StoreOp -> bool) (d : Db) (chartId userId : string) :
  deleteChart fails d chartId userId
  = match fails DeleteChart, filter (owned_by chartId userId) (saved_charts d) with
    | false, [c] =>
        (Done tt,
         {| records := records d; chat_messages := chat_messages d;
            saved_charts :=
              filter (fun x => negb (owned_by chartId userId x)) (saved_charts d) |})
    | _, _ => (Thrown DbError, d)
    end.
Proof.
  unfold deleteChart. destruct (fails DeleteChart); [reflexivity|].
  destruct (filter (owned_by chartId userId) (saved_charts d)) as [|c [|c' rest]];
    reflexivity.
Qed.

(** Deleting a chart touches nothing but the charts with that id that
    belong to that user: the records, the messages and every chart of another
    user or with another id remain; the call succeeds exactly when one chart
    matches, and then that chart is gone; otherwise it throws and the
    database is as before. *)
Theorem deleteChart_only_own :
  forall (fails : StoreOp -> bool) (d : Db) (chartId userId : string),
    let result := deleteChart fails d chartId userId in
    let d' := snd result in
    let matching := filter (owned_by chartId userId) (saved_charts d) in
    records d' = records d /\
    chat_messages d' = chat_messages d /\
    (forall c, In c (saved_charts d) ->
               chart_id c <> chartId \/ chart_user_id c <> userId ->
               In c (saved_charts d')) /\
    (forall c, In c (saved_charts d') -> In c (saved_charts d)) /\
    (fst result = Done tt <->
     fails DeleteChart = false /\ List.length matching = 1%nat) /\
    (fst result = Done tt ->
     forall c, In c (saved_charts d') -> owned_by chartId userId c = false) /\
    (fst result <> Done tt -> d' = d).
Proof.
  intros fails d chartId userId result d' matching.
  unfold d', result. rewrite deleteChart_run. fold matching.
  assert (Hkeep : forall c, In c (saved_charts d) ->
                    chart_id c <> chartId \/ chart_user_id c <> userId ->
                    owned_by chartId userId c = false).
  { intros c _ Hne. unfold owned_by. apply andb_false_iff.
    destruct Hne as [Hne|Hne]; [left | right]; now apply String.eqb_neq. }
  destruct (fails DeleteChart); [|destruct matching as [|c [|c' rest]] eqn:Hm];
    cbn [fst snd records chat_messages saved_charts].
  all: repeat split; try reflexivity; try discriminate; try tauto;
    try (intros; assumption).
  all: try (intros [H1 H2]; discriminate).
  all: try (intros H; exfalso; now apply H).
  - intros c0 Hin Hne. apply filter_In. split; [assumption|].
    now rewrite (Hkeep c0 Hin Hne).
  - intros c0 Hin. now apply filter_In in Hin.
  - intros _ c0 Hin. apply filter_In in Hin. destruct Hin as [_ Hn].
    now apply negb_true_iff in Hn.
Qed.

(** The delete endpoint answers 400 without a user or chart id, 200 when
    exactly one chart of that user has that id, and 500 otherwise; except on
    200 the database is unchanged. *)
Theorem deleteChartAPI_status :
  forall (fails : StoreOp -> bool) (d : Db) (chartId user_id : option string),
    let result := deleteChartAPI fails d chartId user_id in
    let status := fst (fst result) in
    match truthy_str user_id, truthy_str chartId with
    | Some u, Some c =>
        (status = 200 <->
         fails DeleteChart = false /\
         List.length (filter (owned_by c u) (saved_charts d)) = 1%nat) /\
        (status <> 200 -> status = 500 /\ snd result = d)
    | _, _ => status = 400 /\ snd result = d
    end.
Proof.
  intros fails d chartId user_id result status. unfold status, result, deleteChartAPI.
  destruct (truthy_str user_id) as [u|]; [|split; reflexivity].
  destruct (truthy_str chartId) as [c|]; [|split; reflexivity].
  rewrite deleteChart_run.
  destruct (fails DeleteChart);
    [|destruct (filter (owned_by c u) (saved_charts d)) as [|x [|x' rest]]];
    cbn [fst snd List.length]; split;
    try (split; [discriminate | intros [H1 H2]; discriminate]);
    try (intros _; split; reflexivity);
    try (split; [intros _; split; reflexivity | reflexivity]).
  intros H. exfalso. now apply H.
Qed.

(** A chart is returned by id exactly when one chart with that id belongs to
    the asking user, and then it is that chart. *)
Theorem getChartById_owner_only :
  forall (fails : StoreOp -> bool) (d : Db) (chartId userId : string) (c : SavedChart),
    getChartById fails d chartId userId = Done c ->
    In c (saved_charts d) /\ chart_id c = chartId /\ chart_user_id c = userId /\
    fails SelectChart = false.
Proof.
  intros fails d chartId userId c. unfold getChartById.
  destruct (fails SelectChart); [discriminate|].
  destruct (filter (owned_by chartId userId) (saved_charts d)) as [|x [|x' rest]] eqn:Hf;
    try discriminate.
  intros H. injection H as <-.
  assert (Hin : In x (filter (owned_by chartId userId) (saved_charts d)))
    by (rewrite Hf; now left).
  apply filter_In in Hin. destruct Hin as [Hin Ho].
  unfold owned_by in Ho. apply andb_true_iff in Ho. destruct Ho as [Hi Hu].
  apply String.eqb_eq in Hi, Hu. auto.
Qed.

End StoreFacts.

Lemma getChartById_owner_only_witness :
  ChatService.chart_user_id (sample_chart "u2" 1) = "u2".
Proof.
  apply (getChartById_owner_only (fun _ => false) db_charts "u2-1" "u2"
           (sample_chart "u2" 1)).
  vm_compute. reflexivity.
Defined.

Example getChartById_other_user :
  ChartStore.getChartById (fun _ => false) db_charts "u2-1" "u1"
  = ChatService.Thrown ChatService.DbError /\
  fst (ChartStore.deleteChartAPI (fun _ => false) db_charts (Some "u2-1") (Some "u1"))
  = (500, ChartStore.ApiError "차트 삭제 중 오류가 발생했습니다." (Some "DbError")) /\
  fst (fst (ChartStore.deleteChartAPI (fun _ => false) db_charts (Some "u2-1") (Some "u2")))
  = 200.
Proof. repeat split; vm_compute; reflexivity. Qed.

(** ** Tallies kept in a plain object *)

Section Tally.

Import ChartGenerator.

Context {A : Type}.
Variable key : A -> string.

Let step (acc : JsObject) (x : A) : JsObject :=
  prop_set acc (key x) (num_or (prop_get acc (key x)) 0 + 1).

Let held (acc : JsObject) (k : string) : Z := num_or (prop_get acc k) 0.

Lemma count_with_cons (k : string) (x : A) (l : list A) :
  count_with key k (x :: l)
  = (if String.eqb (key x) k then 1 else 0) + count_with key k l.
Proof.
  unfold count_with. cbn [filter].
  destruct (String.eqb (key x) k); cbn [List.length]; rewrite ?Nat2Z.inj_succ; lia.
Qed.

Lemma tally_held (l : list A) (acc : JsObject) (k : string) :
  held (fold_left step l acc) k = held acc k + count_with key k l.
Proof.
  revert acc. induction l as [|x rest IH]; intros acc; simpl.
  - unfold count_with. simpl. lia.
  - rewrite IH, count_with_cons. unfold held, step. rewrite prop_get_set.
    destruct (String.eqb_spec (key x) k) as [->|Hne]; [rewrite num_or_Some_0|]; lia.
Qed.

Lemma tally_NoDup (l : list A) (acc : JsObject) :
  NoDup (map fst acc) -> NoDup (map fst (fold_left step l acc)).
Proof.
  revert acc. induction l as [|x rest IH]; intros acc Hnd; simpl; [assumption|].
  apply IH, prop_set_NoDup, Hnd.
Qed.

Lemma tally_keys_In (l : list A) (acc : JsObject) (k : string) :
  In k (map fst (fold_left step l acc))
  <-> In k (map fst acc) \/ exists x, In x l /\ key x = k.
Proof.
  revert acc. induction l as [|x rest IH]; intros acc; simpl.
  - split; [auto | intros [H|[x [[] _]]]; exact H].
  - rewrite IH. unfold step at 1. rewrite prop_set_keys.
    destruct (existsb (String.eqb (key x)) (map fst acc)) eqn:Hex.
    + apply existsb_eqb_In in Hex. split.
      * intros [H|[x' [Hin Hb]]]; [now left | right; exists x'; auto].
      * intros [H|[x' [[->|Hin] Hb]]];
          [now left | left; now subst | right; exists x'; auto].
    + rewrite in_app_iff. simpl. split.
      * intros [[H|[H|[]]]|[x' [Hin Hb]]];
          [now left | right; exists x; auto | right; exists x'; auto].
      * intros [H|[x' [[->|Hin] Hb]]];
          [now left; left | left; right; now left | right; exists x'; auto].
Qed.

Lemma sum_list_count_with (l : list A) (keys : list string) :
  NoDup keys ->
  (forall x, In x l -> In (key x) keys) ->
  sum_list (map (fun k => count_with key k l) keys) = Z.of_nat (List.length l).
Proof.
  intros Hnd. induction l as [|x rest IH]; intros Hcover.
  - clear Hnd Hcover. unfold count_with, sum_list.
    induction keys as [|k ks IHk]; simpl in *; [reflexivity | exact IHk].
  - rewrite (map_ext _ (fun k => (if String.eqb (key x) k then 1 else 0)
                                 + count_with key k rest))
      by (intros k; apply count_with_cons).
    rewrite sum_list_map_add, sum_list_indicator by assumption.
    rewrite IH by (intros x' Hx'; apply Hcover; now right).
    assert (Hin : existsb (String.eqb (key x)) keys = true)
      by (apply existsb_eqb_In, Hcover; now left).
    rewrite Hin. cbn [List.length]. lia.
Qed.

(** The values of a tally add up to the number of elements tallied. *)
Lemma tally_sum (l : list A) :
  sum_list (map snd (fold_left step l [])) = Z.of_nat (List.length l).
Proof.
  assert (Hnd : NoDup (map fst (fold_left step l []))) by (apply tally_NoDup; constructor).
  rewrite <- (sum_list_count_with l (map fst (fold_left step l [])) Hnd).
  - f_equal. rewrite map_map. apply map_ext_in. intros [k v] Hin. simpl.
    pose proof (tally_held l [] k) as Hh. unfold held in Hh.
    rewrite (prop_get_In _ k v Hnd Hin), num_or_Some_0 in Hh. simpl in Hh. lia.
  - intros x Hx. apply tally_keys_In. right. now exists x.
Qed.

Lemma tally_get_None (l : list A) (k : string) :
  prop_get (fold_left step l []) k = None <-> forall x, In x l -> key x <> k.
Proof.
  assert (Hnd : NoDup (map fst (fold_left step l []))) by (apply tally_NoDup; constructor).
  split.
  - intros Hnone x Hx Hk.
    assert (Hin : In k (map fst (fold_left step l [])))
      by (apply tally_keys_In; right; now exists x).
    apply in_map_iff in Hin. destruct Hin as [[k' v] [Hk' Hin]]. simpl in Hk'. subst k'.
    rewrite (prop_get_In _ k v Hnd Hin) in Hnone. discriminate.
  - intros Hno. destruct (prop_get (fold_left step l []) k) as [v|] eqn:Hg; [|reflexivity].
    exfalso.
    assert (Hin : In k (map fst (fold_left step l []))).
    { clear - Hg. induction (fold_left step l []) as [|[k' v'] rest IH]; simpl in *;
        [discriminate|].
      destruct (String.eqb_spec k' k); [now left | right; now apply IH]. }
    apply tally_keys_In in Hin. destruct Hin as [[]|[x [Hx Hk]]].
    exact (Hno x Hx Hk).
Qed.

End Tally.

Section Stats.

Import ChartGenerator.
Import ChatService.
Import ChartStore.

(** The statistics of a user's charts: the total is the number of charts and
    the sum of the per-type counts; each count is the number of charts of
    that type, absent for a type the user has no chart of; the latest chart
    is absent exactly when the user has no chart, and otherwise is a chart of
    the user than which none is newer. *)
Theorem getChartStats_totals :
  forall (fails : StoreOp -> bool) (d : Db) (userId : string),
    fails SelectStats = false ->
    exists stats : ChartStats,
      getChartStats fails d userId = Done stats /\
      totalCharts stats = Z.of_nat (List.length (user_charts d userId)) /\
      sum_list (map snd (typeStats stats)) = totalCharts stats /\
      (forall t, num_or (prop_get (typeStats stats) t) 0
                 = count_with chart_type t (user_charts d userId)) /\
      (forall t, prop_get (typeStats stats) t = None
                 <-> forall c, In c (user_charts d userId) -> chart_type c <> t) /\
      (latestChart stats = None <-> user_charts d userId = []) /\
      (forall t at_, latestChart stats = Some (t, at_) ->
         (exists c, In c (user_charts d userId) /\ chart_type c = t /\ created_at c = at_) /\
         (forall c, In c (user_charts d userId) -> created_at c <= at_)).
Proof.
  intros fails d userId Hok. unfold getChartStats. rewrite Hok.
  eexists. split; [reflexivity|]. cbn [totalCharts typeStats latestChart].
  split; [reflexivity|].
  split; [apply (tally_sum chart_type)|].
  split.
  { intros t. pose proof (tally_held chart_type (user_charts d userId) [] t) as H.
    cbv beta zeta in H. simpl in H. exact H. }
  split; [intros t; apply (tally_get_None chart_type)|].
  pose proof (sort_created_ge_sorted (user_charts d userId)) as Hs.
  pose proof (sort_by_perm created_ge (user_charts d userId)) as Hp.
  destruct (sort_by created_ge (user_charts d userId)) as [|c rest] eqn:Hsort.
  - apply Permutation_nil in Hp. split; [split; [intros _; exact Hp | reflexivity]|].
    intros t at_ H. discriminate.
  - split.
    + split; [discriminate|]. intros Hnil. rewrite Hnil in Hp.
      apply Permutation_sym, Permutation_nil in Hp. discriminate.
    + intros t at_ H. injection H as <- <-. split.
      * exists c. split; [|split; reflexivity].
        apply (Permutation_in _ Hp). now left.
      * intros c' Hc'. apply (Permutation_in _ (Permutation_sym Hp)) in Hc'.
        inversion Hs as [|? ? _ Hall]; subst.
        destruct Hc' as [<-|Hc']; [lia|].
        rewrite Forall_forall in Hall. now apply Hall.
Qed.

End Stats.

Lemma getChartStats_totals_witness :
  exists stats : ChartStore.ChartStats,
    ChartStore.getChartStats (fun _ => false) db_charts "u1" = ChatService.Done stats /\
    ChartStore.totalCharts stats = 23.
Proof.
  destruct (getChartStats_totals (fun _ => false) db_charts "u1" eq_refl)
    as (stats & Hrun & Htotal & _).
  exists stats. split; [exact Hrun|]. rewrite Htotal. vm_compute. reflexivity.
Defined.

Lemma getSavedCharts_newest_first_witness :
  exists listed : list ChatService.SavedChart,
    ChartStore.getSavedCharts (fun _ => false) db_charts "u1" 20 = ChatService.Done listed /\
    List.length listed = 20%nat.
Proof.
  destruct (getSavedCharts_newest_first (fun _ => false) db_charts "u1" 20 eq_refl)
    as (listed & omitted & Hrun & _ & Hlen & _).
  exists listed. split; [exact Hrun|]. rewrite Hlen. vm_compute. reflexivity.
Defined.

(** ** What the handlers do to the trace and to the database *)

Section Effects.

Import ChatService.

Lemma responses_app (a b : list Event) :
  responses (a ++ b) = (responses a ++ responses b)%list.
Proof. unfold responses. apply flat_map_app. Qed.

Lemma db_steps_trans (d1 d2 d3 : Db) : db_steps d1 d2 -> db_steps d2 d3 -> db_steps d1 d3.
Proof.
  induction 1 as [|a b c Hab Hbc IH]; intros H; [exact H|].
  eapply db_steps_more; [exact Hab | now apply IH].
Qed.

Lemma db_steps_one (d1 d2 : Db) : db_step d1 d2 -> db_steps d1 d2.
Proof. intros H. eapply db_steps_more; [exact H | constructor]. Qed.

Lemma effect_of_bind {A B : Type} (m : M A) (k : A -> M B) (s : St)
    (a : A) (evs1 evs2 : list Event) :
  effect_of m s evs1 ->
  fst (m s) = Done a ->
  effect_of (k a) (snd (m s)) evs2 ->
  effect_of (bind m k) s (evs1 ++ evs2) /\
  fst (bind m k s) = fst (k a (snd (m s))).
Proof.
  unfold effect_of, bind. destruct (m s) as [o s1]. cbn [fst snd].
  intros [Ht Hd] -> [Ht2 Hd2]. split; [|reflexivity]. split.
  - now rewrite Ht2, Ht, app_assoc.
  - eapply db_steps_trans; eassumption.
Qed.

Lemma effect_of_bind_thrown {A B : Type} (m : M A) (k : A -> M B) (s : St)
    (e : Exn) (evs : list Event) :
  effect_of m s evs ->
  fst (m s) = Thrown e ->
  effect_of (bind m k) s evs /\ fst (bind m k s) = Thrown e.
Proof.
  unfold effect_of, bind. destruct (m s) as [o s1]. cbn [fst snd].
  intros [Ht Hd] ->. cbn [fst snd]. auto.
Qed.

Lemma quiet_ret {A : Type} (a : A) : quiet (ret a).
Proof.
  intros s. exists []. split; [|reflexivity]. split;
    [cbn; now rewrite app_nil_r | constructor].
Qed.

Lemma quiet_throw {A : Type} (e : Exn) : quiet (@throw A e).
Proof.
  intros s. exists []. split; [|reflexivity]. split;
    [cbn; now rewrite app_nil_r | constructor].
Qed.

Lemma quiet_lift {A : Type} (o : Outcome A) : quiet (lift o).
Proof.
  intros s. exists []. split; [|reflexivity]. split;
    [cbn; now rewrite app_nil_r | constructor].
Qed.

Lemma quiet_emit_model (p : Prompt) : quiet (emit (ModelCall p)).
Proof.
  intros s. exists [ModelCall p]. split; [|reflexivity]. split; [reflexivity | constructor].
Qed.

Lemma quiet_emit_db (op : DbOp) (args : list string) : quiet (emit (DbCall op args)).
Proof.
  intros s. exists [DbCall op args]. split; [|reflexivity].
  split; [reflexivity | constructor].
Qed.

Lemma quiet_bind {A B : Type} (m : M A) (k : A -> M B) :
  quiet m -> (forall a, quiet (k a)) -> quiet (bind m k).
Proof.
  intros Hm Hk s. destruct (Hm s) as [evs1 [He1 Hr1]].
  destruct (fst (m s)) as [a|e] eqn:Ho.
  - destruct (Hk a (snd (m s))) as [evs2 [He2 Hr2]].
    exists (evs1 ++ evs2)%list. split.
    + exact (proj1 (effect_of_bind m k s a evs1 evs2 He1 Ho He2)).
    + now rewrite responses_app, Hr1, Hr2.
  - exists evs1. split; [|exact Hr1].
    exact (proj1 (effect_of_bind_thrown m k s e evs1 He1 Ho)).
Qed.

(** A database write that follows the read of the database. *)
Lemma quiet_modify {B : Type} (f : Db -> Db) (k : M B) :
  (forall d, db_step d (f d)) -> quiet k ->
  quiet (bind get_db (fun d => bind (set_db (f d)) (fun _ => k))).
Proof.
  intros Hf Hk s.
  destruct (Hk {| db := f (db s); trace := trace s |}) as [evs [[Ht Hd] Hr]].
  exists evs. split; [|exact Hr].
  unfold effect_of, bind, get_db, set_db in *. cbn [fst snd db trace] in *.
  split; [exact Ht|]. eapply db_steps_more; [apply Hf | exact Hd].
Qed.

Lemma quiet_try_catch {A : Type} (m : M A) (h : Exn -> M A) :
  quiet m -> (forall e, quiet (h e)) -> quiet (try_catch m h).
Proof.
  intros Hm Hh s. destruct (Hm s) as [evs1 [[Ht1 Hd1] Hr1]].
  unfold try_catch, effect_of in *. destruct (m s) as [[a|e] s1]; cbn [fst snd] in *.
  - exists evs1. auto.
  - destruct (Hh e s1) as [evs2 [[Ht2 Hd2] Hr2]].
    exists (evs1 ++ evs2)%list. split; [split|].
    + now rewrite Ht2, Ht1, app_assoc.
    + eapply db_steps_trans; eassumption.
    + now rewrite responses_app, Hr1, Hr2.
Qed.

Lemma never_throws_ret {A : Type} (a : A) : never_throws (ret a).
Proof. intros s. now exists a. Qed.

Lemma never_throws_bind {A B : Type} (m : M A) (k : A -> M B) :
  never_throws m -> (forall a, never_throws (k a)) -> never_throws (bind m k).
Proof.
  intros Hm Hk s. destruct (Hm s) as [a Ha]. unfold bind.
  destruct (m s) as [o s1]. cbn [fst] in Ha. subst o. apply Hk.
Qed.

Lemma never_throws_try_catch {A : Type} (m : M A) (h : Exn -> M A) :
  (forall e, never_throws (h e)) -> never_throws (try_catch m h).
Proof.
  intros Hh s. unfold try_catch. destruct (m s) as [[a|e] s1].
  - now exists a.
  - apply Hh.
Qed.

Lemma never_throws_emit (e : Event) : never_throws (emit e).
Proof. intros s. now exists tt. Qed.

Lemma never_throws_modify {B : Type} (f : Db -> Db) (k : M B) :
  never_throws k ->
  never_throws (bind get_db (fun d => bind (set_db (f d)) (fun _ => k))).
Proof.
  intros Hk s. unfold bind, get_db, set_db. cbn [fst snd]. apply Hk.
Qed.

Lemma answers_respond (st : Z) (body : Body) :
  In st [200; 400; 500] -> answers (respond st body).
Proof.
  intros Hst s. exists [Respond st body]. split.
  - split; [reflexivity | constructor].
  - cbn. exists (st, body). split; [reflexivity | exact Hst].
Qed.

Lemma answers_throw {A : Type} (e : Exn) : answers (@throw A e).
Proof.
  intros s. exists []. split; [|reflexivity].
  split; [cbn; now rewrite app_nil_r | constructor].
Qed.

(** Silent work, then a computation that answers. *)
Lemma answers_after_quiet {A B : Type} (m : M A) (k : A -> M B) :
  quiet m -> (forall a, answers (k a)) -> answers (bind m k).
Proof.
  intros Hm Hk s. destruct (Hm s) as [evs1 [He1 Hr1]].
  destruct (fst (m s)) as [a|e] eqn:Ho.
  - destruct (Hk a (snd (m s))) as [evs2 [He2 Hr2]].
    destruct (effect_of_bind m k s a evs1 evs2 He1 Ho He2) as [He Hf].
    exists (evs1 ++ evs2)%list. split; [exact He|].
    rewrite Hf, responses_app, Hr1. exact Hr2.
  - destruct (effect_of_bind_thrown m k s e evs1 He1 Ho) as [He Hf].
    exists evs1. split; [exact He|]. now rewrite Hf.
Qed.

(** An answer, then silent work that cannot throw. *)
Lemma answers_then_quiet {A B : Type} (m : M A) (k : A -> M B) :
  answers m -> (forall a, quiet (k a)) -> (forall a, never_throws (k a)) ->
  answers (bind m k).
Proof.
  intros Hm Hk Hn s. destruct (Hm s) as [evs1 [He1 Hr1]].
  destruct (fst (m s)) as [a|e] eqn:Ho.
  - destruct (Hk a (snd (m s))) as [evs2 [He2 Hr2]].
    destruct (effect_of_bind m k s a evs1 evs2 He1 Ho He2) as [He Hf].
    exists (evs1 ++ evs2)%list. split; [exact He|].
    rewrite Hf. destruct (Hn a (snd (m s))) as [b Hb]. rewrite Hb.
    rewrite responses_app, Hr2, app_nil_r. exact Hr1.
  - destruct (effect_of_bind_thrown m k s e evs1 He1 Ho) as [He Hf].
    exists evs1. split; [exact He|]. now rewrite Hf.
Qed.

Lemma answers_modify {B : Type} (f : Db -> Db) (k : M B) :
  (forall d, db_step d (f d)) -> answers k ->
  answers (bind get_db (fun d => bind (set_db (f d)) (fun _ => k))).
Proof.
  intros Hf Hk s.
  destruct (Hk {| db := f (db s); trace := trace s |}) as [evs [[Ht Hd] Hr]].
  exists evs. unfold effect_of, bind, get_db, set_db in *. cbn [fst snd db trace] in *.
  split; [|exact Hr]. split; [exact Ht|].
  eapply db_steps_more; [apply Hf | exact Hd].
Qed.

(** A [try] whose handler answers: one response, whatever happens. *)
Lemma answers_try_catch {A : Type} (m : M A) (h : Exn -> M A) :
  answers m ->
  (forall e, answers (h e)) -> (forall e, never_throws (h e)) ->
  answers (try_catch m h) /\ never_throws (try_catch m h).
Proof.
  intros Hm Hh Hn. split; [|now apply never_throws_try_catch].
  intros s. destruct (Hm s) as [evs1 [[Ht1 Hd1] Hr1]].
  unfold try_catch, effect_of in *. destruct (m s) as [[a|e] s1]; cbn [fst snd] in *.
  - exists evs1. auto.
  - destruct (Hh e s1) as [evs2 [[Ht2 Hd2] Hr2]].
    exists (evs1 ++ evs2)%list. split; [split|].
    + now rewrite Ht2, Ht1, app_assoc.
    + eapply db_steps_trans; eassumption.
    + destruct (Hn e s1) as [b Hb]. rewrite Hb in *.
      now rewrite responses_app, Hr1.
Qed.

End Effects.

Section HandlerEffects.

Import ChartGenerator.
Import ChatService.

Variable toLowerCase : string -> string.
Variable Date_parse : string -> option Z.

Lemma quiet_get_db : quiet get_db.
Proof.
  intros s. exists []. split; [|reflexivity]. split;
    [cbn; now rewrite app_nil_r | constructor].
Qed.

Lemma quiet_modify_last (f : Db -> Db) :
  (forall d, db_step d (f d)) -> quiet (bind get_db (fun d => set_db (f d))).
Proof.
  intros Hf s. exists []. split; [|reflexivity].
  unfold effect_of, bind, get_db, set_db. cbn [fst snd db trace].
  split; [now rewrite app_nil_r | apply db_steps_one, Hf].
Qed.

Lemma never_throws_modify_last (f : Db -> Db) :
  never_throws (bind get_db (fun d => set_db (f d))).
Proof. intros s. now exists tt. Qed.

Lemma never_throws_get_db : never_throws get_db.
Proof. intros s. now exists (db s). Qed.

Lemma cleanupOldCharts_quiet (env : Env) (userId : string) (maxCharts : Z) :
  quiet (cleanupOldCharts env userId maxCharts).
Proof.
  intros s.
  unfold cleanupOldCharts, try_catch, bind, emit, get_db, set_db, ret, effect_of.
  cbn [db trace fst snd].
  destruct (db_fails env CountCharts); cbn [db trace fst snd];
    [|destruct (Z.of_nat (List.length (user_charts (db s) userId)) >? maxCharts);
      cbn [db trace fst snd];
      [destruct (db_fails env SelectOldCharts); cbn [db trace fst snd];
       [|destruct (db_fails env DeleteCharts); cbn [db trace fst snd]]|]];
    (eexists; split;
     [split; [rewrite <- ?app_assoc; reflexivity|]
     | reflexivity]);
    first [apply db_steps_none | apply db_steps_one; constructor].
Qed.

Lemma cleanupOldCharts_never_throws (env : Env) (userId : string) (maxCharts : Z) :
  never_throws (cleanupOldCharts env userId maxCharts).
Proof.
  unfold cleanupOldCharts. apply never_throws_try_catch.
  intros e. apply never_throws_ret.
Qed.

Ltac quiet_step :=
  first
    [ apply quiet_ret | apply quiet_throw | apply quiet_lift
    | apply quiet_emit_model | apply quiet_emit_db | apply quiet_get_db
    | apply cleanupOldCharts_quiet
    | (apply quiet_modify; [intros; constructor|])
    | (apply quiet_modify_last; intros; constructor)
    | (apply quiet_bind; [|intros])
    | (apply quiet_try_catch; [|intros])
    | match goal with
      | |- quiet (if ?c then _ else _) => destruct c
      | |- quiet (match ?x with _ => _ end) => destruct x
      end ].

Ltac never_step :=
  first
    [ apply never_throws_ret | apply never_throws_emit | apply never_throws_get_db
    | apply cleanupOldCharts_never_throws
    | apply never_throws_modify_last
    | (apply never_throws_modify)
    | (apply never_throws_try_catch; intros)
    | (apply never_throws_bind; [|intros])
    | match goal with
      | |- never_throws (if ?c then _ else _) => destruct c
      | |- never_throws (match ?x with _ => _ end) => destruct x
      end ].

Lemma saveChart_quiet (env : Env) (userId : string) (cd : ChartData)
    (chartType periodStart periodEnd : string) :
  quiet (saveChart env userId cd chartType periodStart periodEnd).
Proof. unfold saveChart. cbv zeta. repeat quiet_step. Qed.

Lemma update_answer_quiet (env : Env) (messageId : string) (answer : option string) :
  quiet (update_answer env messageId answer).
Proof. unfold update_answer. repeat quiet_step. Qed.

Lemma update_answer_never_throws (env : Env) (messageId : string)
    (answer : option string) :
  never_throws (update_answer env messageId answer).
Proof. unfold update_answer. repeat never_step. Qed.

Lemma getData_quiet (env : Env) (intent : Intent) (userId : string) :
  quiet (getData env intent userId).
Proof. unfold getData. repeat quiet_step. Qed.

Lemma analyzeData_quiet (env : Env) (data : list MoodRecord) (intent : Intent)
    (userMessage : string) (recent : list ChatTurn) :
  quiet (analyzeData Date_parse env data intent userMessage recent).
Proof. unfold analyzeData. cbv zeta. repeat quiet_step. Qed.

Lemma analyzeData_never_throws (env : Env) (data : list MoodRecord) (intent : Intent)
    (userMessage : string) (recent : list ChatTurn) :
  never_throws (analyzeData Date_parse env data intent userMessage recent).
Proof. unfold analyzeData. cbv zeta. repeat never_step. Qed.

Lemma analyzeUserIntent_quiet (env : Env) (message : string) :
  quiet (analyzeUserIntent toLowerCase env message).
Proof. unfold analyzeUserIntent. cbv zeta. repeat quiet_step. Qed.

Lemma checkIfNeedsData_quiet (env : Env) (message : string) (intent : Intent) :
  quiet (checkIfNeedsData env message intent).
Proof. unfold checkIfNeedsData. cbv zeta. repeat quiet_step. Qed.

Lemma respond_never_throws (st : Z) (body : Body) : never_throws (respond st body).
Proof. apply never_throws_emit. Qed.

Lemma handleSimpleRequest_answers (env : Env) (req : ChatRequest) (intent : Intent)
    (userId messageId : string) :
  answers (handleSimpleRequest env req intent userId messageId) /\
  never_throws (handleSimpleRequest env req intent userId messageId).
Proof.
  unfold handleSimpleRequest. cbv zeta. apply answers_try_catch.
  - apply answers_after_quiet; [apply quiet_emit_model|]. intros _.
    destruct (completion env _) as [content|]; [|apply answers_throw].
    apply answers_then_quiet.
    + apply answers_respond. simpl. auto.
    + intros _. apply update_answer_quiet.
    + intros _. apply update_answer_never_throws.
  - intros e. apply answers_respond. simpl. auto.
  - intros e. apply respond_never_throws.
Qed.

Lemma handleRequest_answers (env : Env) (req : ChatRequest) (intent : Intent)
    (userId messageId : string) :
  answers (handleRequest toLowerCase Date_parse env req intent userId messageId) /\
  never_throws (handleRequest toLowerCase Date_parse env req intent userId messageId).
Proof.
  unfold handleRequest. apply answers_try_catch.
  - apply answers_after_quiet; [apply getData_quiet|]. intros data.
    destruct data as [|r rest].
    + apply answers_respond. simpl. auto.
    + apply answers_after_quiet; [apply analyzeData_quiet|]. intros analysisResult.
      cbv zeta. apply answers_after_quiet.
      * destruct (needsChart intent); [|apply quiet_ret].
        destruct (generateEmotionChart _ _ _ _); [apply quiet_ret|].
        apply quiet_bind; [|intros; apply quiet_ret].
        apply quiet_try_catch; [|intros; apply quiet_ret].
        apply quiet_bind; [apply quiet_lift|]. intros periodStart.
        apply quiet_bind; [apply quiet_lift|]. intros periodEnd.
        apply saveChart_quiet.
      * intros chartData. apply answers_then_quiet.
        -- apply answers_respond. simpl. auto.
        -- intros _. apply update_answer_quiet.
        -- intros _. apply update_answer_never_throws.
  - intros e. apply answers_respond. simpl. auto.
  - intros e. apply respond_never_throws.
Qed.

Lemma handleSmartRequest_answers (env : Env) (req : ChatRequest) (intent : Intent)
    (userId messageId : string) :
  answers (handleSmartRequest toLowerCase Date_parse env req intent userId messageId) /\
  never_throws
    (handleSmartRequest toLowerCase Date_parse env req intent userId messageId).
Proof.
  unfold handleSmartRequest. apply answers_try_catch.
  - apply answers_after_quiet; [apply checkIfNeedsData_quiet|]. intros needsData.
    destruct (negb needsData).
    + apply handleSimpleRequest_answers.
    + apply handleRequest_answers.
  - intros e. apply answers_respond. simpl. auto.
  - intros e. apply respond_never_throws.
Qed.

(** Every run of the chat endpoint sends one response, does not throw, and
    changes the database by writes of the pipeline only. *)
Lemma handleChatRequest_answers (env : Env) (req : ChatRequest) :
  answers (handleChatRequest toLowerCase Date_parse env req) /\
  never_throws (handleChatRequest toLowerCase Date_parse env req).
Proof.
  unfold handleChatRequest. cbv zeta. apply answers_try_catch.
  - destruct (negb (JsStr.truthy _)).
    + apply answers_respond. simpl. auto.
    + apply answers_after_quiet.
      * apply quiet_try_catch; [apply analyzeUserIntent_quiet|].
        intros e. apply quiet_ret.
      * intros intent. apply answers_after_quiet; [apply quiet_emit_db|]. intros _.
        destruct (db_fails env InsertMessage).
        -- apply answers_respond. simpl. auto.
        -- apply answers_modify; [intros d; constructor|].
           apply handleSmartRequest_answers.
  - intros e. apply answers_respond. simpl. auto.
  - intros e. apply respond_never_throws.
Qed.

End HandlerEffects.

(** ** What a chat request leaves behind *)

Section ChatRequestInvariants.

Import ChatService.

Variable toLowerCase : string -> string.
Variable Date_parse : string -> option Z.

Lemma is_prefix_refl {A : Type} (l : list A) : is_prefix l l.
Proof. exists []. now rewrite app_nil_r. Qed.

Lemma is_prefix_trans {A : Type} (l1 l2 l3 : list A) :
  is_prefix l1 l2 -> is_prefix l2 l3 -> is_prefix l1 l3.
Proof.
  intros [r1 ->] [r2 ->]. exists (r1 ++ r2)%list. now rewrite app_assoc.
Qed.

Lemma db_step_records (d d' : Db) : db_step d d' -> records d' = records d.
Proof. destruct 1; reflexivity. Qed.

Lemma db_step_message_keys (d d' : Db) :
  db_step d d' ->
  is_prefix (map message_key (chat_messages d)) (map message_key (chat_messages d')).
Proof.
  destruct 1 as [d c|d ids|d m|d messageId answer]; cbn [chat_messages insert_chart
    delete_charts insert_message update_message].
  - apply is_prefix_refl.
  - apply is_prefix_refl.
  - exists [message_key m]. now rewrite map_app.
  - exists []. rewrite app_nil_r, map_map. apply map_ext. intros m.
    destruct (String.eqb (msg_id m) messageId); reflexivity.
Qed.

Lemma db_steps_records (d d' : Db) : db_steps d d' -> records d' = records d.
Proof.
  induction 1 as [|d1 d2 d3 H12 _ IH]; [reflexivity|].
  now rewrite IH, (db_step_records _ _ H12).
Qed.

Lemma db_steps_message_keys (d d' : Db) :
  db_steps d d' ->
  is_prefix (map message_key (chat_messages d)) (map message_key (chat_messages d')).
Proof.
  induction 1 as [|d1 d2 d3 H12 _ IH]; [apply is_prefix_refl|].
  eapply is_prefix_trans; [apply db_step_message_keys, H12 | exact IH].
Qed.

(** Every chat request gets exactly one response, with status 200, 400 or
    500, whatever the model and the database do. *)
Theorem handleChatRequest_responds_once :
  forall (env : Env) (req : ChatRequest) (d : Db),
    exists r : Z * Body,
      responses (events (handleChatRequest toLowerCase Date_parse env req) d) = [r] /\
      In (fst r) [200; 400; 500] /\
      fst (run (handleChatRequest toLowerCase Date_parse env req) d) = Done tt.
Proof.
  intros env req d.
  destruct (handleChatRequest_answers toLowerCase Date_parse env req) as [Hans Hnever].
  destruct (Hans {| db := d; trace := [] |}) as [evs [[Ht _] Hr]].
  destruct (Hnever {| db := d; trace := [] |}) as [[] Hdone].
  rewrite Hdone in Hr. destruct Hr as [r [Hr Hst]].
  exists r. unfold events, run. cbn [trace app] in Ht. rewrite Ht.
  repeat split; assumption.
Qed.

(** A chat request never changes the records table, and never removes a
    stored chat message or changes its id, user, text or creation time: the
    messages after the request start with the messages before it. *)
Theorem handleChatRequest_keeps_stored_data :
  forall (env : Env) (req : ChatRequest) (d : Db),
    let d' := final_db (handleChatRequest toLowerCase Date_parse env req) d in
    records d' = records d /\
    is_prefix (map message_key (chat_messages d)) (map message_key (chat_messages d')).
Proof.
  intros env req d d'.
  destruct (handleChatRequest_answers toLowerCase Date_parse env req) as [Hans _].
  destruct (Hans {| db := d; trace := [] |}) as [evs [[_ Hd] _]].
  cbn [db] in Hd. unfold d', final_db, run.
  split; [now apply db_steps_records | now apply db_steps_message_keys].
Qed.

End ChatRequestInvariants.

(** ** The response of the data path *)

Section DataPath.

Import ChartGenerator.
Import ChatService.

Variable toLowerCase : string -> string.
Variable Date_parse : string -> option Z.




End DataPath.


(** ** When the window cannot be resolved *)

Section WindowErrors.

Import ChatService.

Variable toLowerCase : string -> string.
Variable Date_parse : string -> option Z.

Lemma resolver_None_iff (now : Dayjs.t) (periodType : string) (periodValue : Z) :
  IntentAnalyze.calculateDateRange now periodType periodValue = None
  <-> period_unit periodType = None.
Proof.
  rewrite calculateDateRange_by_unit.
  destruct (period_unit periodType); split; intros H; try discriminate; reflexivity.
Qed.

(** [getData] throws exactly when the time range is neither today nor
    yesterday, a bound is missing from the intent, and the period type, after
    its default, is not one the resolver knows. *)
Lemma getData_window_throws_iff (env : Env) (intent : Intent) :
  (exists e, getData_window env intent = Thrown e)
  <-> is_str (timeRange intent) "today" = false /\
      is_str (timeRange intent) "yesterday" = false /\
      (truthy_str (fromDate intent) = None \/ truthy_str (toDate intent) = None) /\
      period_unit (str_or (periodType intent) "month") = None.
Proof.
  destruct (is_str (timeRange intent) "today") eqn:Ht.
  { unfold getData_window. rewrite Ht. split.
    - intros [e H]. discriminate.
    - intros [H _]. discriminate. }
  destruct (is_str (timeRange intent) "yesterday") eqn:Hy.
  { unfold getData_window. rewrite Ht, Hy. split.
    - intros [e H]. discriminate.
    - intros (_ & H & _). discriminate. }
  rewrite getData_window_other by assumption.
  unfold from_or_period, to_or_period.
  pose proof (resolver_None_iff (dayjs env) (str_or (periodType intent) "month")
                (num_or (periodValue intent) 1)) as Hres.
  destruct (IntentAnalyze.calculateDateRange (dayjs env)
              (str_or (periodType intent) "month") (num_or (periodValue intent) 1))
    as [r|];
    destruct (truthy_str (fromDate intent)) as [f|],
             (truthy_str (toDate intent)) as [t|];
    split;
    try (intros [e H]; discriminate H);
    try (intros (_ & _ & [H|H] & _); discriminate H);
    try (intros (_ & _ & _ & H); apply Hres in H; discriminate H);
    try (intros _; repeat split; auto; now apply Hres);
    try (intros _; eexists; reflexivity).
Qed.

(** With a period type the resolver does not know and a bound missing, the
    data path answers 500 without querying the records and without calling
    the model; with both bounds present, or a time range of today or
    yesterday, the unknown period type does no harm. *)
Theorem handleRequest_unknown_period_type :
  forall (env : Env) (req : ChatRequest) (intent : Intent)
         (userId messageId : string) (d : Db),
    period_unit (str_or (periodType intent) "month") = None ->
    let tr :=
      events (handleRequest toLowerCase Date_parse env req intent userId messageId) d in
    let single_day :=
      is_str (timeRange intent) "today" || is_str (timeRange intent) "yesterday" in
    match single_day, truthy_str (fromDate intent), truthy_str (toDate intent) with
    | false, None, _ | false, _, None =>
        tr = [Respond 500 (ErrorBody "요청 처리 중 오류가 발생했습니다." None)] /\
        final_db (handleRequest toLowerCase Date_parse env req intent userId messageId) d
        = d
    | _, _, _ =>
        exists w, getData_window env intent = Done w /\
                  In (DbCall SelectRecords [userId; fst w; snd w]) tr
    end.
Proof.
  intros env req intent userId messageId d Hunit tr single_day.
  pose proof (getData_window_throws_iff env intent) as Hiff.
  pose proof (getData_run env intent userId d) as Hrun. unfold run in Hrun.
  assert (Hthrown : forall e, getData_window env intent = Thrown e ->
            tr = [Respond 500 (ErrorBody "요청 처리 중 오류가 발생했습니다." None)] /\
            final_db (handleRequest toLowerCase Date_parse env req intent userId
                        messageId) d = d).
  { intros e He. rewrite He in Hrun.
    split; unfold tr, events, final_db, run, handleRequest, try_catch;
      unfold bind at 1; rewrite Hrun; reflexivity. }
  assert (Hdone : forall w, getData_window env intent = Done w ->
            In (DbCall SelectRecords [userId; fst w; snd w]) tr).
  { intros w Hw. rewrite Hw in Hrun.
    unfold tr, events, run, handleRequest, try_catch.
    unfold bind at 1. rewrite Hrun.
    set (s1 := {| db := d; trace := [DbCall SelectRecords [userId; fst w; snd w]] |}).
    set (k := match (if db_fails env SelectRecords then [] else _) with
              | [] => _ | _ => _ end).
    assert (Hq : quiet k \/ answers k).
    { unfold k. destruct (if db_fails env SelectRecords then [] else _) as [|r rest].
      - right. apply answers_respond. simpl. auto.
      - right. apply answers_after_quiet; [apply analyzeData_quiet|]. intros a.
        cbv zeta. apply answers_after_quiet.
        + destruct (needsChart intent); [|apply quiet_ret].
          destruct (ChartGenerator.generateEmotionChart _ _ _ _); [apply quiet_ret|].
          apply quiet_bind; [|intros; apply quiet_ret].
          apply quiet_try_catch; [|intros; apply quiet_ret].
          apply quiet_bind; [apply quiet_lift|]. intros periodStart.
          apply quiet_bind; [apply quiet_lift|]. intros periodEnd.
          apply saveChart_quiet.
        + intros c. apply answers_then_quiet.
          * apply answers_respond. simpl. auto.
          * intros _. apply update_answer_quiet.
          * intros _. apply update_answer_never_throws. }
    assert (Hk : exists evs, trace (snd (k s1)) = (trace s1 ++ evs)%list).
    { destruct Hq as [Hq|Hq]; destruct (Hq s1) as [evs [[Ht _] _]]; eauto. }
    destruct Hk as [evs Hk]. destruct (k s1) as [[a|e] s2]; cbn [snd] in *.
    - rewrite Hk. now left.
    - unfold respond, emit. cbn [snd trace]. rewrite Hk. now left. }
  unfold single_day.
  destruct (is_str (timeRange intent) "today") eqn:Ht;
    destruct (is_str (timeRange intent) "yesterday") eqn:Hy;
    destruct (truthy_str (fromDate intent)) as [f|] eqn:Hf;
    destruct (truthy_str (toDate intent)) as [t|] eqn:Hto;
    cbn [orb].
  all: try (destruct (getData_window env intent) as [w|e] eqn:Hw;
            [exists w; split; [reflexivity | now apply Hdone]
            | exfalso; destruct (proj1 Hiff (ex_intro _ e eq_refl))
                as (H1 & H2 & [H3|H3] & _); discriminate]).
  all: destruct (proj2 Hiff) as [e He];
    [repeat split; auto | exact (Hthrown e He)].
Qed.

End WindowErrors.

Lemma handleRequest_unknown_period_type_witness :
  ChatService.events
    (ChatService.handleRequest lower_ascii iso_date_time env_ok
       (sample_request (ChatService.JsString "최근 기록 분석해줘"))
       (sample_intent "recent" "period" (Some "quarter") (Some 1) None None)
       "u1" "m-1")
    db_records
  = [ChatService.Respond 500
       (ChatService.ErrorBody "요청 처리 중 오류가 발생했습니다." None)].
Proof.
  apply (handleRequest_unknown_period_type lower_ascii iso_date_time env_ok
           (sample_request (ChatService.JsString "최근 기록 분석해줘"))
           (sample_intent "recent" "period" (Some "quarter") (Some 1) None None)
           "u1" "m-1" db_records).
  reflexivity.
Defined.

(** ** The keyword fallback *)

Section FallbackFacts.

Import ChatService.

Variable toLowerCase : string -> string.
Variable Date_parse : string -> option Z.

(** The intent of the keyword fallback is consistent: a chart is wanted
    exactly for an analysis request, which always needs the records; the chat
    history is wanted exactly when the records are not; a simple greeting
    needs neither records nor chart; the time range is one of the five
    names; no period and no dates are set. *)
Theorem simpleFallbackAnalysis_consistent :
  forall message : string,
    let i := IntentAnalyze.simpleFallbackAnalysis toLowerCase message in
    needsChart i = isAnalysisRequest i /\
    (isAnalysisRequest i = true -> needsRecords i = true) /\
    needsChatHistory i = negb (needsRecords i) /\
    (isSimpleGreeting i = true -> needsRecords i = false /\ needsChart i = false) /\
    (analysisType i = Some "specific" <-> isAnalysisRequest i = true) /\
    In (timeRange i)
       [Some "today"; Some "yesterday"; Some "last_week"; Some "last_month";
        Some "recent"] /\
    periodType i = None /\ periodValue i = None /\
    fromDate i = None /\ toDate i = None.
Proof.
  intros message i. unfold i, IntentAnalyze.simpleFallbackAnalysis. cbv zeta.
  cbn [needsChart isAnalysisRequest needsRecords needsChatHistory isSimpleGreeting
       analysisType timeRange periodType periodValue fromDate toDate].
  set (q := toLowerCase message).
  set (hasAnalysis := JsStr.includes q "분석" || JsStr.includes q "차트"
                      || JsStr.includes q "그래프").
  set (hasRecords := JsStr.includes q "기록" || JsStr.includes q "데이터").
  split; [reflexivity|].
  split; [intros ->; apply orb_true_r|].
  split; [destruct hasAnalysis, hasRecords; reflexivity|].
  split.
  { destruct hasAnalysis, hasRecords; simpl; intros H; try discriminate H; auto. }
  split.
  { destruct hasAnalysis; split; intros H; try discriminate H; reflexivity. }
  split.
  { repeat match goal with
           | |- context [if ?c then _ else _] => destruct c
           end; simpl; auto 6. }
  repeat split.
Qed.

Lemma fallback_analysis_needs_records (message : string) :
  isAnalysisRequest (IntentAnalyze.simpleFallbackAnalysis toLowerCase message) = true ->
  needsRecords (IntentAnalyze.simpleFallbackAnalysis toLowerCase message) = true.
Proof.
  unfold IntentAnalyze.simpleFallbackAnalysis. cbv zeta.
  cbn [isAnalysisRequest needsRecords]. intros ->. apply orb_true_r.
Qed.

Lemma fallback_no_dates (message : string) :
  let i := IntentAnalyze.simpleFallbackAnalysis toLowerCase message in
  truthy_str (fromDate i) = None /\ truthy_str (toDate i) = None /\
  str_or (periodType i) "month" = "month" /\ num_or (periodValue i) 1 = 1.
Proof. repeat split. Qed.

(** The window of a fallback intent always resolves: the single Korean day
    for today and yesterday; for last_week, last_month and recent alike, the
    month that ends on the server's current date. *)
Theorem fallback_window_resolves :
  forall (env : Env) (message : string),
    let i := IntentAnalyze.simpleFallbackAnalysis toLowerCase message in
    let today := format_civil (civil_of (koreaTime env)) in
    let yesterday := format_civil (date_minus (civil_of (koreaTime env)) 1 Dayjs.Day) in
    let month_ago := format_civil (date_minus (civil_of (dayjs env)) 1 Dayjs.Month) in
    let server_today := format_civil (civil_of (dayjs env)) in
    getData_window env i
    = Done (if is_str (timeRange i) "today" then (today, today)
            else if is_str (timeRange i) "yesterday" then (yesterday, yesterday)
            else (month_ago, server_today)).
Proof.
  intros env message i today yesterday month_ago server_today.
  destruct (fallback_no_dates message) as (Hf & Ht & Hp & Hv). fold i in Hf, Ht, Hp, Hv.
  destruct (is_str (timeRange i) "today") eqn:Htoday.
  { unfold getData_window. rewrite Htoday. unfold today.
    now rewrite format_is_format_civil. }
  destruct (is_str (timeRange i) "yesterday") eqn:Hyes.
  { unfold getData_window. rewrite Htoday, Hyes. unfold yesterday.
    now rewrite format_is_format_civil, civil_of_subtract. }
  rewrite getData_window_other by assumption.
  unfold from_or_period, to_or_period. rewrite Hf, Ht, Hp, Hv.
  rewrite calculateDateRange_by_unit. reflexivity.
Qed.

(** With every model call rejected, a message in which the fallback finds
    no record or analysis keyword is stored, goes down the no-data path and is
    answered 500: three model calls are tried, the records are never
    queried, and the stored message keeps no answer. *)
Theorem handleChatRequest_model_down :
  forall (env : Env) (req : ChatRequest) (s : string) (d : Db),
    body_message req = JsString s ->
    JsStr.trim s <> "" ->
    (forall p, completion env p = None) ->
    db_fails env InsertMessage = false ->
    needsRecords (IntentAnalyze.simpleFallbackAnalysis toLowerCase (JsStr.trim s)) = false ->
    let userId := match body_user_id req with Some u => u | None => "test_user" end in
    events (handleChatRequest toLowerCase Date_parse env req) d
    = [ ModelCall (IntentPrompt (Dayjs.format_YYYY_MM_DD (koreaTime env)) (JsStr.trim s));
        DbCall InsertMessage [uuidv4 env; userId; JsStr.trim s];
        ModelCall (NeedsDataPrompt s);
        ModelCall (SimplePrompt (koreaTime env)
                     (createContextPrompt s (body_recent_messages req)));
        Respond 500 (ErrorBody "요청 처리 중 오류가 발생했습니다." None) ] /\
    chat_messages (final_db (handleChatRequest toLowerCase Date_parse env req) d)
    = (chat_messages d
       ++ [ {| msg_id := uuidv4 env; msg_user_id := userId;
               user_chat := JsStr.trim s; ai_answer := None;
               msg_created_at := db_now env |} ])%list.
Proof.
  intros env req s d Hmsg Htrim Hdown Hins Hneeds userId.
  assert (Hana : isAnalysisRequest
                   (IntentAnalyze.simpleFallbackAnalysis toLowerCase (JsStr.trim s))
                 = false).
  { destruct (isAnalysisRequest _) eqn:E; [|reflexivity].
    rewrite (fallback_analysis_needs_records _ E) in Hneeds. discriminate. }
  assert (Hrun : run (handleChatRequest toLowerCase Date_parse env req) d
                 = (Done tt,
                    {| db := insert_message d
                               {| msg_id := uuidv4 env; msg_user_id := userId;
                                  user_chat := JsStr.trim s; ai_answer := None;
                                  msg_created_at := db_now env |};
                       trace :=
                         [ ModelCall (IntentPrompt (Dayjs.format_YYYY_MM_DD (koreaTime env))
                                        (JsStr.trim s));
                           DbCall InsertMessage [uuidv4 env; userId; JsStr.trim s];
                           ModelCall (NeedsDataPrompt s);
                           ModelCall (SimplePrompt (koreaTime env)
                                        (createContextPrompt s (body_recent_messages req)));
                           Respond 500 (ErrorBody request_error None) ] |})).
  { unfold run, handleChatRequest, try_catch. rewrite Hmsg.
    rewrite (truthy_nonempty _ Htrim). cbn [negb].
    unfold bind at 1. unfold try_catch, analyzeUserIntent, bind at 1, emit at 1.
    cbn [db trace app]. rewrite Hdown.
    unfold ret at 1. unfold bind at 1. unfold emit at 1. cbn [db trace app].
    rewrite Hins. unfold bind at 1. unfold get_db at 1. unfold bind at 1.
    unfold set_db at 1. cbn [db trace].
    unfold handleSmartRequest, try_catch. unfold bind at 1.
    unfold checkIfNeedsData, bind at 1, emit at 1. cbn [db trace app].
    rewrite Hdown. unfold ret at 1. rewrite Hneeds, Hana. cbn [orb negb].
    unfold handleSimpleRequest, try_catch. unfold bind at 1. unfold emit at 1.
    cbn [db trace app]. rewrite Hdown. unfold throw, respond, emit.
    unfold message_text. rewrite Hmsg. reflexivity. }
  unfold events, final_db. rewrite Hrun. split; reflexivity.
Qed.

End FallbackFacts.

(** ** Saving a chart *)

Section SaveChart.

Import ChartGenerator.
Import ChatService.
Import ChartStore.

Lemma cleanupOldCharts_db_at (env : Env) (userId : string) (maxCharts : Z) (s : St) :
  db (snd (cleanupOldCharts env userId maxCharts s))
  = final_db (cleanupOldCharts env userId maxCharts) (db s).
Proof.
  unfold final_db, run, cleanupOldCharts, try_catch, bind, emit, get_db, set_db, ret.
  cbn [db trace fst snd].
  destruct (db_fails env CountCharts); cbn [db trace fst snd]; [reflexivity|].
  destruct (Z.of_nat (List.length (user_charts (db s) userId)) >? maxCharts);
    cbn [db trace fst snd]; [|reflexivity].
  destruct (db_fails env SelectOldCharts); cbn [db trace fst snd]; [reflexivity|].
  destruct (db_fails env DeleteCharts); reflexivity.
Qed.

Variable env : Env.
Variable userId : string.
Variable cd : ChartData.
Variable chartType periodStart periodEnd : string.
Variable d : Db.

Let new_chart : SavedChart :=
  {| chart_id := db_uuid env; chart_user_id := userId;
     chart_name := periodStart ++ " 감정 차트"; chart_type := chartType;
     chart_data := cd; period_start := periodStart; period_end := periodEnd;
     created_at := db_now env |}.

Let d' : Db := final_db (saveChart env userId cd chartType periodStart periodEnd) d.

Hypothesis insert_ok : db_fails env InsertChart = false.
Hypothesis count_ok : db_fails env CountCharts = false.
Hypothesis select_ok : db_fails env SelectOldCharts = false.
Hypothesis delete_ok : db_fails env DeleteCharts = false.
Hypothesis ids_unique : NoDup (map chart_id (saved_charts d)).
Hypothesis id_fresh : ~ In (db_uuid env) (map chart_id (saved_charts d)).
Hypothesis clock_ahead : forall c, In c (saved_charts d) -> created_at c < db_now env.

Let d1 : Db := insert_chart d new_chart.
Let k : nat := (List.length (user_charts d1 userId) - 20)%nat.
Let oldest : list SavedChart := firstn k (sort_by created_le (user_charts d1 userId)).
Let newer : list SavedChart := skipn k (sort_by created_le (user_charts d1 userId)).

Lemma saveChart_run_db :
  fst (run (saveChart env userId cd chartType periodStart periodEnd) d) = Done tt /\
  d' = delete_charts d1 (map chart_id oldest).
Proof.
  assert (Hrun : run (saveChart env userId cd chartType periodStart periodEnd) d
                 = cleanupOldCharts env userId default_maxCharts
                     {| db := d1;
                        trace := [DbCall InsertChart
                                    [userId; periodStart ++ " 감정 차트"; chartType;
                                     periodStart; periodEnd]] |}).
  { unfold run, saveChart. cbv zeta.
    unfold bind at 1. unfold emit at 1. cbn [db trace app].
    rewrite insert_ok. unfold bind at 1. unfold get_db at 1. unfold bind at 1.
    unfold set_db at 1. cbn [db trace]. reflexivity. }
  unfold d', final_db. rewrite Hrun. split.
  - destruct (cleanupOldCharts_never_throws env userId default_maxCharts
                {| db := d1;
                   trace := [DbCall InsertChart
                               [userId; periodStart ++ " 감정 차트"; chartType;
                                periodStart; periodEnd]] |}) as [[] H].
    exact H.
  - rewrite cleanupOldCharts_db_at. cbn [db].
    rewrite cleanupOldCharts_final_db by assumption. reflexivity.
Qed.

Lemma d1_ids_unique : NoDup (map chart_id (saved_charts d1)).
Proof.
  unfold d1, insert_chart. cbn [saved_charts]. rewrite map_app.
  apply (Permutation_NoDup (Permutation_cons_append _ _)).
  constructor; assumption.
Qed.

Lemma d1_user_charts : user_charts d1 userId = (user_charts d userId ++ [new_chart])%list.
Proof.
  unfold user_charts, d1, insert_chart. cbn [saved_charts]. rewrite filter_app.
  cbn [filter new_chart chart_user_id]. now rewrite String.eqb_refl.
Qed.

Lemma new_chart_not_oldest : ~ In new_chart oldest.
Proof.
  intros Hin.
  assert (Hlen : List.length newer = (List.length (user_charts d1 userId) - k)%nat)
    by (unfold newer; now rewrite length_skipn, sort_by_length).
  assert (Hk : (0 < k)%nat).
  { destruct (Nat.eq_dec k 0) as [E|E]; [|lia].
    unfold oldest in Hin. rewrite E in Hin. contradiction. }
  assert (Hnewer : newer <> []).
  { intros Hnil. rewrite Hnil in Hlen.
    change (@List.length SavedChart []) with 0%nat in Hlen.
    assert (Hk' : k = (List.length (user_charts d1 userId) - 20)%nat) by reflexivity.
    lia. }
  destruct newer as [|b rest] eqn:Hb; [congruence|].
  assert (Hbin : In b newer) by (rewrite Hb; now left).
  assert (Hsplit : sort_by created_le (user_charts d1 userId) = (oldest ++ newer)%list)
    by (symmetry; apply firstn_skipn).
  assert (Hle : created_at new_chart <= created_at b).
  { apply (strongly_sorted_app created_at oldest newer); try assumption.
    rewrite <- Hsplit. apply (sort_by_key_sorted created_at). }
  assert (Hnd : NoDup (oldest ++ newer)).
  { rewrite <- Hsplit. apply (sorted_NoDup (saved_charts d1) userId d1_ids_unique). }
  assert (Hb1 : In b (user_charts d1 userId)).
  { apply (sort_by_In created_le). rewrite Hsplit. apply in_or_app. now right. }
  rewrite d1_user_charts in Hb1. apply in_app_or in Hb1.
  destruct Hb1 as [Hold|[Heq|[]]].
  - unfold user_charts in Hold. apply filter_In in Hold. destruct Hold as [Hold _].
    pose proof (clock_ahead b Hold). cbn [new_chart created_at] in Hle. lia.
  - subst b. exact (NoDup_app_disjoint oldest newer new_chart Hnd Hin Hbin).
Qed.

(** After a save all of whose queries succeed (the id being new and the
    clock ahead of the stored charts), the new chart is stored and survives
    the cleanup, the user holds at most 20 charts, and nothing else was
    added. *)
Lemma saveChart_final_charts :
  fst (run (saveChart env userId cd chartType periodStart periodEnd) d) = Done tt /\
  In new_chart (saved_charts d') /\
  List.length (user_charts d' userId)
  = Nat.min (S (List.length (user_charts d userId))) 20 /\
  (forall c, In c (saved_charts d') -> c = new_chart \/ In c (saved_charts d)).
Proof.
  destruct saveChart_run_db as [Hdone Hd'].
  split; [exact Hdone|].
  assert (Hnew1 : In new_chart (saved_charts d1))
    by (unfold d1, insert_chart; cbn [saved_charts]; apply in_or_app; right; now left).
  split.
  { rewrite Hd'. unfold delete_charts. cbn [saved_charts]. apply filter_In.
    split; [exact Hnew1|].
    destruct (negb (existsb (String.eqb (chart_id new_chart)) (map chart_id oldest)))
      eqn:Hk; [reflexivity|].
    exfalso. apply new_chart_not_oldest.
    now apply (keep_false_iff (saved_charts d1) userId k d1_ids_unique new_chart Hnew1). }
  split.
  { assert (Hmine : user_charts d' userId
                    = filter (fun c => negb (existsb (String.eqb (chart_id c))
                                               (map chart_id oldest)))
                        (user_charts d1 userId)).
    { rewrite Hd'. unfold user_charts, delete_charts. cbn [saved_charts].
      apply filter_swap. }
    rewrite Hmine.
    etransitivity;
      [exact (kept_length (saved_charts d1) userId k d1_ids_unique)|].
    fold (user_charts d1 userId).
    assert (Hk' : k = (List.length (user_charts d1 userId) - 20)%nat) by reflexivity.
    rewrite d1_user_charts, length_app in *.
    cbn [List.length] in *. lia. }
  intros c Hc. rewrite Hd' in Hc. unfold delete_charts in Hc. cbn [saved_charts] in Hc.
  apply filter_In in Hc. destruct Hc as [Hc _].
  unfold d1, insert_chart in Hc. cbn [saved_charts] in Hc.
  apply in_app_or in Hc. destruct Hc as [Hc|[Hc|[]]]; auto.
Qed.

(** The newest-first list of the user's charts, read after the save, starts
    with the chart just saved. *)
Lemma saved_chart_listed_first (fails : StoreOp -> bool) (limit : nat) :
  fails SelectCharts = false -> (1 <= limit)%nat ->
  exists rest, getSavedCharts fails d' userId limit = Done (new_chart :: rest).
Proof.
  intros Hok Hlimit.
  destruct saveChart_final_charts as (_ & Hin & _ & Hsub).
  unfold getSavedCharts. rewrite Hok.
  pose proof (sort_created_ge_sorted (user_charts d' userId)) as Hs.
  pose proof (sort_by_perm created_ge (user_charts d' userId)) as Hp.
  assert (Hmine : In new_chart (user_charts d' userId)).
  { unfold user_charts. apply filter_In. split; [exact Hin|].
    cbn [new_chart chart_user_id]. apply String.eqb_refl. }
  apply (Permutation_in _ (Permutation_sym Hp)) in Hmine.
  destruct (sort_by created_ge (user_charts d' userId)) as [|h rest] eqn:Hsort;
    [contradiction|].
  assert (Hh : h = new_chart).
  { destruct Hmine as [Heq|Hrest]; [exact Heq|].
    inversion Hs as [|? ? _ Hall]; subst. rewrite Forall_forall in Hall.
    pose proof (Hall new_chart Hrest) as Hle.
    assert (Hhin : In h (user_charts d' userId))
      by (apply (Permutation_in _ Hp); now left).
    unfold user_charts in Hhin. apply filter_In in Hhin. destruct Hhin as [Hhin _].
    destruct (Hsub h Hhin) as [Heq|Hold]; [exact Heq|].
    pose proof (clock_ahead h Hold). cbn [new_chart created_at] in Hle. lia. }
  subst h. destruct limit as [|n]; [lia|]. cbn [firstn]. eauto.
Qed.

End SaveChart.

Section SaveChartTheorems.

Import ChartGenerator.
Import ChatService.
Import ChartStore.

(** A save all of whose queries succeed stores the new chart and keeps it
    through the cleanup: with a new id and a clock ahead of the stored
    charts, the chart is in the table afterwards, the user holds the smaller
    of 20 and one more chart than before, and no other chart was added. *)
Theorem saveChart_keeps_new_chart :
  forall (env : Env) (userId : string) (cd : ChartData)
         (chartType periodStart periodEnd : string) (d : Db),
    db_fails env InsertChart = false ->
    db_fails env CountCharts = false ->
    db_fails env SelectOldCharts = false ->
    db_fails env DeleteCharts = false ->
    NoDup (map chart_id (saved_charts d)) ->
    ~ In (db_uuid env) (map chart_id (saved_charts d)) ->
    (forall c, In c (saved_charts d) -> created_at c < db_now env) ->
    let new_chart :=
      {| chart_id := db_uuid env; chart_user_id := userId;
         chart_name := periodStart ++ " 감정 차트"; chart_type := chartType;
         chart_data := cd; period_start := periodStart; period_end := periodEnd;
         created_at := db_now env |} in
    let d' := final_db (saveChart env userId cd chartType periodStart periodEnd) d in
    fst (run (saveChart env userId cd chartType periodStart periodEnd) d) = Done tt /\
    In new_chart (saved_charts d') /\
    List.length (user_charts d' userId)
    = Nat.min (S (List.length (user_charts d userId))) 20 /\
    (forall c, In c (saved_charts d') -> c = new_chart \/ In c (saved_charts d)).
Proof.
  intros env userId cd chartType periodStart periodEnd d H1 H2 H3 H4 H5 H6 H7.
  exact (saveChart_final_charts env userId cd chartType periodStart periodEnd d
           H1 H2 H3 H4 H5 H6 H7).
Qed.

(** Save, then list: the chart just saved is the first of the user's
    newest-first chart list. *)
Theorem saveChart_then_getSavedCharts :
  forall (env : Env) (userId : string) (cd : ChartData)
         (chartType periodStart periodEnd : string) (d : Db)
         (fails : StoreOp -> bool) (limit : nat),
    db_fails env InsertChart = false ->
    db_fails env CountCharts = false ->
    db_fails env SelectOldCharts = false ->
    db_fails env DeleteCharts = false ->
    NoDup (map chart_id (saved_charts d)) ->
    ~ In (db_uuid env) (map chart_id (saved_charts d)) ->
    (forall c, In c (saved_charts d) -> created_at c < db_now env) ->
    fails SelectCharts = false ->
    (1 <= limit)%nat ->
    exists rest,
      getSavedCharts fails
        (final_db (saveChart env userId cd chartType periodStart periodEnd) d)
        userId limit
      = Done ({| chart_id := db_uuid env; chart_user_id := userId;
                 chart_name := periodStart ++ " 감정 차트"; chart_type := chartType;
                 chart_data := cd; period_start := periodStart;
                 period_end := periodEnd; created_at := db_now env |} :: rest).
Proof.
  intros env userId cd chartType periodStart periodEnd d fails limit
    H1 H2 H3 H4 H5 H6 H7 H8 H9.
  exact (saved_chart_listed_first env userId cd chartType periodStart periodEnd d
           H1 H2 H3 H4 H5 H6 H7 fails limit H8 H9).
Qed.

End SaveChartTheorems.

Lemma handleChatRequest_model_down_witness :
  ChatService.chat_messages
    (ChatService.final_db
       (ChatService.handleChatRequest lower_ascii iso_date_time env_model_down
          (sample_request (ChatService.JsString "안녕하세요")))
       db_empty)
  = [ {| ChatService.msg_id := "m-1"; ChatService.msg_user_id := "u1";
         ChatService.user_chat := "안녕하세요"; ChatService.ai_answer := None;
         ChatService.msg_created_at := 1711897200000 |} ].
Proof.
  assert (Htrim : JsStr.trim "안녕하세요" <> ""%string) by (vm_compute; discriminate).
  exact (proj2 (handleChatRequest_model_down lower_ascii iso_date_time env_model_down
                  (sample_request (ChatService.JsString "안녕하세요")) "안녕하세요"
                  db_empty eq_refl Htrim (fun _ => eq_refl) eq_refl eq_refl)).
Defined.

Lemma saveChart_keeps_new_chart_witness :
  List.length
    (ChatService.user_charts
       (ChatService.final_db
          (ChatService.saveChart env_ok "u1"
             {| ChartGenerator.labels := []; ChartGenerator.datasets := [] |}
             "line" "2024-03-01" "2024-03-31")
          db_full) "u1")
  = 20%nat.
Proof.
  assert (Hids : NoDup (map ChatService.chart_id (ChatService.saved_charts db_full)))
    by (apply nodupb_NoDup; vm_compute; reflexivity).
  assert (Hfresh : ~ In (ChatService.db_uuid env_ok)
                       (map ChatService.chart_id (ChatService.saved_charts db_full))).
  { intros Hin. apply (existsb_eqb_In _ _) in Hin. vm_compute in Hin. discriminate. }
  assert (Hclock : forall c, In c (ChatService.saved_charts db_full) ->
                             ChatService.created_at c < ChatService.db_now env_ok).
  { intros c Hc. apply Z.ltb_lt. revert c Hc.
    apply (proj1 (forallb_forall
                    (fun c => ChatService.created_at c <? ChatService.db_now env_ok)
                    (ChatService.saved_charts db_full))).
    vm_compute. reflexivity. }
  exact (proj1 (proj2 (proj2
           (saveChart_keeps_new_chart env_ok "u1"
              {| ChartGenerator.labels := []; ChartGenerator.datasets := [] |}
              "line" "2024-03-01" "2024-03-31" db_full
              eq_refl eq_refl eq_refl eq_refl Hids Hfresh Hclock)))).
Defined.

Lemma saveChart_then_getSavedCharts_witness :
  exists rest,
    ChartStore.getSavedCharts (fun _ => false)
      (ChatService.final_db
         (ChatService.saveChart env_ok "u1"
            {| ChartGenerator.labels := []; ChartGenerator.datasets := [] |}
            "line" "2024-03-01" "2024-03-31")
         db_full) "u1" 10
    = ChatService.Done
        ({| ChatService.chart_id := "c-new"; ChatService.chart_user_id := "u1";
            ChatService.chart_name := "2024-03-01 감정 차트";
            ChatService.chart_type := "line";
            ChatService.chart_data :=
              {| ChartGenerator.labels := []; ChartGenerator.datasets := [] |};
            ChatService.period_start := "2024-03-01";
            ChatService.period_end := "2024-03-31";
            ChatService.created_at := 1711897200000 |} :: rest).
Proof.
  assert (Hids : NoDup (map ChatService.chart_id (ChatService.saved_charts db_full)))
    by (apply nodupb_NoDup; vm_compute; reflexivity).
  assert (Hfresh : ~ In (ChatService.db_uuid env_ok)
                       (map ChatService.chart_id (ChatService.saved_charts db_full))).
  { intros Hin. apply (existsb_eqb_In _ _) in Hin. vm_compute in Hin. discriminate. }
  assert (Hclock : forall c, In c (ChatService.saved_charts db_full) ->
                             ChatService.created_at c < ChatService.db_now env_ok).
  { intros c Hc. apply Z.ltb_lt. revert c Hc.
    apply (proj1 (forallb_forall
                    (fun c => ChatService.created_at c <? ChatService.db_now env_ok)
                    (ChatService.saved_charts db_full))).
    vm_compute. reflexivity. }
  assert (Hlimit : (1 <= 10)%nat) by lia.
  exact (saveChart_then_getSavedCharts env_ok "u1"
           {| ChartGenerator.labels := []; ChartGenerator.datasets := [] |}
           "line" "2024-03-01" "2024-03-31" db_full (fun _ => false) 10%nat
           eq_refl eq_refl eq_refl eq_refl Hids Hfresh Hclock eq_refl Hlimit).
Defined.

(** ** The chart detail screen *)

Section DetailScreen.

Import ChartGenerator.
Import ChartDetail.

Variable toLowerCase : string -> string.
Variable Date_parse : string -> option Z.

(** The detail screen, given a chart made by [generateEmotionChart], draws it
    unless no row was valid or the radar type was selected: the generator's
    radar charts and its no-data descriptors both reach the branch for an
    unsupported chart type.  The number of data points it reports is the
    number of the chart's labels. *)
Theorem chart_detail_of_generated_chart :
  forall (rows : list MoodRecord) (question : string),
    let c := generateEmotionChart toLowerCase Date_parse rows question in
    (chart_view (Some c) = UnsupportedView <->
     filter (valid_item Date_parse) rows = [] \/
     selectChartTypeByRule toLowerCase question = "radar") /\
    chart_view (Some c) <> LoadErrorView /\
    data_points c = List.length (chart_labels c).
Proof.
  intros rows question c. unfold c. rewrite generateEmotionChart_cases.
  destruct (filter (valid_item Date_parse) rows) as [|v vs] eqn:Hvalid.
  - destruct rows; (split; [split; [now left | reflexivity]|]);
      split; [discriminate | reflexivity | discriminate | reflexivity].
  - cbv zeta.
    destruct (selectChartTypeByRule_range toLowerCase question)
      as [<-|[<-|[<-|[<-|[]]]]]; cbn [String.eqb Ascii.eqb Bool.eqb];
      (split; [split; [try discriminate; now right
                      | intros [H|H]; try discriminate; reflexivity]|]);
      (split; [discriminate|]).
    + cbn [data_points chart_labels generateLineChart labels datasets ds_data].
      now rewrite !length_map.
    + cbn [data_points chart_labels generateBarChart labels datasets ds_data].
      now rewrite length_map, Object_values_length.
    + cbn [data_points chart_labels generatePieChart labels datasets ds_data].
      now rewrite length_map, Object_values_length.
    + cbn [data_points chart_labels generateRadarChart labels datasets ds_data].
      now rewrite length_map, Object_values_length.
Qed.

End DetailScreen.

(** ** The date range shown with an analysis *)

Section ShownRange.

Import ChatService.


End ShownRange.

(** ** The chart read endpoints *)

Section ReadEndpoints.

Import ChatService.
Import ChartStore.

(** The two read endpoints of the saved charts.  [getChartByIdAPI] answers
    400 without a user id or a chart id; otherwise 200 exactly when the query
    succeeds and exactly one stored chart has that id and that user, the body
    then being that chart, and 500 in every other case, also for a chart of
    another user.  [getChartStatsAPI] answers 400 without a user id, 500 when
    the query fails, and otherwise 200 with the statistics of that user's
    charts. *)
Theorem chart_read_endpoints_status :
  forall (fails : StoreOp -> bool) (d : Db) (chartId user_id : option string),
    match truthy_str user_id, truthy_str chartId with
    | Some u, Some c =>
        let matching := filter (owned_by c u) (saved_charts d) in
        (fst (getChartByIdAPI fails d chartId user_id) = 200 <->
         fails SelectChart = false /\ List.length matching = 1%nat) /\
        (forall body, getChartByIdAPI fails d chartId user_id = (200, body) ->
           exists chart, body = ChartBody chart /\ In chart (saved_charts d) /\
                         chart_id chart = c /\ chart_user_id chart = u) /\
        (fst (getChartByIdAPI fails d chartId user_id) <> 200 ->
         fst (getChartByIdAPI fails d chartId user_id) = 500)
    | _, _ => fst (getChartByIdAPI fails d chartId user_id) = 400
    end /\
    match truthy_str user_id with
    | Some u =>
        if fails SelectStats
        then fst (getChartStatsAPI fails d user_id) = 500
        else exists stats,
               getChartStatsAPI fails d user_id = (200, StatsBody stats) /\
               getChartStats fails d u = Done stats /\
               totalCharts stats = Z.of_nat (List.length (user_charts d u))
    | None => fst (getChartStatsAPI fails d user_id) = 400
    end.
Proof.
  intros fails d chartId user_id. split.
  - unfold getChartByIdAPI.
    destruct (truthy_str user_id) as [u|]; [|reflexivity].
    destruct (truthy_str chartId) as [c|]; [|reflexivity].
    cbv zeta. unfold getChartById.
    destruct (fails SelectChart) eqn:Hf.
    + cbn [fst].
      split; [split; [discriminate | intros [H _]; discriminate]|].
      split; [intros body H; inversion H | intros _; reflexivity].
    + pose proof (fun x => proj1 (filter_In (owned_by c u) x (saved_charts d))) as Hin.
      destruct (filter (owned_by c u) (saved_charts d)) as [|x [|y rest]];
        cbn [fst List.length].
      * split; [split; [discriminate | intros [_ H]; discriminate]|].
        split; [intros body H; inversion H | intros _; reflexivity].
      * split; [split; [intros _; split; reflexivity | intros _; reflexivity]|].
        split; [|intros H; now contradiction H].
        intros body Hbody. inversion Hbody as [Hchart]. exists x.
        destruct (Hin x (or_introl eq_refl)) as [Hx Hown].
        unfold owned_by in Hown. apply andb_true_iff in Hown.
        destruct Hown as [Hid Huser]. apply String.eqb_eq in Hid, Huser. auto.
      * split; [split; [discriminate | intros [_ H]; discriminate]|].
        split; [intros body H; inversion H | intros _; reflexivity].
  - unfold getChartStatsAPI. destruct (truthy_str user_id) as [u|]; [|reflexivity].
    unfold getChartStats. destruct (fails SelectStats); [reflexivity|].
    cbv zeta. eexists. repeat split.
Qed.

End ReadEndpoints.
